(** * infra-deployer: a shallow embedding of [deploy-infra.py] and [release.py]

    The two scripts are sequential orchestration code: they parse
    arguments, touch a few files and call out to AWS, to [docker] and to
    [terraform].  Each script is embedded as a program in a small
    state-and-exception monad.  The state holds what the script can
    observe or change (files, the [Release] object, the log of external
    calls); everything an external system answers comes from an explicit
    environment record, so that every theorem holds for every possible
    behaviour of the outside world.

    Python [str] values are represented by their UTF-8 bytes (Rocq's
    [string]).  The separators the scripts search for are ASCII, and an
    ASCII byte never occurs inside a multi-byte UTF-8 sequence, so
    splitting and prefix tests agree with Python's on code points. *)

From Stdlib Require Import ZArith Ascii String List Lia.
From stdpp Require Import base option list gmap strings fin_maps.

Import ListNotations.
Local Open Scope string_scope.
Local Open Scope list_scope.

(* ===================================================================== *)
(** ** Python values shared by both scripts *)
(* ===================================================================== *)

Module Py.

(** The exceptions the scripts can meet.  [ClientError] carries
    [err.response['Error']['Code']]; [CalledProcessError] the return code
    of the child process; [SystemExit] the argument of [sys.exit]. *)
Inductive exn : Type :=
| ClientError (code : string)
| CalledProcessError (returncode : Z)
| SystemExit (status : Z)
| KeyError (key : string)
| ValueError (msg : string)
| TypeError (msg : string)
| IndexError (msg : string)
| OSError (msg : string)
| OtherError (name : string).

Inductive result (A : Type) : Type :=
| Ok (a : A)
| Raise (e : exn).
Arguments Ok {A} a.
Arguments Raise {A} e.

Definition is_ok {A} (r : result A) : bool :=
  match r with Ok _ => true | Raise _ => false end.

(** *** Characters and strings *)

Definition chr (n : nat) : string := String (ascii_of_nat n) EmptyString.
Definition dquote : string := chr 34.
Definition newline : string := chr 10.

(** [s.startswith(p)]; it is also what [re.compile('^' + p).search(s)]
    decides when [p] has no regular-expression metacharacter. *)
Fixpoint startswith (p s : string) : bool :=
  match p, s with
  | EmptyString, _ => true
  | String a p', String b s' => if Ascii.eqb a b then startswith p' s' else false
  | String _ _, EmptyString => false
  end.

(** [s.split(sep)] for a one-character separator: the pieces between
    consecutive separators, empty pieces included. *)
Fixpoint split_acc (sep : ascii) (cur : string) (s : string) : list string :=
  match s with
  | EmptyString => [String.rev cur]
  | String c s' =>
      if Ascii.eqb c sep then String.rev cur :: split_acc sep EmptyString s'
      else split_acc sep (String c cur) s'
  end.

Definition split (sep : ascii) (s : string) : list string :=
  split_acc sep EmptyString s.

(** [s[:n]] *)
Fixpoint take_prefix (n : nat) (s : string) : string :=
  match n, s with
  | O, _ => EmptyString
  | S _, EmptyString => EmptyString
  | S n', String c s' => String c (take_prefix n' s')
  end.

Fixpoint concat_strings (l : list string) : string :=
  match l with
  | [] => EmptyString
  | s :: l' => s +:+ concat_strings l'
  end.

(** [str.format] with keyword arguments [kw], for templates whose
    replacement fields are plain names: a doubled brace stands for one
    brace, [{name}] for the value of the keyword [name].  [field] is
    [Some acc] while the characters of a field name are being read
    ([acc] holds them in reverse). *)
Fixpoint format_from (kw : string -> option string) (field : option string) (s : string)
  : result string :=
  match field, s with
  | None, EmptyString => Ok EmptyString
  | None, String "{" (String "{" s') =>
      match format_from kw None s' with
      | Ok r => Ok (String "{" r)
      | Raise e => Raise e
      end
  | None, String "}" (String "}" s') =>
      match format_from kw None s' with
      | Ok r => Ok (String "}" r)
      | Raise e => Raise e
      end
  | None, String "{" s' => format_from kw (Some EmptyString) s'
  | None, String "}" _ => Raise (ValueError "Single '}' encountered in format string")
  | None, String c s' =>
      match format_from kw None s' with
      | Ok r => Ok (String c r)
      | Raise e => Raise e
      end
  | Some _, EmptyString => Raise (ValueError "expected '}' before end of string")
  | Some acc, String "}" s' =>
      match kw (String.rev acc) with
      | Some v =>
          match format_from kw None s' with
          | Ok r => Ok (v +:+ r)
          | Raise e => Raise e
          end
      | None => Raise (KeyError (String.rev acc))
      end
  | Some acc, String c s' => format_from kw (Some (String c acc)) s'
  end.

Definition format (template : string) (kw : gmap string string) : result string :=
  format_from (fun name => kw !! name) None template.

(** [template % args] where every conversion is [%s] and every argument a
    [str]. *)
Fixpoint percent (template : string) (args : list string) : result string :=
  match template with
  | EmptyString =>
      match args with
      | [] => Ok EmptyString
      | _ :: _ => Raise (TypeError "not all arguments converted during string formatting")
      end
  | String "%" (String "s" s') =>
      match args with
      | a :: args' =>
          match percent s' args' with
          | Ok r => Ok (a +:+ r)
          | Raise e => Raise e
          end
      | [] => Raise (TypeError "not enough arguments for format string")
      end
  | String "%" (String "%" s') =>
      match percent s' args with
      | Ok r => Ok (String "%" r)
      | Raise e => Raise e
      end
  | String "%" _ => Raise (ValueError "unsupported format character")
  | String c s' =>
      match percent s' args with
      | Ok r => Ok (String c r)
      | Raise e => Raise e
      end
  end.

(** *** Programs: state threaded through, exceptions propagated

    The state reached when an exception is raised is kept: what a script
    did before it failed stays done. *)
Definition M (St A : Type) : Type := St -> result A * St.

Definition ret {St A} (a : A) : M St A := fun w => (Ok a, w).

Definition raise {St A} (e : exn) : M St A := fun w => (Raise e, w).

Definition bind {St A B} (m : M St A) (k : A -> M St B) : M St B :=
  fun w =>
    match m w with
    | (Ok a, w') => k a w'
    | (Raise e, w') => (Raise e, w')
    end.

(** [try: m  except: handler(e)] *)
Definition try_except {St A} (m : M St A) (handler : exn -> M St A) : M St A :=
  fun w =>
    match m w with
    | (Ok a, w') => (Ok a, w')
    | (Raise e, w') => handler e w'
    end.

Definition lift {St A} (r : result A) : M St A := fun w => (r, w).

Definition get {St} : M St St := fun w => (Ok w, w).

Definition modify {St} (f : St -> St) : M St unit := fun w => (Ok tt, f w).

(** [for x in l: body(x)] *)
Fixpoint for_each {St A} (l : list A) (body : A -> M St unit) : M St unit :=
  match l with
  | [] => ret tt
  | x :: l' => bind (body x) (fun _ => for_each l' body)
  end.

(** [d[k]] *)
Definition subscript {St} (d : gmap string string) (k : string) : M St string :=
  match d !! k with
  | Some v => ret v
  | None => raise (KeyError k)
  end.

End Py.

Declare Scope py_scope.
Delimit Scope py_scope with py.
Notation "x <- m ; k" := (Py.bind m (fun x => k))
  (at level 100, m at next level, right associativity) : py_scope.
Notation "m ;; k" := (Py.bind m (fun _ => k))
  (at level 100, right associativity) : py_scope.

(* ===================================================================== *)
(** ** [hashlib.md5(...).hexdigest()] *)
(* ===================================================================== *)

(** RFC 1321 on 32-bit words held in [Z], the wrap-around written out. *)
Module MD5.

Local Open Scope Z_scope.

Definition mask32 : Z := 4294967295.
Definition w32 (x : Z) : Z := Z.land x mask32.
Definition not32 (x : Z) : Z := Z.lxor x mask32.
Definition add32 (x y : Z) : Z := w32 (x + y).
Definition rotl32 (x c : Z) : Z :=
  w32 (Z.lor (Z.shiftl x c) (Z.shiftr x (32 - c))).

Definition K : list Z :=
  [ 3614090360; 3905402710; 606105819; 3250441966; 4118548399; 1200080426;
    2821735955; 4249261313; 1770035416; 2336552879; 4294925233; 2304563134;
    1804603682; 4254626195; 2792965006; 1236535329; 4129170786; 3225465664;
    643717713; 3921069994; 3593408605; 38016083; 3634488961; 3889429448;
    568446438; 3275163606; 4107603335; 1163531501; 2850285829; 4243563512;
    1735328473; 2368359562; 4294588738; 2272392833; 1839030562; 4259657740;
    2763975236; 1272893353; 4139469664; 3200236656; 681279174; 3936430074;
    3572445317; 76029189; 3654602809; 3873151461; 530742520; 3299628645;
    4096336452; 1126891415; 2878612391; 4237533241; 1700485571; 2399980690;
    4293915773; 2240044497; 1873313359; 4264355552; 2734768916; 1309151649;
    4149444226; 3174756917; 718787259; 3951481745 ].

Definition shifts : list Z :=
  [ 7; 12; 17; 22; 7; 12; 17; 22; 7; 12; 17; 22; 7; 12; 17; 22;
    5; 9; 14; 20; 5; 9; 14; 20; 5; 9; 14; 20; 5; 9; 14; 20;
    4; 11; 16; 23; 4; 11; 16; 23; 4; 11; 16; 23; 4; 11; 16; 23;
    6; 10; 15; 21; 6; 10; 15; 21; 6; 10; 15; 21; 6; 10; 15; 21 ].

Definition bytes_of_string (s : string) : list Z :=
  map (fun c => Z.of_nat (nat_of_ascii c)) (list_ascii_of_string s).

(** Little-endian bytes of the low [n] bytes of [x]. *)
Fixpoint le_bytes (n : nat) (x : Z) : list Z :=
  match n with
  | O => []
  | S n' => Z.land x 255 :: le_bytes n' (Z.shiftr x 8)
  end.

(** The message, one [0x80] byte, zeros up to 56 modulo 64, then the bit
    length on 64 bits. *)
Definition pad (msg : list Z) : list Z :=
  let len := Z.of_nat (length msg) in
  let zeros := Z.to_nat ((55 - len) mod 64) in
  msg ++ [128] ++ repeat 0 zeros ++ le_bytes 8 (Z.land (8 * len) 18446744073709551615).

Fixpoint words_of_bytes (n : nat) (bs : list Z) : list Z :=
  match n with
  | O => []
  | S n' =>
      match bs with
      | b0 :: b1 :: b2 :: b3 :: rest =>
          (b0 + Z.shiftl b1 8 + Z.shiftl b2 16 + Z.shiftl b3 24) :: words_of_bytes n' rest
      | _ => []
      end
  end.

Record regs : Type := Regs { rA : Z; rB : Z; rC : Z; rD : Z }.

Definition init : regs :=
  Regs 1732584193 4023233417 2562383102 271733878.

Definition round_fun (i : Z) (b c d : Z) : Z * Z :=
  if i <? 16 then (Z.lor (Z.land b c) (Z.land (not32 b) d), i)
  else if i <? 32 then (Z.lor (Z.land d b) (Z.land (not32 d) c), (5 * i + 1) mod 16)
  else if i <? 48 then (Z.lxor (Z.lxor b c) d, (3 * i + 5) mod 16)
  else (Z.lxor c (Z.lor b (not32 d)), (7 * i) mod 16).

Definition step (m : list Z) (r : regs) (i : nat) : regs :=
  let '(f, g) := round_fun (Z.of_nat i) (rB r) (rC r) (rD r) in
  let f' := add32 (add32 (add32 f (rA r)) (nth i K 0)) (nth (Z.to_nat g) m 0) in
  Regs (rD r) (add32 (rB r) (rotl32 f' (nth i shifts 0))) (rB r) (rC r).

Definition compress (h : regs) (m : list Z) : regs :=
  let r := fold_left (step m) (seq 0 64) h in
  Regs (add32 (rA h) (rA r)) (add32 (rB h) (rB r))
       (add32 (rC h) (rC r)) (add32 (rD h) (rD r)).

(** The padded message is consumed 64 bytes at a time; [n] bounds the
    number of blocks. *)
Fixpoint blocks (n : nat) (bs : list Z) (h : regs) : regs :=
  match n with
  | O => h
  | S n' =>
      match bs with
      | [] => h
      | _ => blocks n' (skipn 64 bs) (compress h (words_of_bytes 16 (firstn 64 bs)))
      end
  end.

Definition digest (msg : list Z) : list Z :=
  let p := pad msg in
  let h := blocks (S (length p / 64)) p init in
  le_bytes 4 (rA h) ++ le_bytes 4 (rB h) ++ le_bytes 4 (rC h) ++ le_bytes 4 (rD h).

Definition hex_digit (n : Z) : ascii :=
  nth (Z.to_nat n) (list_ascii_of_string "0123456789abcdef") "0"%char.

Fixpoint hex_of_bytes (bs : list Z) : string :=
  match bs with
  | [] => EmptyString
  | b :: bs' => String (hex_digit (Z.shiftr b 4)) (String (hex_digit (Z.land b 15)) (hex_of_bytes bs'))
  end.

(** [hashlib.md5(s.encode('utf-8')).hexdigest()] *)
Definition hexdigest (s : string) : string :=
  hex_of_bytes (digest (bytes_of_string s)).

End MD5.


(* ===================================================================== *)
(** ** [deploy-infra.py]: the wrapper around terraform *)
(* ===================================================================== *)

Module DeployInfra.
Import Py.
Local Open Scope py_scope.

Definition s3_bucket_prefix : string := "terraform-tfstate-".
Definition required_vars : list string :=
  ["env"; "component"; "state_aws_region"; "aws_region"; "account_id"].
Definition optional_vars : list string := ["state_aws_region"].

(** *** The world the script runs in *)

(** One node per path.  Relative paths are relative to the directory the
    script is started in.  Writing does not follow symbolic links. *)
Inductive node : Type :=
| File (content : string)
| Dir
| Symlink (target : string).

(** [priv_role['Credentials']] of an STS [assume_role] response. *)
Record Credentials : Type := {
  AccessKeyId : string;
  SecretAccessKey : string;
  SessionToken : string
}.

(** Every operation that leaves the interpreter, in program order; a
    call to the outside is logged with the answer it got. *)
Inductive Event : Type :=
| StderrWrite (text : string)
| OsRemove (path : string)
| Rmtree (path : string)
| OpenW (path : string)
| FileWrite (path : string) (text : string)
| OsSymlink (src dst : string)
| StsAssumeRole (RoleArn RoleSessionName : string) (answer : result Credentials)
| GenerateDecryptedCredentials (team component env : string) (answer : result string)
| CheckCall (argv : list string) (env : gmap string string) (cwd : string)
    (answer : result Z).

Record World : Type := {
  fs : gmap string node;
  environ : gmap string string;
  log : list Event
}.

Definition with_fs (f : gmap string node -> gmap string node) (w : World) : World :=
  {| fs := f (fs w); environ := environ w; log := log w |}.

Definition with_log (f : list Event -> list Event) (w : World) : World :=
  {| fs := fs w; environ := environ w; log := f (log w) |}.

(** What the outside answers: STS, the secrets helper of [util] and child
    processes.  Each answer may depend on everything that happened so
    far; a child process and the secrets helper may also change files. *)
Record Outside : Type := {
  sts_assume_role : World -> string -> string -> result Credentials;
  generate_decrypted_credentials :
    World -> string -> string -> string -> gmap string string ->
    result string * gmap string node;
  run_process :
    World -> list string -> gmap string string -> string ->
    result Z * gmap string node
}.

Definition emit (e : Event) : M World unit := modify (with_log (fun l => l ++ [e])).

(** *** File operations *)

Fixpoint drop_basename (rev_path : string) : string :=
  match rev_path with
  | EmptyString => EmptyString
  | String c rest => if Ascii.eqb c "/" then rest else drop_basename rest
  end.

(** The directory part of a path; empty for a bare name. *)
Definition dirname (path : string) : string :=
  String.rev (drop_basename (String.rev path)).

(** A new entry can be created at [path] when its directory exists. *)
Definition parent_is_dir (m : gmap string node) (path : string) : bool :=
  match dirname path with
  | EmptyString => true
  | d => match m !! d with Some Dir => true | _ => false end
  end.

Definition under (dir : string) (kv : string * node) : Prop :=
  startswith (dir +:+ "/") (fst kv) = true.

#[global] Instance under_dec dir kv : Decision (under dir kv).
Proof. unfold under. apply _. Defined.

(** [os.remove(path)] *)
Definition os_remove (path : string) : M World unit :=
  emit (OsRemove path) ;;
  w <- get ;
  match fs w !! path with
  | Some (File _) | Some (Symlink _) => modify (with_fs (delete path))
  | Some Dir => raise (OSError "IsADirectoryError")
  | None => raise (OSError "FileNotFoundError")
  end.

(** [shutil.rmtree(path)]: the directory and everything below it. *)
Definition shutil_rmtree (path : string) : M World unit :=
  emit (Rmtree path) ;;
  w <- get ;
  match fs w !! path with
  | Some Dir =>
      modify (with_fs (fun m => filter (fun kv => ~ under path kv) (delete path m)))
  | Some (File _) => raise (OSError "NotADirectoryError")
  | Some (Symlink _) => raise (OSError "Cannot call rmtree on a symbolic link")
  | None => raise (OSError "FileNotFoundError")
  end.

(** [open(path, 'w')]: the file is created or truncated. *)
Definition open_w (path : string) : M World unit :=
  emit (OpenW path) ;;
  w <- get ;
  match fs w !! path with
  | Some Dir => raise (OSError "IsADirectoryError")
  | _ =>
      if parent_is_dir (fs w) path
      then modify (with_fs (insert path (File EmptyString)))
      else raise (OSError "FileNotFoundError")
  end.

(** [f.write(text)] on a file opened at [path]. *)
Definition file_write (path text : string) : M World unit :=
  emit (FileWrite path text) ;;
  modify (with_fs (fun m =>
    match m !! path with
    | Some (File old) => <[path := File (old +:+ text)]> m
    | _ => <[path := File text]> m
    end)).

(** [os.symlink(src, dst)] *)
Definition os_symlink (src dst : string) : M World unit :=
  emit (OsSymlink src dst) ;;
  w <- get ;
  match fs w !! dst with
  | Some _ => raise (OSError "FileExistsError")
  | None =>
      if parent_is_dir (fs w) dst
      then modify (with_fs (insert dst (Symlink src)))
      else raise (OSError "FileNotFoundError")
  end.

Definition stderr_write (text : string) : M World unit := emit (StderrWrite text).

Definition sys_exit {A} (status : Z) : M World A := raise (SystemExit status).

(** *** The script *)

(** The template of [generate_terraform_config], a local constant of the
    function. *)
Definition state_config_template : string :=
  concat_strings [
    newline;
    "terraform {{"; newline;
    "  backend "; dquote; "s3"; dquote; " {{"; newline;
    "    bucket = "; dquote; "{s3_bucket}"; dquote; newline;
    "    key    = "; dquote; "{env}/{component}/terraform.tfstate"; dquote; newline;
    "    region = "; dquote; "{region}"; dquote; newline;
    "    dynamodb_table = "; dquote; "terraform_locks"; dquote; newline;
    "  }}"; newline;
    "}}"; newline ].

Section Script.

Variable outside : Outside.

(** [check_call(argv, env=env, cwd=cwd)] *)
Definition check_call (argv : list string) (env : gmap string string) (cwd : string)
  : M World unit :=
  w <- get ;
  let '(r, fs') := run_process outside w argv env cwd in
  emit (CheckCall argv env cwd r) ;;
  modify (with_fs (fun _ => fs')) ;;
  match r with
  | Ok 0%Z => ret tt
  | Ok rc => raise (CalledProcessError rc)
  | Raise e => raise e
  end.

Definition generate_terraform_config (parsed_args : gmap string string) : M World unit :=
  aws_region <- subscript parsed_args "aws_region" ;
  let region := default aws_region (parsed_args !! "state_aws_region") in
  environment <- subscript parsed_args "env" ;
  component_name <- subscript parsed_args "component" ;
  account_id <- subscript parsed_args "account_id" ;
  let s3_bucket_suffix := take_prefix 6 (MD5.hexdigest account_id) in
  let s3_bucket_name := s3_bucket_prefix +:+ s3_bucket_suffix in
  state_file_id <- lift (format "{env}-{component}"
                     (<["env" := environment]> (<["component" := component_name]> ∅))) ;
  open_w "infra/state.tf" ;;
  t <- lift (format state_config_template
         (<["region" := region]> (<["s3_bucket" := s3_bucket_name]>
          (<["env" := environment]> (<["component" := component_name]> ∅))))) ;
  file_write "infra/state.tf" t.

Definition assume_role (parsed_args : gmap string string) : M World Credentials :=
  account_id <- subscript parsed_args "account_id" ;
  let admin_role_arn := "arn:aws:iam::" +:+ account_id +:+ ":role/admin" in
  w <- get ;
  let priv_role := sts_assume_role outside w admin_role_arn "terraform" in
  emit (StsAssumeRole admin_role_arn "terraform" priv_role) ;;
  lift priv_role.

Definition terraform (all_args : list string) (parsed_args : gmap string string)
    (role_creds : Credentials) : M World unit :=
  let priv_creds := role_creds in
  w <- get ;
  let env := environ w in
  let env := <["AWS_ACCESS_KEY_ID" := AccessKeyId priv_creds]> env in
  let env := <["AWS_SECRET_ACCESS_KEY" := SecretAccessKey priv_creds]> env in
  let env := <["AWS_SESSION_TOKEN" := SessionToken priv_creds]> env in
  aws_region <- subscript parsed_args "aws_region" ;
  let env := <["AWS_DEFAULT_REGION" := aws_region]> env in
  component <- subscript parsed_args "component" ;
  environment <- subscript parsed_args "env" ;
  w <- get ;
  let '(r, fs') := generate_decrypted_credentials outside w "platform" component environment env in
  emit (GenerateDecryptedCredentials "platform" component environment r) ;;
  modify (with_fs (fun _ => fs')) ;;
  tmp_secrets <- lift r ;
  os_symlink tmp_secrets "/tmp/secrets.json" ;;
  check_call ["terraform"; "init"] env "infra" ;;
  check_call ("terraform" :: all_args) env "infra".

Definition cleanup : M World unit :=
  try_except (os_remove "infra/state.tf") (fun _ => ret tt) ;;
  try_except (shutil_rmtree "infra/.terraform") (fun _ => ret tt).

(** The two search loops of [parse_args]: for one variable, every
    argument that starts with [var=] overwrites the value found so far. *)
Fixpoint scan_args (var : string) (args : list string) (found_vars : gmap string string)
  : result (gmap string string) :=
  match args with
  | [] => Ok found_vars
  | arg :: rest =>
      if startswith (var +:+ "=") arg then
        match split "=" arg with
        | _ :: value :: _ => scan_args var rest (<[var := value]> found_vars)
        | _ => Raise (IndexError "list index out of range")
        end
      else scan_args var rest found_vars
  end.

Fixpoint scan_vars (vars : list string) (args : list string)
    (found_vars : gmap string string) : result (gmap string string) :=
  match vars with
  | [] => Ok found_vars
  | var :: vars' =>
      match scan_args var args found_vars with
      | Ok found_vars' => scan_vars vars' args found_vars'
      | Raise e => Raise e
      end
  end.

Definition missing_variable_message (var : string) : string :=
  "Error: Please specify missing variable: -var " +:+ var +:+ "=<value>".

Definition parse_args (args : list string) : M World (gmap string string) :=
  found_vars <- lift (scan_vars required_vars args ∅) ;
  found_vars <- lift (scan_vars optional_vars args found_vars) ;
  for_each required_vars (fun var =>
    match found_vars !! var with
    | Some _ => ret tt
    | None =>
        stderr_write (missing_variable_message var) ;;
        sys_exit 1
    end) ;;
  ret found_vars.

(** [sys_argv] is [sys.argv]: the script's own name, then the operator's
    arguments. *)
Definition main (sys_argv : list string) : M World unit :=
  let all_args := skipn 1 sys_argv in
  parsed_args <- parse_args all_args ;
  cleanup ;;
  role_creds <- assume_role parsed_args ;
  generate_terraform_config parsed_args ;;
  terraform all_args parsed_args role_creds ;;
  cleanup.

End Script.

(** *** What is read off a log *)

(** The argument vectors of the child processes, in order. *)
Fixpoint tool_argvs (l : list Event) : list (list string) :=
  match l with
  | [] => []
  | CheckCall argv _ _ _ :: l' => argv :: tool_argvs l'
  | _ :: l' => tool_argvs l'
  end.

Definition is_check_call (e : Event) : bool :=
  match e with CheckCall _ _ _ _ => true | _ => false end.

(** The events that follow the last child process; [None] when no child
    process was started. *)
Fixpoint after_last_call (l : list Event) : option (list Event) :=
  match l with
  | [] => None
  | e :: l' =>
      match after_last_call l' with
      | Some suffix => Some suffix
      | None => if is_check_call e then Some l' else None
      end
  end.

(** The two operations of one [cleanup()]. *)
Definition cleanup_events : list Event :=
  [OsRemove "infra/state.tf"; Rmtree "infra/.terraform"].

Definition is_cleanup_start (e : Event) : bool :=
  match e with OsRemove path => String.eqb path "infra/state.tf" | _ => false end.

(** How many times [cleanup()] started after the last child process. *)
Definition cleanups_after_tool (l : list Event) : nat :=
  match after_last_call l with
  | Some suffix => length (List.filter is_cleanup_start suffix)
  | None => 0
  end.

(** *** The backend configuration, as the specification describes it *)

Definition bucket_name (account_id : string) : string :=
  "terraform-tfstate-" +:+ take_prefix 6 (MD5.hexdigest account_id).

Definition backend_config_text (bucket environment component region : string) : string :=
  concat_strings [
    newline;
    "terraform {"; newline;
    "  backend "; dquote; "s3"; dquote; " {"; newline;
    "    bucket = "; dquote; bucket; dquote; newline;
    "    key    = "; dquote; environment; "/"; component; "/terraform.tfstate"; dquote; newline;
    "    region = "; dquote; region; dquote; newline;
    "    dynamodb_table = "; dquote; "terraform_locks"; dquote; newline;
    "  }"; newline;
    "}"; newline ].

(** *** The runs of [main]

    Every run of [main] leaves one of eight logs: it stops at the first
    step that fails, and only a run in which both terraform processes
    exit with status zero reaches the second [cleanup()]. *)

Definition state_path : string := "infra/state.tf".
Definition secrets_path : string := "/tmp/secrets.json".

Definition configured (arn : string) (creds : Credentials) (text : string) : list Event :=
  cleanup_events ++
  [StsAssumeRole arn "terraform" (Ok creds); OpenW state_path; FileWrite state_path text].

Definition prepared (arn : string) (creds : Credentials) (text : string)
    (component environment tmp_secrets : string) : list Event :=
  configured arn creds text ++
  [GenerateDecryptedCredentials "platform" component environment (Ok tmp_secrets);
   OsSymlink tmp_secrets secrets_path].

(** The logs of [terraform(all_args, parsed_args, role_creds)]. *)
Inductive terraform_shape (all_args : list string) (component environment : string)
  : result unit -> list Event -> Prop :=
| tf_secrets_failed e :
    terraform_shape all_args component environment (Raise e)
      [GenerateDecryptedCredentials "platform" component environment (Raise e)]
| tf_symlink_failed tmp_secrets e :
    terraform_shape all_args component environment (Raise e)
      [GenerateDecryptedCredentials "platform" component environment (Ok tmp_secrets);
       OsSymlink tmp_secrets secrets_path]
| tf_init_failed tmp_secrets env answer e :
    answer <> Ok 0%Z ->
    terraform_shape all_args component environment (Raise e)
      [GenerateDecryptedCredentials "platform" component environment (Ok tmp_secrets);
       OsSymlink tmp_secrets secrets_path;
       CheckCall ["terraform"; "init"] env "infra" answer]
| tf_tool_failed tmp_secrets env answer e :
    answer <> Ok 0%Z ->
    terraform_shape all_args component environment (Raise e)
      [GenerateDecryptedCredentials "platform" component environment (Ok tmp_secrets);
       OsSymlink tmp_secrets secrets_path;
       CheckCall ["terraform"; "init"] env "infra" (Ok 0%Z);
       CheckCall ("terraform" :: all_args) env "infra" answer]
| tf_done tmp_secrets env :
    terraform_shape all_args component environment (Ok tt)
      [GenerateDecryptedCredentials "platform" component environment (Ok tmp_secrets);
       OsSymlink tmp_secrets secrets_path;
       CheckCall ["terraform"; "init"] env "infra" (Ok 0%Z);
       CheckCall ("terraform" :: all_args) env "infra" (Ok 0%Z)].

Inductive run_shape (all_args : list string) : result unit -> list Event -> Prop :=
| run_usage_error var :
    run_shape all_args (Raise (SystemExit 1)) [StderrWrite (missing_variable_message var)]
| run_role_refused arn e :
    run_shape all_args (Raise e) (cleanup_events ++ [StsAssumeRole arn "terraform" (Raise e)])
| run_open_failed arn creds e :
    run_shape all_args (Raise e)
      (cleanup_events ++ [StsAssumeRole arn "terraform" (Ok creds); OpenW state_path])
| run_secrets_failed arn creds text component environment e :
    run_shape all_args (Raise e)
      (configured arn creds text ++
       [GenerateDecryptedCredentials "platform" component environment (Raise e)])
| run_symlink_failed arn creds text component environment tmp_secrets e :
    run_shape all_args (Raise e)
      (prepared arn creds text component environment tmp_secrets)
| run_init_failed arn creds text component environment tmp_secrets env answer e :
    answer <> Ok 0%Z ->
    run_shape all_args (Raise e)
      (prepared arn creds text component environment tmp_secrets ++
       [CheckCall ["terraform"; "init"] env "infra" answer])
| run_tool_failed arn creds text component environment tmp_secrets env answer e :
    answer <> Ok 0%Z ->
    run_shape all_args (Raise e)
      (prepared arn creds text component environment tmp_secrets ++
       [CheckCall ["terraform"; "init"] env "infra" (Ok 0%Z);
        CheckCall ("terraform" :: all_args) env "infra" answer])
| run_done arn creds text component environment tmp_secrets env :
    run_shape all_args (Ok tt)
      (prepared arn creds text component environment tmp_secrets ++
       [CheckCall ["terraform"; "init"] env "infra" (Ok 0%Z);
        CheckCall ("terraform" :: all_args) env "infra" (Ok 0%Z)] ++
       cleanup_events).

(** *** Sample surroundings, to run the script on concrete inputs *)

Definition sample_credentials : Credentials :=
  {| AccessKeyId := "ASIAEXAMPLE"; SecretAccessKey := "secret"; SessionToken := "token" |}.

(** STS and the secrets helper answer; [terraform init] creates its
    working directory; the operator's terraform command exits with
    [tool_status]. *)
Definition sample_outside (tool_status : Z) : Outside := {|
  sts_assume_role := fun _ _ _ => Ok sample_credentials;
  generate_decrypted_credentials := fun w _ _ _ _ =>
    (Ok "/tmp/tmpsecrets", <["/tmp/tmpsecrets" := File "{}"]> (fs w));
  run_process := fun w argv _ _ =>
    if decide (argv = ["terraform"; "init"])
    then (Ok 0%Z, <["infra/.terraform" := Dir]> (fs w))
    else (Ok tool_status, fs w)
|}.

Definition sample_world : World := {|
  fs := <["infra" := Dir]> (<["infra/main.tf" := File "# resources"]> (<["/tmp" := Dir]> ∅));
  environ := <["PATH" := "/usr/bin"]> ∅;
  log := []
|}.

(** The example scenario of the specification. *)
Definition sample_argv : list string :=
  ["deploy-infra.py"; "env=staging"; "component=payments"; "state_aws_region=eu-west-1";
   "aws_region=eu-west-1"; "account_id=123456789012"; "plan"].

(** Two dictionaries that agree on the account, the environment, the
    component and the state region, and a second world. *)
Definition sample_parsed_args : gmap string string :=
  <["account_id" := "123456789012"]> (<["aws_region" := "eu-west-1"]>
  (<["env" := "staging"]> (<["component" := "payments"]> ∅))).

Definition sample_parsed_args_2 : gmap string string :=
  <["account_id" := "123456789012"]> (<["aws_region" := "us-east-1"]>
  (<["state_aws_region" := "eu-west-1"]>
  (<["env" := "staging"]> (<["component" := "payments"]> ∅)))).

Definition sample_world_2 : World :=
  {| fs := <["infra" := Dir]> ∅; environ := ∅; log := cleanup_events |}.

(** *** Readings of the source for the further properties *)

(** [var] has an assignment among [args]. *)
Definition assigned (var : string) (args : list string) : bool :=
  existsb (startswith (var +:+ "=")) args.

(** The last argument that assigns [var]. *)
Definition last_assignment (var : string) (args : list string) : option string :=
  List.find (startswith (var +:+ "=")) (List.rev args).

(** [s[n:]] *)
Fixpoint drop_chars (n : nat) (s : string) : string :=
  match n, s with
  | O, _ => s
  | S _, EmptyString => EmptyString
  | S n', String _ s' => drop_chars n' s'
  end.

(** The text of [s] before the first [c], all of [s] when [c] does not
    occur. *)
Fixpoint up_to (c : ascii) (s : string) : string :=
  match s with
  | EmptyString => EmptyString
  | String x s' => if Ascii.eqb x c then EmptyString else String x (up_to c s')
  end.

Fixpoint occurs (c : ascii) (s : string) : bool :=
  match s with
  | EmptyString => false
  | String x s' => Ascii.eqb x c || occurs c s'
  end.

(** What an assignment [var=value] gives to [var]: the text after the
    first equals sign, up to the next one. *)
Definition assigned_value (var arg : string) : string :=
  up_to "=" (drop_chars (String.length var + 1) arg).

(** What the arguments give to [var]. *)
Definition value_of (var : string) (args : list string) : option string :=
  assigned_value var <$> last_assignment var args.

Fixpoint all_chars (p : ascii -> bool) (s : string) : bool :=
  match s with
  | EmptyString => true
  | String x s' => p x && all_chars p s'
  end.

Definition is_hex_digit (c : ascii) : bool :=
  existsb (Ascii.eqb c) (list_ascii_of_string "0123456789abcdef").

(** The keys that [generate_terraform_config] subscripts, in the order
    in which it does. *)
Definition config_keys : list string := ["aws_region"; "env"; "component"; "account_id"].

Definition terraform_dir : string := "infra/.terraform".

Definition is_dir (m : gmap string node) (path : string) : bool :=
  match m !! path with Some Dir => true | _ => false end.

(** [path] is the working directory of terraform or lies below it. *)
Definition in_terraform_dir (path : string) : bool :=
  String.eqb path terraform_dir || startswith (terraform_dir +:+ "/") path.

(** The role that [assume_role] asks for. *)
Definition role_arn (account_id : string) : string :=
  "arn:aws:iam::" +:+ account_id +:+ ":role/admin".

(** What [check_call] makes of the answer of the child process. *)
Definition call_result (answer : result Z) : result unit :=
  match answer with
  | Ok 0%Z => Ok tt
  | Ok rc => Raise (CalledProcessError rc)
  | Raise e => Raise e
  end.

(** The environment that [terraform] builds for the child processes. *)
Definition child_env (environ0 : gmap string string) (aws_region : string)
    (creds : Credentials) : gmap string string :=
  <["AWS_DEFAULT_REGION" := aws_region]>
    (<["AWS_SESSION_TOKEN" := SessionToken creds]>
       (<["AWS_SECRET_ACCESS_KEY" := SecretAccessKey creds]>
          (<["AWS_ACCESS_KEY_ID" := AccessKeyId creds]> environ0))).

(** The logs of [terraform(all_args, parsed_args, role_creds)] with the
    environment [env] of the child processes, and the result for each. *)
Inductive terraform_detail (all_args : list string) (env : gmap string string)
    (component environment : string) : result unit -> list Event -> Prop :=
| td_secrets_failed e :
    terraform_detail all_args env component environment (Raise e)
      [GenerateDecryptedCredentials "platform" component environment (Raise e)]
| td_symlink_failed tmp_secrets e :
    terraform_detail all_args env component environment (Raise (OSError e))
      [GenerateDecryptedCredentials "platform" component environment (Ok tmp_secrets);
       OsSymlink tmp_secrets secrets_path]
| td_init_failed tmp_secrets answer :
    answer <> Ok 0%Z ->
    terraform_detail all_args env component environment (call_result answer)
      [GenerateDecryptedCredentials "platform" component environment (Ok tmp_secrets);
       OsSymlink tmp_secrets secrets_path;
       CheckCall ["terraform"; "init"] env "infra" answer]
| td_tool_failed tmp_secrets answer :
    answer <> Ok 0%Z ->
    terraform_detail all_args env component environment (call_result answer)
      [GenerateDecryptedCredentials "platform" component environment (Ok tmp_secrets);
       OsSymlink tmp_secrets secrets_path;
       CheckCall ["terraform"; "init"] env "infra" (Ok 0%Z);
       CheckCall ("terraform" :: all_args) env "infra" answer]
| td_done tmp_secrets :
    terraform_detail all_args env component environment (Ok tt)
      [GenerateDecryptedCredentials "platform" component environment (Ok tmp_secrets);
       OsSymlink tmp_secrets secrets_path;
       CheckCall ["terraform"; "init"] env "infra" (Ok 0%Z);
       CheckCall ("terraform" :: all_args) env "infra" (Ok 0%Z)].

(** The runs of [main] once the arguments are parsed, with what each
    event carries: the role, the text of the backend configuration, the
    environment of the child processes. *)
Inductive run_detail (all_args : list string) (environ0 : gmap string string)
    (account environment component aws_region state_region : string)
  : result unit -> list Event -> Prop :=
| detail_role_refused e :
    run_detail all_args environ0 account environment component aws_region state_region
      (Raise e)
      (cleanup_events ++ [StsAssumeRole (role_arn account) "terraform" (Raise e)])
| detail_open_failed creds e :
    run_detail all_args environ0 account environment component aws_region state_region
      (Raise (OSError e))
      (cleanup_events ++
       [StsAssumeRole (role_arn account) "terraform" (Ok creds); OpenW state_path])
| detail_terraform_failed creds e new :
    terraform_detail all_args (child_env environ0 aws_region creds) component environment
      (Raise e) new ->
    run_detail all_args environ0 account environment component aws_region state_region
      (Raise e)
      (configured (role_arn account) creds
         (backend_config_text (bucket_name account) environment component state_region) ++
       new)
| detail_done creds new :
    terraform_detail all_args (child_env environ0 aws_region creds) component environment
      (Ok tt) new ->
    run_detail all_args environ0 account environment component aws_region state_region
      (Ok tt)
      (configured (role_arn account) creds
         (backend_config_text (bucket_name account) environment component state_region) ++
       new ++ cleanup_events).

(** The secrets helper does not remove the link at [secrets_path]. *)
Definition helper_keeps_secrets_link (outside : Outside) : Prop :=
  forall w service component environment env,
    is_Some (fs w !! secrets_path) ->
    is_Some ((generate_decrypted_credentials outside w service component environment env).2
             !! secrets_path).

(** Arguments that assign a variable twice and hold a second equals
    sign, and the dictionary [parse_args] makes of them. *)
Definition sample_args_repeated : list string :=
  ["-var"; "env=dev"; "-var"; "env=live=eu"; "component=payments";
   "state_aws_region=eu-west-1"; "aws_region=us-east-1"; "account_id=123456789012";
   "-var=env=ignored"; "apply"].

Definition sample_found_repeated : gmap string string :=
  <["env" := "live"]> (<["component" := "payments"]> (<["state_aws_region" := "eu-west-1"]>
  (<["aws_region" := "us-east-1"]> (<["account_id" := "123456789012"]> ∅)))).

(** A dictionary with the state region but not the region. *)
Definition sample_parsed_args_state_only : gmap string string :=
  <["account_id" := "123456789012"]> (<["state_aws_region" := "eu-west-1"]>
  (<["env" := "staging"]> (<["component" := "payments"]> ∅))).

(** A world without the directory [infra]. *)
Definition sample_world_bare : World := {|
  fs := <["/tmp" := Dir]> ∅;
  environ := <["PATH" := "/usr/bin"]> ∅;
  log := []
|}.

(** A world in which a previous run left its files behind. *)
Definition sample_world_stale : World := {|
  fs := <["infra" := Dir]> (<["infra/state.tf" := File "stale"]>
        (<["infra/.terraform" := Dir]> (<["infra/.terraform/plugins" := File "lock"]>
        (<["infra/main.tf" := File "# resources"]> (<["/tmp" := Dir]>
        (<["/tmp/secrets.json" := Symlink "/tmp/old"]> ∅))))));
  environ := <["AWS_ACCESS_KEY_ID" := "caller"]> (<["PATH" := "/usr/bin"]> ∅);
  log := []
|}.

End DeployInfra.

(* ===================================================================== *)
(** ** [release.py]: build and release a container image *)
(* ===================================================================== *)

Module Release.
Import Py.
Local Open Scope py_scope.

Definition PREFIX : string := "infra/release: ".

(** A boto3 session obtained from [util.assume_role]; the ECR client made
    from it is identified with it. *)
Definition Session : Type := string.

(** One entry of [get_authorization_token()['authorizationData']]. *)
Record AuthorizationData : Type := {
  authorizationToken : string;
  proxyEndpoint : string
}.

(** The document handed to [json.dumps]. *)
#[warnings="-register-all"]
Inductive json : Type :=
| JString (s : string)
| JList (items : list json)
| JObject (members : list (string * json)).

(** The [Release] object: what [__init__] stored in [self]. *)
Record Release : Type := {
  version : option string;
  component_name : string;
  metadata : gmap string string;
  account_id : string;
  prod_account_id : string;
  ecr_image_name : string;
  aws : option Session
}.

(** Every operation that leaves the interpreter, in program order, with
    the answer it got. *)
Inductive Event : Type :=
| Print (text : string)
| ShellRunnerRun (command : string) (answer : result unit)
| Executable (path : string) (answer : bool)
| CheckCall (command : string) (answer : result Z)
| AssumeRole (region account : string) (answer : result Session)
| DescribeRepositories (repositoryNames : list string) (answer : result unit)
| CreateRepository (repositoryName : string) (answer : result unit)
| SetRepositoryPolicy (repositoryName : string) (policy : json) (answer : result unit)
| GetAuthorizationToken (answer : result (list AuthorizationData)).

Record State : Type := {
  self : Release;
  log : list Event
}.

Definition with_log (f : list Event -> list Event) (s : State) : State :=
  {| self := self s; log := f (log s) |}.

Definition set_aws (a : option Session) (s : State) : State :=
  {| self := {| version := version (self s);
                component_name := component_name (self s);
                metadata := metadata (self s);
                account_id := account_id (self s);
                prod_account_id := prod_account_id (self s);
                ecr_image_name := ecr_image_name (self s);
                aws := a |};
     log := log s |}.

Definition set_metadata (k v : string) (s : State) : State :=
  {| self := {| version := version (self s);
                component_name := component_name (self s);
                metadata := <[k := v]> (metadata (self s));
                account_id := account_id (self s);
                prod_account_id := prod_account_id (self s);
                ecr_image_name := ecr_image_name (self s);
                aws := aws (self s) |};
     log := log s |}.

(** What the outside answers; each answer may depend on the object and on
    everything that happened so far. *)
Record Outside : Type := {
  util_assume_role : State -> string -> string -> result Session;
  describe_repositories : State -> Session -> list string -> result unit;
  create_repository : State -> Session -> string -> result unit;
  set_repository_policy : State -> Session -> string -> json -> result unit;
  get_authorization_token : State -> Session -> result (list AuthorizationData);
  shell_runner_run : State -> string -> result unit;
  run_shell : State -> string -> result Z;
  is_executable : State -> string -> bool
}.

Definition emit (e : Event) : M State unit := modify (with_log (fun l => l ++ [e])).

Definition print (text : string) : M State unit := emit (Print text).

Definition not_found : string := "RepositoryNotFoundException".

Section Script.

Variable outside : Outside.

(** [b64decode(token.encode('utf-8')).decode('utf-8')], with the errors
    either step can raise. *)
Variable b64decode_utf8 : string -> result string.

(** [executable(f)] *)
Definition executable (f : string) : M State bool :=
  s <- get ;
  let b := is_executable outside s f in
  emit (Executable f b) ;;
  ret b.

(** [check_call(command, shell=True)] *)
Definition check_call (command : string) : M State unit :=
  s <- get ;
  let r := run_shell outside s command in
  emit (CheckCall command r) ;;
  match r with
  | Ok 0%Z => ret tt
  | Ok rc => raise (CalledProcessError rc)
  | Raise e => raise e
  end.

(** [self.shell_runner.run(command)] *)
Definition shell_runner_run_ (command : string) : M State unit :=
  s <- get ;
  let r := shell_runner_run outside s command in
  emit (ShellRunnerRun command r) ;;
  lift r.

(** [self.metadata[k]] *)
Definition metadata_get (k : string) : M State string :=
  s <- get ;
  subscript (metadata (self s)) k.

Definition _get_aws : M State Session :=
  s <- get ;
  match aws (self s) with
  | Some a => ret a
  | None =>
      region <- metadata_get "REGION" ;
      let r := util_assume_role outside s region (account_id (self s)) in
      emit (AssumeRole region (account_id (self s)) r) ;;
      a <- lift r ;
      modify (set_aws (Some a)) ;;
      ret a
  end.

Definition _ecr : M State Session := _get_aws.

Definition slug_command (opts : string) : string :=
  concat_strings [
    newline;
    "            tar -cf - $("; newline;
    "                    ls -A |"; newline;
    "                    grep -v '^.git/\{0,1\}$' |"; newline;
    "                    grep -v '^build/\{0,1\}$' |"; newline;
    "                    grep -v '^target/\{0,1\}$' |"; newline;
    "                    grep -v '^infrastructure/\{0,1\}$' |"; newline;
    "                    grep -v '^node_modules/\{0,1\}$'"; newline;
    "                ) | docker run -v /tmp/cache:/tmp/cache:rw --rm -i -a stdin -a stdout -a stderr";
    newline;
    "        "; opts; " flynn/slugbuilder - > target/slug.tgz"; newline;
    "        " ].

Definition _build_slug : M State unit :=
  print (PREFIX +:+ "building slug") ;;
  shell_runner_run_ "mkdir -p target" ;;
  opts <- metadata_get "SLUG_BUILDER_DOCKER_OPTS" ;
  shell_runner_run_ (slug_command opts) ;;
  shell_runner_run_ "cp /infra/Dockerfile_slug target/Dockerfile" ;;
  modify (set_metadata "DOCKER_BUILD_DIR" "target").

Definition production_policy (prod_account : string) : json :=
  JObject [
    ("Version", JString "2008-10-17");
    ("Statement", JList [ JObject [
       ("Sid", JString "allow production");
       ("Effect", JString "Allow");
       ("Principal", JObject [("AWS", JString ("arn:aws:iam::" +:+ prod_account +:+ ":root"))]);
       ("Action", JList [ JString "ecr:GetDownloadUrlForLayer";
                          JString "ecr:BatchGetImage";
                          JString "ecr:BatchCheckLayerAvailability" ]) ] ]) ].

(** The guarded statement of [_ensure_ecr_repository_exists]. *)
Definition describe_repository : M State unit :=
  ecr <- _ecr ;
  s <- get ;
  let r := describe_repositories outside s ecr [component_name (self s)] in
  emit (DescribeRepositories [component_name (self s)] r) ;;
  lift r.

(** The two statements that follow the test of the error code in the
    [except] clause. *)
Definition create_repository_with_policy : M State unit :=
  ecr <- _ecr ;
  s <- get ;
  let r := create_repository outside s ecr (component_name (self s)) in
  emit (CreateRepository (component_name (self s)) r) ;;
  lift r ;;
  ecr <- _ecr ;
  s <- get ;
  let policy := production_policy (prod_account_id (self s)) in
  let r := set_repository_policy outside s ecr (component_name (self s)) policy in
  emit (SetRepositoryPolicy (component_name (self s)) policy r) ;;
  lift r.

Definition _ensure_ecr_repository_exists : M State unit :=
  print (PREFIX +:+ "checking ECR repository") ;;
  try_except describe_repository
    (fun err =>
       match err with
       | ClientError code =>
           if String.eqb code not_found then create_repository_with_policy
           else raise err
       | _ => raise err
       end).

(** The body of the login loop, for one entry of the authorization data. *)
Definition docker_login (details : AuthorizationData) : M State unit :=
  decoded <- lift (b64decode_utf8 (authorizationToken details)) ;
  match split ":" decoded with
  | [username; password] =>
      command <- lift (percent "docker login -u '%s' -p '%s' %s"
                         [username; password; proxyEndpoint details]) ;
      check_call command
  | [] | [_] => raise (ValueError "not enough values to unpack")
  | _ => raise (ValueError "too many values to unpack")
  end.

Definition _push_to_ecr (image : string) : M State unit :=
  _ensure_ecr_repository_exists ;;
  print (PREFIX +:+ "logging into ECR") ;;
  ecr <- _ecr ;
  s <- get ;
  let r := get_authorization_token outside s ecr in
  emit (GetAuthorizationToken r) ;;
  auth_data <- lift r ;
  for_each auth_data docker_login ;;
  text <- lift (percent "pushing image %s" [image]) ;
  print (PREFIX +:+ text) ;;
  command <- lift (percent "docker push %s" [image]) ;
  check_call command.

Definition create : M State unit :=
  type <- metadata_get "TYPE" ;
  (if String.eqb type "slug" then _build_slug else ret tt) ;;
  prepare <- executable "prepare-docker-build" ;
  (if prepare then
     s <- get ;
     let version_ := default "dev" (version (self s)) in
     build_dir <- metadata_get "DOCKER_BUILD_DIR" ;
     command <- lift (percent "./prepare-docker-build %s-%s %s"
                        [component_name (self s); version_; build_dir]) ;
     print (PREFIX +:+ "running " +:+ command) ;;
     check_call command
   else ret tt) ;;
  s <- get ;
  text <- lift (percent "building docker image %s" [ecr_image_name (self s)]) ;
  print (PREFIX +:+ text) ;;
  build_dir <- metadata_get "DOCKER_BUILD_DIR" ;
  command <- lift (percent "docker build -t %s %s" [ecr_image_name (self s); build_dir]) ;
  check_call command ;;
  print (PREFIX +:+ "image " +:+ ecr_image_name (self s) +:+ " successfully built") ;;
  on_build <- executable "on-docker-build" ;
  (if on_build then
     command <- lift (percent "./on-docker-build %s" [ecr_image_name (self s)]) ;
     text <- lift (percent "running %s" [command]) ;
     print (PREFIX +:+ text) ;;
     check_call command
   else ret tt) ;;
  (match version (self s) with
   | None => print (PREFIX +:+ "no version supplied, push skipped")
   | Some _ => _push_to_ecr (ecr_image_name (self s))
   end) ;;
  print (PREFIX +:+ "done.").

End Script.

(** *** What is read off a log *)

Definition is_registry_call (e : Event) : bool :=
  match e with
  | DescribeRepositories _ _ | CreateRepository _ _ | SetRepositoryPolicy _ _ _ => true
  | _ => false
  end.

(** The calls to the registry API, in order. *)
Definition registry_calls (l : list Event) : list Event := List.filter is_registry_call l.

Definition is_token_request (e : Event) : bool :=
  match e with GetAuthorizationToken _ => true | _ => false end.

(** The requests for authorization tokens, in order. *)
Definition token_requests (l : list Event) : list Event := List.filter is_token_request l.

(** The shell commands run through [check_call], each with the answer it
    got, in order. *)
Fixpoint shell_commands (l : list Event) : list (string * result Z) :=
  match l with
  | [] => []
  | CheckCall command answer :: l' => (command, answer) :: shell_commands l'
  | _ :: l' => shell_commands l'
  end.

(** A call to the outside that did not succeed. *)
Definition failed (e : Event) : bool :=
  match e with
  | ShellRunnerRun _ (Raise _) => true
  | CheckCall _ (Ok 0%Z) => false
  | CheckCall _ _ => true
  | AssumeRole _ _ (Raise _) => true
  | DescribeRepositories _ (Raise _) => true
  | CreateRepository _ (Raise _) => true
  | SetRepositoryPolicy _ _ (Raise _) => true
  | GetAuthorizationToken (Raise _) => true
  | _ => false
  end.

(** [s'] is [s] after the events [new]: the log grew by them and the
    attributes that [__init__] computed are the same. *)
Definition follows (s s' : State) (new : list Event) : Prop :=
  log s' = log s ++ new /\
  version (self s') = version (self s) /\
  component_name (self s') = component_name (self s) /\
  account_id (self s') = account_id (self s) /\
  prod_account_id (self s') = prod_account_id (self s) /\
  ecr_image_name (self s') = ecr_image_name (self s).

(** *** The commands of the push step, as the specification describes them *)

Definition push_command (image : string) : string := "docker push " +:+ image.

Definition is_docker_login (command : string) : bool := startswith "docker login " command.
Definition is_docker_push (command : string) : bool := startswith "docker push " command.

(** The login command for one entry of the authorization data: its token
    decodes to [username:password]. *)
Definition login_command_of (b64decode_utf8 : string -> result string)
    (details : AuthorizationData) (command : string) : Prop :=
  exists decoded username password,
    b64decode_utf8 (authorizationToken details) = Ok decoded /\
    split ":" decoded = [username; password] /\
    command = "docker login -u '" +:+ username +:+ "' -p '" +:+ password +:+ "' "
              +:+ proxyEndpoint details.

(** The pre-build hook command for a component, a version and a build
    directory. *)
Definition prepare_command (component version_ build_dir : string) : string :=
  "./prepare-docker-build " +:+ component +:+ "-" +:+ version_ +:+ " " +:+ build_dir.

(** The build directory at the time of the pre-build hook: [_build_slug]
    sets it to [target], other builds take it from the metadata. *)
Definition build_dir_at_hook (r : Release) : option string :=
  match metadata r !! "TYPE" with
  | Some type => if String.eqb type "slug" then Some "target" else metadata r !! "DOCKER_BUILD_DIR"
  | None => None
  end.

(** The events of the push step: registry provisioning, authentication
    (the session, the token request, [docker login]) and [docker push]. *)
Definition is_push_step_event (e : Event) : bool :=
  match e with
  | AssumeRole _ _ _ | DescribeRepositories _ _ | CreateRepository _ _
  | SetRepositoryPolicy _ _ _ | GetAuthorizationToken _ => true
  | CheckCall command _ => is_docker_login command || is_docker_push command
  | _ => false
  end.

(** The calls to the outside that did not succeed, in order. *)
Definition failures (l : list Event) : list Event := List.filter failed l.

(** The last [n] events of a log. *)
Definition last_events (n : nat) (l : list Event) : list Event :=
  List.rev (firstn n (List.rev l)).

(** A [ClientError] with the registry's not-found code can only come from
    the registry: either the session is already there, or STS does not
    answer with that code. *)
Definition session_errors_are_not_registry_errors (outside : Outside) (s : State) : Prop :=
  aws (self s) = None ->
  forall s' region account,
    util_assume_role outside s' region account <> Raise (ClientError not_found).

(** The registry calls of one [_ensure_ecr_repository_exists()]. *)
Inductive ensure_shape (name : string) (policy : json) : result unit -> list Event -> Prop :=
| ensure_no_client e :
    ensure_shape name policy (Raise e) []
| ensure_present :
    ensure_shape name policy (Ok tt) [DescribeRepositories [name] (Ok tt)]
| ensure_describe_failed e :
    e <> ClientError not_found ->
    ensure_shape name policy (Raise e) [DescribeRepositories [name] (Raise e)]
| ensure_create_failed e :
    ensure_shape name policy (Raise e)
      [DescribeRepositories [name] (Raise (ClientError not_found));
       CreateRepository name (Raise e)]
| ensure_policy_failed e :
    ensure_shape name policy (Raise e)
      [DescribeRepositories [name] (Raise (ClientError not_found));
       CreateRepository name (Ok tt);
       SetRepositoryPolicy name policy (Raise e)]
| ensure_created :
    ensure_shape name policy (Ok tt)
      [DescribeRepositories [name] (Raise (ClientError not_found));
       CreateRepository name (Ok tt);
       SetRepositoryPolicy name policy (Ok tt)].

(** The log of the login loop over the authorization data. *)
Inductive logins_shape (b64decode_utf8 : string -> result string)
  : list AuthorizationData -> result unit -> list Event -> Prop :=
| logins_done :
    logins_shape b64decode_utf8 [] (Ok tt) []
| logins_undecodable details rest e :
    (forall command, ~ login_command_of b64decode_utf8 details command) ->
    logins_shape b64decode_utf8 (details :: rest) (Raise e) []
| logins_refused details rest command answer e :
    login_command_of b64decode_utf8 details command ->
    answer <> Ok 0%Z ->
    logins_shape b64decode_utf8 (details :: rest) (Raise e) [CheckCall command answer]
| logins_next details rest command r l :
    login_command_of b64decode_utf8 details command ->
    logins_shape b64decode_utf8 rest r l ->
    logins_shape b64decode_utf8 (details :: rest) r (CheckCall command (Ok 0%Z) :: l).

(** The log of [_push_to_ecr(image)] after the repository was ensured. *)
Inductive push_tail (b64decode_utf8 : string -> result string) (image : string)
  : result unit -> list Event -> Prop :=
| tail_token_refused e :
    push_tail b64decode_utf8 image (Raise e)
      [Print (PREFIX +:+ "logging into ECR"); GetAuthorizationToken (Raise e)]
| tail_login_failed auth_data e l :
    logins_shape b64decode_utf8 auth_data (Raise e) l ->
    push_tail b64decode_utf8 image (Raise e)
      ([Print (PREFIX +:+ "logging into ECR"); GetAuthorizationToken (Ok auth_data)] ++ l)
| tail_push_failed auth_data l answer e :
    logins_shape b64decode_utf8 auth_data (Ok tt) l ->
    answer <> Ok 0%Z ->
    push_tail b64decode_utf8 image (Raise e)
      ([Print (PREFIX +:+ "logging into ECR"); GetAuthorizationToken (Ok auth_data)] ++ l ++
       [Print (PREFIX +:+ "pushing image " +:+ image); CheckCall (push_command image) answer])
| tail_pushed auth_data l :
    logins_shape b64decode_utf8 auth_data (Ok tt) l ->
    push_tail b64decode_utf8 image (Ok tt)
      ([Print (PREFIX +:+ "logging into ECR"); GetAuthorizationToken (Ok auth_data)] ++ l ++
       [Print (PREFIX +:+ "pushing image " +:+ image); CheckCall (push_command image) (Ok 0%Z)]).

(** *** Readings of the source for the further properties *)

(** [self._set_aws(aws)] *)
Definition _set_aws (a : option Session) : M State unit := modify (set_aws a).

(** No shell command follows one that did not exit with status zero. *)
Fixpoint stops_at_first_failure (commands : list (string * result Z)) : bool :=
  match commands with
  | [] => true
  | entry :: rest =>
      match rest with
      | [] => true
      | _ :: _ =>
          match snd entry with
          | Ok 0%Z => stops_at_first_failure rest
          | _ => false
          end
      end
  end.

(** How many times [c] occurs in [s]. *)
Fixpoint count_char (c : ascii) (s : string) : nat :=
  match s with
  | EmptyString => 0
  | String x s' => (if Ascii.eqb x c then 1 else 0) + count_char c s'
  end.

(** A request for a session. *)
Definition is_assume_role (e : Event) : bool :=
  match e with AssumeRole _ _ _ => true | _ => false end.

Definition build_command (image build_dir : string) : string :=
  "docker build -t " +:+ image +:+ " " +:+ build_dir.

Definition on_build_command (image : string) : string := "./on-docker-build " +:+ image.

(** The commands of the build phase of [create], for the hooks that are
    there. *)
Definition build_phase_commands (component version_ image build_dir : string)
    (prepare on_build : bool) : list string :=
  (if prepare then [prepare_command component version_ build_dir] else []) ++
  [build_command image build_dir] ++
  (if on_build then [on_build_command image] else []).

(** *** Sample surroundings, to run the script on concrete inputs *)

Definition sample_release (version_ : option string) : Release := {|
  version := version_;
  component_name := "payments";
  metadata :=
    <["TYPE" := "docker"]> (<["REGION" := "eu-west-1"]> (<["ACCOUNT_PREFIX" := "mmg"]>
    (<["DOCKER_BUILD_DIR" := "."]> (<["SLUG_BUILDER_DOCKER_OPTS" := ""]> ∅))));
  account_id := "123456789012";
  prod_account_id := "210987654321";
  ecr_image_name :=
    "123456789012.dkr.ecr.eu-west-1.amazonaws.com/payments:" +:+ default "dev" version_;
  aws := None
|}.

Definition sample_state (version_ : option string) : State :=
  {| self := sample_release version_; log := [] |}.

(** One registry endpoint, with the token of user [AWS] and password
    [secret]. *)
Definition sample_auth_data : list AuthorizationData :=
  [ {| authorizationToken := "QVdTOnNlY3JldA==";
       proxyEndpoint := "https://123456789012.dkr.ecr.eu-west-1.amazonaws.com" |} ].

(** An entry whose token decodes to [AWS:se:cret]: the password holds a
    colon. *)
Definition sample_auth_colon : AuthorizationData :=
  {| authorizationToken := "QVdTOnNlOmNyZXQ=";
     proxyEndpoint := "https://123456789012.dkr.ecr.eu-west-1.amazonaws.com" |}.

(** A release whose metadata names no build directory. *)
Definition sample_state_no_build_dir : State := {|
  self := {|
    version := Some "1.0";
    component_name := "payments";
    metadata := <["TYPE" := "docker"]> (<["REGION" := "eu-west-1"]> ∅);
    account_id := "123456789012";
    prod_account_id := "210987654321";
    ecr_image_name := "123456789012.dkr.ecr.eu-west-1.amazonaws.com/payments:1.0";
    aws := None
  |};
  log := []
|}.

(** Every call succeeds, except that the repository exists or not as
    [repository_exists] says and that [docker login] exits with
    [login_status]; only the pre-build hook is there. *)
Definition sample_outside (repository_exists : bool) (login_status : Z) : Outside := {|
  util_assume_role := fun _ _ _ => Ok "session";
  describe_repositories := fun _ _ _ =>
    if repository_exists then Ok tt else Raise (ClientError not_found);
  create_repository := fun _ _ _ => Ok tt;
  set_repository_policy := fun _ _ _ _ => Ok tt;
  get_authorization_token := fun _ _ => Ok sample_auth_data;
  shell_runner_run := fun _ _ => Ok tt;
  run_shell := fun _ command => if is_docker_login command then Ok login_status else Ok 0%Z;
  is_executable := fun _ f => String.eqb f "prepare-docker-build"
|}.

End Release.

(* ===================================================================== *)
(** ** Base64, to write concrete authorization tokens *)
(* ===================================================================== *)

(** RFC 4648 decoding of padded input in the standard alphabet; anything
    else is an error.  The embedding of [release.py] takes the decoder as
    a parameter: this one only instantiates it in examples. *)
Module Base64.
Import Py.

Definition sextet (c : ascii) : option N :=
  let n := N_of_ascii c in
  if ((65 <=? n) && (n <=? 90))%N then Some (n - 65)%N
  else if ((97 <=? n) && (n <=? 122))%N then Some (n - 71)%N
  else if ((48 <=? n) && (n <=? 57))%N then Some (n + 4)%N
  else if (n =? 43)%N then Some 62%N
  else if (n =? 47)%N then Some 63%N
  else None.

Definition byte (n : N) : ascii := ascii_of_N (n mod 256).

Fixpoint decode_quads (s : string) : option string :=
  match s with
  | EmptyString => Some EmptyString
  | String a (String b (String c (String d rest))) =>
      match sextet a, sextet b with
      | Some x, Some y =>
          let b1 := byte (x * 4 + y / 16) in
          if Ascii.eqb c "=" then
            if Ascii.eqb d "=" then
              match rest with EmptyString => Some (String b1 EmptyString) | _ => None end
            else None
          else
            match sextet c with
            | Some z =>
                let b2 := byte (y * 16 + z / 4) in
                if Ascii.eqb d "=" then
                  match rest with
                  | EmptyString => Some (String b1 (String b2 EmptyString))
                  | _ => None
                  end
                else
                  match sextet d, decode_quads rest with
                  | Some u, Some tail =>
                      Some (String b1 (String b2 (String (byte (z * 64 + u)) tail)))
                  | _, _ => None
                  end
            | None => None
            end
      | _, _ => None
      end
  | _ => None
  end.

Definition b64decode_utf8 (s : string) : result string :=
  match decode_quads s with
  | Some t => Ok t
  | None => Raise (OtherError "binascii.Error")
  end.

End Base64.

(* ===================================================================== *)
(** * Properties *)
(* ===================================================================== *)

Import Py.

(** String concatenation computes on literals in the proofs below. *)
#[local] Arguments String.append : simpl nomatch.

(** ** Running programs *)

Lemma bind_ok {St A B} (m : M St A) (k : A -> M St B) w a w' :
  m w = (Ok a, w') -> bind m k w = k a w'.
Proof. intros H. unfold bind. rewrite H. reflexivity. Qed.

Lemma bind_raise {St A B} (m : M St A) (k : A -> M St B) w e w' :
  m w = (Raise e, w') -> bind m k w = (Raise e, w').
Proof. intros H. unfold bind. rewrite H. reflexivity. Qed.

Lemma bind_lift_ok {St A B} (a : A) (k : A -> M St B) w :
  bind (lift (Ok a)) k w = k a w.
Proof. reflexivity. Qed.

Lemma bind_lift_raise {St A B} e (k : A -> M St B) w :
  bind (lift (Raise e)) k w = (Raise e, w).
Proof. reflexivity. Qed.

(** ** Strings *)

Lemma startswith_app p s : startswith p (p +:+ s) = true.
Proof.
  induction p as [|a p IH]; simpl; [reflexivity|].
  rewrite Ascii.eqb_refl. exact IH.
Qed.

Lemma split_acc_cons sep cur s : exists piece rest, split_acc sep cur s = piece :: rest.
Proof.
  revert cur. induction s as [|c s IH]; intros cur; simpl.
  - eauto.
  - destruct (Ascii.eqb c sep); eauto.
Qed.

(** A string that holds the separator splits into at least two pieces. *)
Lemma split_acc_two sep cur p s :
  exists a b rest, split_acc sep cur (p +:+ String sep s) = a :: b :: rest.
Proof.
  revert cur. induction p as [|c p IH]; intros cur; simpl.
  - rewrite Ascii.eqb_refl.
    destruct (split_acc_cons sep EmptyString s) as (b & rest & ->). eauto.
  - destruct (Ascii.eqb c sep).
    + destruct (split_acc_cons sep EmptyString (p +:+ String sep s)) as (b & rest & ->). eauto.
    + apply IH.
Qed.

Lemma startswith_inv p s : startswith p s = true -> exists t, s = p +:+ t.
Proof.
  revert s. induction p as [|a p IH]; intros s H; simpl in *.
  - eauto.
  - destruct s as [|b s]; [discriminate|].
    destruct (Ascii.eqb_spec a b) as [->|]; [|discriminate].
    destruct (IH _ H) as [t ->]. eauto.
Qed.

Lemma append_assoc (a b c : string) : (a +:+ b) +:+ c = a +:+ (b +:+ c).
Proof. induction a as [|x a IH]; simpl; [reflexivity | rewrite IH; reflexivity]. Qed.

Lemma split_assignment var arg :
  startswith (var +:+ "=") arg = true ->
  exists a b rest, split "=" arg = a :: b :: rest.
Proof.
  intros H. destruct (startswith_inv _ _ H) as [t ->].
  rewrite append_assoc. simpl. apply split_acc_two.
Qed.

(** The string operations on the inputs the scripts give them. *)
Example split_examples :
  split "=" "env=staging" = ["env"; "staging"] /\
  split "=" "a=b=c" = ["a"; "b"; "c"] /\
  split "=" "" = [""] /\
  split "=" "a=" = ["a"; ""] /\
  split ":" "AWS:se:cret" = ["AWS"; "se"; "cret"].
Proof. repeat split; reflexivity. Qed.

Example format_examples :
  format "{{x}} {a}/{b}" (<["a" := "1"]> (<["b" := "{c}"]> ∅)) = Ok "{x} 1/{c}" /\
  format "{b}" (<["a" := "1"]> ∅) = Raise (KeyError "b") /\
  format "a } b" ∅ = Raise (ValueError "Single '}' encountered in format string").
Proof. repeat split; vm_compute; reflexivity. Qed.

Example percent_examples :
  percent "%s-%s %s" ["c"; "dev"; "."] = Ok "c-dev ." /\
  percent "%s-%s" ["a"] = Raise (TypeError "not enough arguments for format string") /\
  percent "%s" ["a"; "b"]
  = Raise (TypeError "not all arguments converted during string formatting").
Proof. repeat split; reflexivity. Qed.

Example dirname_examples :
  DeployInfra.dirname "infra/state.tf" = "infra" /\
  DeployInfra.dirname "/tmp/secrets.json" = "/tmp" /\
  DeployInfra.dirname "state.tf" = "".
Proof. repeat split; reflexivity. Qed.

(** ** [deploy-infra.py]: argument parsing *)

Lemma scan_args_ok var args found :
  exists found',
    DeployInfra.scan_args var args found = Ok found' /\
    (forall v, v <> var -> found' !! v = found !! v) /\
    ((forall arg, In arg args -> startswith (var +:+ "=") arg = false) -> found' = found).
Proof.
  revert found. induction args as [|arg args IH]; intros found; simpl.
  - exists found. auto.
  - destruct (startswith (var +:+ "=") arg) eqn:Hsw.
    + destruct (split_assignment _ _ Hsw) as (a & b & rest & ->).
      destruct (IH (<[var := b]> found)) as (found' & -> & Hother & _).
      exists found'. split; [reflexivity|]. split.
      * intros v Hv. rewrite Hother by assumption. apply lookup_insert_ne. congruence.
      * intros Hnone. specialize (Hnone arg (or_introl eq_refl)). congruence.
    + destruct (IH found) as (found' & -> & Hother & Hsame).
      exists found'. split; [reflexivity|]. split; [assumption|].
      intros Hnone. apply Hsame. intros arg' Hin. apply Hnone. right. assumption.
Qed.

Lemma scan_vars_ok vars args found :
  exists found',
    DeployInfra.scan_vars vars args found = Ok found' /\
    forall v, (forall arg, In arg args -> startswith (v +:+ "=") arg = false) ->
              found' !! v = found !! v.
Proof.
  revert found. induction vars as [|var vars IH]; intros found; simpl.
  - exists found. auto.
  - destruct (scan_args_ok var args found) as (found1 & -> & Hother & Hsame).
    destruct (IH found1) as (found' & -> & Hkeep).
    exists found'. split; [reflexivity|].
    intros v Hv. rewrite (Hkeep v Hv).
    destruct (decide (v = var)) as [->|Hne].
    + rewrite (Hsame Hv). reflexivity.
    + apply Hother. assumption.
Qed.

(** The third loop of [parse_args] stops at the first variable without a
    value: one message on standard error, then [sys.exit(1)]. *)
Lemma check_required_missing (found : gmap string string) vars v w :
  In v vars -> found !! v = None ->
  exists missing, In missing vars /\ found !! missing = None /\
    for_each vars (fun var =>
      match found !! var with
      | Some _ => ret tt
      | None =>
          bind (DeployInfra.stderr_write (DeployInfra.missing_variable_message var))
               (fun _ => DeployInfra.sys_exit 1)
      end) w
    = (Raise (SystemExit 1),
       DeployInfra.with_log
         (fun l => l ++ [DeployInfra.StderrWrite (DeployInfra.missing_variable_message missing)]) w).
Proof.
  induction vars as [|var vars IH]; intros Hin Hnone; [destruct Hin|].
  simpl. destruct (found !! var) eqn:Hvar.
  - destruct Hin as [->|Hin]; [congruence|].
    destruct (IH Hin Hnone) as (missing & Hm & Hmn & Heq).
    exists missing. split; [right; assumption|]. split; [assumption|].
    unfold bind at 1. simpl. exact Heq.
  - exists var. split; [left; reflexivity|]. split; [assumption|]. reflexivity.
Qed.

Lemma parse_args_missing args v w :
  In v DeployInfra.required_vars ->
  (forall arg, In arg args -> startswith (v +:+ "=") arg = false) ->
  exists missing, In missing DeployInfra.required_vars /\
    DeployInfra.parse_args args w
    = (Raise (SystemExit 1),
       DeployInfra.with_log
         (fun l => l ++ [DeployInfra.StderrWrite (DeployInfra.missing_variable_message missing)]) w).
Proof.
  intros Hin Hnone. unfold DeployInfra.parse_args.
  destruct (scan_vars_ok DeployInfra.required_vars args ∅) as (found1 & E1 & H1).
  destruct (scan_vars_ok DeployInfra.optional_vars args found1) as (found2 & E2 & H2).
  assert (Hv : found2 !! v = None).
  { rewrite (H2 v Hnone), (H1 v Hnone). apply lookup_empty. }
  destruct (check_required_missing found2 _ v w Hin Hv) as (missing & Hm & _ & Heq).
  exists missing. split; [assumption|].
  rewrite E1, bind_lift_ok, E2, bind_lift_ok.
  erewrite bind_raise by exact Heq. reflexivity.
Qed.

Lemma check_required_present (found : gmap string string) vars w :
  Forall (fun v => is_Some (found !! v)) vars ->
  for_each vars (fun var =>
    match found !! var with
    | Some _ => ret tt
    | None =>
        bind (DeployInfra.stderr_write (DeployInfra.missing_variable_message var))
             (fun _ => DeployInfra.sys_exit 1)
    end) w
  = (Ok tt, w).
Proof.
  induction 1 as [|v vars [x Hx] _ IH]; simpl; [reflexivity|].
  rewrite Hx. unfold bind at 1. simpl. exact IH.
Qed.

(** [parse_args] either returns a dictionary that holds every variable
    of [required_vars], leaving the world as it was, or writes one
    message and exits with status 1. *)
Lemma parse_args_run args w :
  (exists found,
     DeployInfra.parse_args args w = (Ok found, w) /\
     Forall (fun v => is_Some (found !! v)) DeployInfra.required_vars) \/
  (exists missing,
     In missing DeployInfra.required_vars /\
     DeployInfra.parse_args args w
     = (Raise (SystemExit 1),
        DeployInfra.with_log
          (fun l => l ++ [DeployInfra.StderrWrite (DeployInfra.missing_variable_message missing)])
          w)).
Proof.
  unfold DeployInfra.parse_args.
  destruct (scan_vars_ok DeployInfra.required_vars args ∅) as (found1 & E1 & _).
  destruct (scan_vars_ok DeployInfra.optional_vars args found1) as (found2 & E2 & _).
  rewrite E1, bind_lift_ok, E2, bind_lift_ok.
  destruct (decide (Forall (fun v => is_Some (found2 !! v)) DeployInfra.required_vars))
    as [Hall|Hnot].
  - left. exists found2. split; [|assumption].
    erewrite bind_ok by (apply check_required_present; assumption). reflexivity.
  - right. apply not_Forall_Exists in Hnot; [|intros; apply _].
    apply Exists_exists in Hnot as (v & Hin & Hv).
    apply list_elem_of_In in Hin.
    assert (Hnone : found2 !! v = None).
    { destruct (found2 !! v) eqn:E; [exfalso; apply Hv; eauto | reflexivity]. }
    destruct (check_required_missing found2 _ v w Hin Hnone) as (missing & Hm & _ & Heq).
    exists missing. split; [assumption|].
    erewrite bind_raise by exact Heq. reflexivity.
Qed.


(** ** [deploy-infra.py]: the backend configuration *)

Lemma format_state_config (kw : gmap string string) bucket environment component region :
  kw !! "s3_bucket" = Some bucket ->
  kw !! "env" = Some environment ->
  kw !! "component" = Some component ->
  kw !! "region" = Some region ->
  format DeployInfra.state_config_template kw
  = Ok (DeployInfra.backend_config_text bucket environment component region).
Proof.
  intros Hb He Hc Hr. unfold format.
  set (look := fun name : string => kw !! name).
  change (look "s3_bucket" = Some bucket) in Hb.
  change (look "env" = Some environment) in He.
  change (look "component" = Some component) in Hc.
  change (look "region" = Some region) in Hr.
  clearbody look.
  unfold DeployInfra.state_config_template, DeployInfra.backend_config_text.
  simpl. unfold String.rev. simpl. rewrite Hb, He, Hc, Hr. reflexivity.
Qed.

Lemma format_state_file_id (kw : gmap string string) environment component :
  kw !! "env" = Some environment ->
  kw !! "component" = Some component ->
  format "{env}-{component}" kw = Ok (environment +:+ "-" +:+ component).
Proof.
  intros He Hc. unfold format.
  set (look := fun name : string => kw !! name).
  change (look "env" = Some environment) in He.
  change (look "component" = Some component) in Hc.
  clearbody look.
  simpl. unfold String.rev. simpl. rewrite He, Hc.
  replace (component +:+ "") with component; [reflexivity|].
  clear. induction component as [|x s IH]; simpl; congruence.
Qed.

Lemma subscript_ok {St} (d : gmap string string) k v (w : St) :
  d !! k = Some v -> subscript d k w = (Ok v, w).
Proof. intros H. unfold subscript. rewrite H. reflexivity. Qed.

Lemma open_w_created path w :
  DeployInfra.parent_is_dir (DeployInfra.fs w) path = true ->
  DeployInfra.fs w !! path <> Some DeployInfra.Dir ->
  DeployInfra.open_w path w
  = (Ok tt,
     {| DeployInfra.fs := <[path := DeployInfra.File ""]> (DeployInfra.fs w);
        DeployInfra.environ := DeployInfra.environ w;
        DeployInfra.log := DeployInfra.log w ++ [DeployInfra.OpenW path] |}).
Proof.
  intros Hparent Hnodir. unfold DeployInfra.open_w, bind, DeployInfra.emit, modify, get.
  simpl. rewrite Hparent.
  destruct (DeployInfra.fs w !! path) as [[| |]|]; try reflexivity. congruence.
Qed.

Lemma open_w_cases path w :
  (exists m,
     DeployInfra.open_w path w
     = (Ok tt,
        {| DeployInfra.fs := m;
           DeployInfra.environ := DeployInfra.environ w;
           DeployInfra.log := DeployInfra.log w ++ [DeployInfra.OpenW path] |}) /\
     m !! path = Some (DeployInfra.File "")) \/
  (exists e,
     DeployInfra.open_w path w
     = (Raise e, DeployInfra.with_log (fun l => l ++ [DeployInfra.OpenW path]) w)).
Proof.
  unfold DeployInfra.open_w, bind, DeployInfra.emit, modify, get. simpl.
  destruct (DeployInfra.fs w !! path) as [[| |]|];
    try (right; eexists; reflexivity);
    destruct (DeployInfra.parent_is_dir (DeployInfra.fs w) path);
    try (right; eexists; reflexivity);
    left; eexists; (split; [reflexivity | apply lookup_insert_eq]).
Qed.

Lemma file_write_fresh path text m env l :
  m !! path = Some (DeployInfra.File "") ->
  DeployInfra.file_write path text
    {| DeployInfra.fs := m; DeployInfra.environ := env; DeployInfra.log := l |}
  = (Ok tt,
     {| DeployInfra.fs := <[path := DeployInfra.File text]> m;
        DeployInfra.environ := env;
        DeployInfra.log := l ++ [DeployInfra.FileWrite path text] |}).
Proof.
  intros H.
  unfold DeployInfra.file_write, bind, DeployInfra.emit, modify,
    DeployInfra.with_log, DeployInfra.with_fs.
  cbn [DeployInfra.fs DeployInfra.environ DeployInfra.log].
  rewrite H. reflexivity.
Qed.

Section GenerateTerraformConfig.

Variable parsed_args : gmap string string.
Variables account environment component aws_region : string.
Hypothesis Haccount : parsed_args !! "account_id" = Some account.
Hypothesis Henv : parsed_args !! "env" = Some environment.
Hypothesis Hcomponent : parsed_args !! "component" = Some component.
Hypothesis Hregion : parsed_args !! "aws_region" = Some aws_region.

Let region : string := default aws_region (parsed_args !! "state_aws_region").

Let text : string :=
  DeployInfra.backend_config_text (DeployInfra.bucket_name account) environment component region.

(** Whatever the files are, the function opens the artifact and, when
    that succeeds, writes the rendered text in one piece. *)
Lemma generate_terraform_config_cases w :
  (exists m,
     DeployInfra.generate_terraform_config parsed_args w
     = (Ok tt,
        {| DeployInfra.fs := m;
           DeployInfra.environ := DeployInfra.environ w;
           DeployInfra.log :=
             DeployInfra.log w ++
             [DeployInfra.OpenW DeployInfra.state_path;
              DeployInfra.FileWrite DeployInfra.state_path text] |}) /\
     m !! DeployInfra.state_path = Some (DeployInfra.File text)) \/
  (exists e,
     DeployInfra.generate_terraform_config parsed_args w
     = (Raise e,
        DeployInfra.with_log (fun l => l ++ [DeployInfra.OpenW DeployInfra.state_path]) w)).
Proof.
  unfold DeployInfra.generate_terraform_config.
  erewrite bind_ok by (apply subscript_ok; exact Hregion).
  erewrite bind_ok by (apply subscript_ok; exact Henv).
  erewrite bind_ok by (apply subscript_ok; exact Hcomponent).
  erewrite bind_ok by (apply subscript_ok; exact Haccount).
  erewrite format_state_file_id by (simplify_map_eq; reflexivity).
  rewrite bind_lift_ok.
  change "infra/state.tf" with DeployInfra.state_path.
  destruct (open_w_cases DeployInfra.state_path w) as [(m & Hopen & Hm)|(e & Hopen)].
  - left. erewrite bind_ok by exact Hopen.
    erewrite format_state_config by (simplify_map_eq; reflexivity).
    rewrite bind_lift_ok, (file_write_fresh _ _ _ _ _ Hm).
    eexists. split.
    + rewrite <- app_assoc. reflexivity.
    + apply lookup_insert_eq.
  - right. exists e. erewrite bind_raise by exact Hopen. reflexivity.
Qed.

(** With the directory [infra] in place (and nothing in the way at the
    artifact's path) the artifact is written, and nothing else changes. *)
Lemma generate_terraform_config_writes w :
  DeployInfra.fs w !! "infra" = Some DeployInfra.Dir ->
  DeployInfra.fs w !! DeployInfra.state_path <> Some DeployInfra.Dir ->
  DeployInfra.generate_terraform_config parsed_args w
  = (Ok tt,
     {| DeployInfra.fs := <[DeployInfra.state_path := DeployInfra.File text]> (DeployInfra.fs w);
        DeployInfra.environ := DeployInfra.environ w;
        DeployInfra.log :=
          DeployInfra.log w ++
          [DeployInfra.OpenW DeployInfra.state_path;
           DeployInfra.FileWrite DeployInfra.state_path text] |}).
Proof.
  intros Hinfra Hnodir.
  unfold DeployInfra.generate_terraform_config.
  erewrite bind_ok by (apply subscript_ok; exact Hregion).
  erewrite bind_ok by (apply subscript_ok; exact Henv).
  erewrite bind_ok by (apply subscript_ok; exact Hcomponent).
  erewrite bind_ok by (apply subscript_ok; exact Haccount).
  erewrite format_state_file_id by (simplify_map_eq; reflexivity).
  rewrite bind_lift_ok.
  change "infra/state.tf" with DeployInfra.state_path.
  erewrite bind_ok.
  2:{ apply open_w_created; [|exact Hnodir].
      unfold DeployInfra.parent_is_dir. 
      change (DeployInfra.dirname DeployInfra.state_path) with "infra".
      cbv beta iota. rewrite Hinfra. reflexivity. }
  erewrite format_state_config by (simplify_map_eq; reflexivity).
  rewrite bind_lift_ok, file_write_fresh by apply lookup_insert_eq.
  rewrite insert_insert_eq, <- app_assoc. reflexivity.
Qed.

End GenerateTerraformConfig.

(** ** [deploy-infra.py]: the runs of [main] *)

Lemma os_remove_run path w :
  exists r m,
    DeployInfra.os_remove path w
    = (r, {| DeployInfra.fs := m;
             DeployInfra.environ := DeployInfra.environ w;
             DeployInfra.log := DeployInfra.log w ++ [DeployInfra.OsRemove path] |}) /\
    (DeployInfra.fs w !! path = None -> m = DeployInfra.fs w).
Proof.
  unfold DeployInfra.os_remove, bind, DeployInfra.emit, modify, get. simpl.
  destruct (DeployInfra.fs w !! path) as [[| |]|]; simpl;
    eexists _, _; (split; [reflexivity | intros; congruence]).
Qed.

Lemma shutil_rmtree_run path w :
  exists r m,
    DeployInfra.shutil_rmtree path w
    = (r, {| DeployInfra.fs := m;
             DeployInfra.environ := DeployInfra.environ w;
             DeployInfra.log := DeployInfra.log w ++ [DeployInfra.Rmtree path] |}) /\
    (DeployInfra.fs w !! path = None -> m = DeployInfra.fs w).
Proof.
  unfold DeployInfra.shutil_rmtree, bind, DeployInfra.emit, modify, get. simpl.
  destruct (DeployInfra.fs w !! path) as [[| |]|]; simpl;
    eexists _, _; (split; [reflexivity | intros; congruence]).
Qed.

(** [cleanup()] always returns normally, after one [os.remove] and one
    [shutil.rmtree]; when neither target exists the files are left as
    they were. *)
Lemma cleanup_run w :
  exists m,
    DeployInfra.cleanup w
    = (Ok tt, {| DeployInfra.fs := m;
                 DeployInfra.environ := DeployInfra.environ w;
                 DeployInfra.log := DeployInfra.log w ++ DeployInfra.cleanup_events |}) /\
    (DeployInfra.fs w !! "infra/state.tf" = None ->
     DeployInfra.fs w !! "infra/.terraform" = None ->
     m = DeployInfra.fs w).
Proof.
  unfold DeployInfra.cleanup, DeployInfra.cleanup_events.
  destruct (os_remove_run "infra/state.tf" w) as (r1 & m1 & E1 & H1).
  set (w1 := {| DeployInfra.fs := m1; DeployInfra.environ := DeployInfra.environ w;
                DeployInfra.log := DeployInfra.log w ++ [DeployInfra.OsRemove "infra/state.tf"] |})
    in *.
  destruct (shutil_rmtree_run "infra/.terraform" w1) as (r2 & m2 & E2 & H2).
  exists m2. split.
  - unfold bind, try_except. rewrite E1.
    destruct r1 as [[]|e1]; unfold ret; rewrite E2; subst w1; simpl;
      rewrite <- app_assoc; destruct r2 as [[]|e2]; reflexivity.
  - intros Ha Hb. specialize (H1 Ha). subst m1. apply H2. exact Hb.
Qed.

Lemma bind_get {St B} (k : St -> M St B) w : bind get k w = k w w.
Proof. reflexivity. Qed.

Lemma bind_modify {St B} (f : St -> St) (k : unit -> M St B) w :
  bind (modify f) k w = k tt (f w).
Proof. reflexivity. Qed.

Lemma bind_emit {B} e (k : unit -> M DeployInfra.World B) w :
  bind (DeployInfra.emit e) k w = k tt (DeployInfra.with_log (fun l => l ++ [e]) w).
Proof. reflexivity. Qed.

(** Brings the log of a final state to the form [log w ++ new]. *)
Ltac log_shape :=
  unfold DeployInfra.with_log; simpl; rewrite <- ?app_assoc; reflexivity.

Section Runs.

Variable outside : DeployInfra.Outside.

Lemma check_call_run argv env cwd w :
  exists answer m,
    let w' := {| DeployInfra.fs := m;
                 DeployInfra.environ := DeployInfra.environ w;
                 DeployInfra.log :=
                   DeployInfra.log w ++ [DeployInfra.CheckCall argv env cwd answer] |} in
    (answer = Ok 0%Z /\ DeployInfra.check_call outside argv env cwd w = (Ok tt, w')) \/
    (answer <> Ok 0%Z /\ exists e, DeployInfra.check_call outside argv env cwd w = (Raise e, w')).
Proof.
  unfold DeployInfra.check_call. rewrite bind_get.
  destruct (DeployInfra.run_process outside w argv env cwd) as [answer m].
  exists answer, m. rewrite bind_emit, bind_modify.
  destruct answer as [[|rc|rc]|e]; simpl.
  - left. split; reflexivity.
  - right. split; [discriminate|]. eexists. reflexivity.
  - right. split; [discriminate|]. eexists. reflexivity.
  - right. split; [discriminate|]. eexists. reflexivity.
Qed.

Lemma os_symlink_run src dst w :
  exists r m,
    DeployInfra.os_symlink src dst w
    = (r, {| DeployInfra.fs := m;
             DeployInfra.environ := DeployInfra.environ w;
             DeployInfra.log := DeployInfra.log w ++ [DeployInfra.OsSymlink src dst] |}).
Proof.
  unfold DeployInfra.os_symlink. rewrite bind_emit, bind_get. simpl.
  destruct (DeployInfra.fs w !! dst).
  - eexists _, _. reflexivity.
  - destruct (DeployInfra.parent_is_dir (DeployInfra.fs w) dst); eexists _, _; reflexivity.
Qed.

Lemma assume_role_run (parsed_args : gmap string string) account w :
  parsed_args !! "account_id" = Some account ->
  exists answer,
    DeployInfra.assume_role outside parsed_args w
    = (answer,
       DeployInfra.with_log
         (fun l => l ++ [DeployInfra.StsAssumeRole
                           ("arn:aws:iam::" +:+ account +:+ ":role/admin") "terraform" answer])
         w).
Proof.
  intros Ha. unfold DeployInfra.assume_role.
  erewrite bind_ok by (apply subscript_ok; exact Ha).
  rewrite bind_get, bind_emit. eexists. reflexivity.
Qed.

Lemma terraform_run all_args (parsed_args : gmap string string) creds w
    component environment region :
  parsed_args !! "aws_region" = Some region ->
  parsed_args !! "component" = Some component ->
  parsed_args !! "env" = Some environment ->
  exists r m new,
    DeployInfra.terraform outside all_args parsed_args creds w
    = (r, {| DeployInfra.fs := m;
             DeployInfra.environ := DeployInfra.environ w;
             DeployInfra.log := DeployInfra.log w ++ new |}) /\
    DeployInfra.terraform_shape all_args component environment r new.
Proof.
  intros Hregion Hcomponent Henv. unfold DeployInfra.terraform.
  rewrite bind_get.
  erewrite bind_ok by (apply subscript_ok; exact Hregion).
  erewrite bind_ok by (apply subscript_ok; exact Hcomponent).
  erewrite bind_ok by (apply subscript_ok; exact Henv).
  rewrite bind_get.
  set (env := <["AWS_DEFAULT_REGION" := region]> _).
  destruct (DeployInfra.generate_decrypted_credentials outside w "platform" component
              environment env) as [answer m0].
  rewrite bind_emit, bind_modify.
  destruct answer as [tmp_secrets|e].
  2:{ rewrite bind_lift_raise. eexists _, _, _. split; [reflexivity|]. constructor. }
  rewrite bind_lift_ok.
  match goal with |- context [bind (DeployInfra.os_symlink ?a ?b) _ ?w0] =>
    destruct (os_symlink_run a b w0) as (r1 & m1 & E1) end.
  destruct r1 as [[]|e1].
  2:{ erewrite bind_raise by exact E1. eexists _, _, _. split.
      - simpl. rewrite <- app_assoc. reflexivity.
      - constructor. }
  erewrite bind_ok by exact E1.
  match goal with |- context [bind (DeployInfra.check_call _ ?a ?b ?c) _ ?w0] =>
    destruct (check_call_run a b c w0) as (ans2 & m2 & [[-> E2]|[Hne2 [e2 E2]]]) end.
  2:{ erewrite bind_raise by exact E2. eexists _, _, _. split.
      - simpl. rewrite <- !app_assoc. reflexivity.
      - constructor. exact Hne2. }
  erewrite bind_ok by exact E2.
  match goal with |- context [DeployInfra.check_call outside ?a ?b ?c ?w0] =>
    destruct (check_call_run a b c w0) as (ans3 & m3 & [[-> E3]|[Hne3 [e3 E3]]]) end.
  - rewrite E3. eexists _, _, _. split.
    + simpl. rewrite <- !app_assoc. reflexivity.
    + constructor.
  - rewrite E3. eexists _, _, _. split.
    + simpl. rewrite <- !app_assoc. reflexivity.
    + constructor. exact Hne3.
Qed.

(** Every run of [main] leaves one of the logs of [run_shape]; the
    process environment is never changed. *)
Lemma main_run sys_argv w :
  exists r m new,
    DeployInfra.main outside sys_argv w
    = (r, {| DeployInfra.fs := m;
             DeployInfra.environ := DeployInfra.environ w;
             DeployInfra.log := DeployInfra.log w ++ new |}) /\
    DeployInfra.run_shape (skipn 1 sys_argv) r new.
Proof.
  unfold DeployInfra.main. set (all_args := skipn 1 sys_argv).
  destruct (parse_args_run all_args w) as [(found & Hparse & Hall)|(missing & _ & Hparse)].
  2:{ erewrite bind_raise by exact Hparse. eexists _, _, _. split; [log_shape|].
      constructor. }
  erewrite bind_ok by exact Hparse.
  unfold DeployInfra.required_vars in Hall.
  apply Forall_cons in Hall as [[environment Henv] Hall].
  apply Forall_cons in Hall as [[component Hcomponent] Hall].
  apply Forall_cons in Hall as [_ Hall].
  apply Forall_cons in Hall as [[region Hregion] Hall].
  apply Forall_cons in Hall as [[account Haccount] _].
  destruct (cleanup_run w) as (m1 & E1 & _). erewrite bind_ok by exact E1.
  match goal with |- context [bind (DeployInfra.assume_role _ _) _ ?w0] =>
    destruct (assume_role_run found account w0 Haccount) as (answer & E2) end.
  destruct answer as [creds|e].
  2:{ erewrite bind_raise by exact E2. eexists _, _, _. split; [log_shape|].
      constructor. }
  erewrite bind_ok by exact E2.
  match goal with |- context [bind (DeployInfra.generate_terraform_config _) _ ?w0] =>
    destruct (generate_terraform_config_cases found account environment component region
                Haccount Henv Hcomponent Hregion w0)
      as [(m3 & E3 & _)|(e3 & E3)] end.
  2:{ erewrite bind_raise by exact E3. eexists _, _, _. split.
      - log_shape.
      - apply DeployInfra.run_open_failed. }
  erewrite bind_ok by exact E3.
  match goal with |- context [bind (DeployInfra.terraform _ _ _ _) _ ?w0] =>
    destruct (terraform_run all_args found creds w0 component environment region
                Hregion Hcomponent Henv) as (r4 & m4 & new4 & E4 & Hshape) end.
  destruct Hshape.
  - erewrite bind_raise by exact E4. eexists _, _, _. split.
    + log_shape.
    + apply DeployInfra.run_secrets_failed.
  - erewrite bind_raise by exact E4. eexists _, _, _. split.
    + log_shape.
    + apply DeployInfra.run_symlink_failed.
  - erewrite bind_raise by exact E4. eexists _, _, _. split.
    + log_shape.
    + apply DeployInfra.run_init_failed. assumption.
  - erewrite bind_raise by exact E4. eexists _, _, _. split.
    + log_shape.
    + apply DeployInfra.run_tool_failed. assumption.
  - erewrite bind_ok by exact E4.
    match goal with |- context [DeployInfra.cleanup ?w0] =>
      destruct (cleanup_run w0) as (m5 & E5 & _) end.
    rewrite E5. eexists _, _, _. split.
    + log_shape.
    + apply DeployInfra.run_done.
Qed.

End Runs.

(** The example scenario of the specification: the role that is
    assumed, the two terraform processes, and the state the run leaves
    behind. *)
Example main_sample_run :
  let run := DeployInfra.main (DeployInfra.sample_outside 0) DeployInfra.sample_argv
               DeployInfra.sample_world in
  fst run = Ok tt /\
  In (DeployInfra.StsAssumeRole "arn:aws:iam::123456789012:role/admin" "terraform"
        (Ok DeployInfra.sample_credentials))
     (DeployInfra.log (snd run)) /\
  DeployInfra.tool_argvs (DeployInfra.log (snd run))
  = [["terraform"; "init"]; "terraform" :: skipn 1 DeployInfra.sample_argv] /\
  DeployInfra.fs (snd run) !! "infra/state.tf" = None /\
  DeployInfra.fs (snd run) !! "infra/.terraform" = None /\
  DeployInfra.fs (snd run) !! "/tmp/secrets.json"
  = Some (DeployInfra.Symlink "/tmp/tmpsecrets").
Proof. vm_compute. repeat split; auto 10. Qed.

(** ** [deploy-infra.py]: the claims *)

(** C7.  When one of [env], [component], [aws_region], [account_id] has
    no assignment among the operator's arguments, [main] writes one error
    message to standard error and leaves through [sys.exit(1)]; the files
    and the process environment are those it started with, and the
    message is the only thing it did. *)
Theorem main_missing_required_exits outside sys_argv w var :
  In var ["env"; "component"; "aws_region"; "account_id"] ->
  (forall arg, In arg (skipn 1 sys_argv) -> startswith (var +:+ "=") arg = false) ->
  exists missing,
    In missing DeployInfra.required_vars /\
    DeployInfra.main outside sys_argv w
    = (Raise (SystemExit 1),
       {| DeployInfra.fs := DeployInfra.fs w;
          DeployInfra.environ := DeployInfra.environ w;
          DeployInfra.log :=
            DeployInfra.log w ++
            [DeployInfra.StderrWrite (DeployInfra.missing_variable_message missing)] |}).
Proof.
  intros Hvar Hnone.
  assert (Hreq : In var DeployInfra.required_vars).
  { unfold DeployInfra.required_vars. simpl in *. tauto. }
  destruct (parse_args_missing (skipn 1 sys_argv) var w Hreq Hnone) as (missing & Hm & Heq).
  exists missing. split; [assumption|].
  unfold DeployInfra.main. erewrite bind_raise by exact Heq. reflexivity.
Qed.

Lemma main_missing_required_exits_witness :
  exists missing,
    In missing DeployInfra.required_vars /\
    DeployInfra.main (DeployInfra.sample_outside 0)
      ["deploy-infra.py"; "env=staging"; "aws_region=eu-west-1"; "account_id=123456789012"; "plan"]
      DeployInfra.sample_world
    = (Raise (SystemExit 1),
       {| DeployInfra.fs := DeployInfra.fs DeployInfra.sample_world;
          DeployInfra.environ := DeployInfra.environ DeployInfra.sample_world;
          DeployInfra.log :=
            DeployInfra.log DeployInfra.sample_world ++
            [DeployInfra.StderrWrite (DeployInfra.missing_variable_message missing)] |}).
Proof.
  apply (main_missing_required_exits (DeployInfra.sample_outside 0) _ _ "component").
  - simpl. tauto.
  - intros arg Hin. simpl in Hin.
    destruct Hin as [<-|[<-|[<-|[<-|[]]]]]; reflexivity.
Defined.

(** C5.  The argument list of the example without [state_aws_region=]:
    [parse_args] does not return; it asks for [state_aws_region] and
    exits with status 1, because [required_vars] lists that variable. *)
Theorem parse_args_requires_state_aws_region w :
  DeployInfra.parse_args
    ["env=staging"; "component=payments"; "aws_region=eu-west-1";
     "account_id=123456789012"; "plan"] w
  = (Raise (SystemExit 1),
     {| DeployInfra.fs := DeployInfra.fs w;
        DeployInfra.environ := DeployInfra.environ w;
        DeployInfra.log :=
          DeployInfra.log w ++
          [DeployInfra.StderrWrite
             "Error: Please specify missing variable: -var state_aws_region=<value>"] |}).
Proof. vm_compute. reflexivity. Qed.

(** C8.  For a dictionary that holds [account_id], [aws_region], [env]
    and [component], in a world where the directory [infra] exists,
    [generate_terraform_config] writes to [infra/state.tf] exactly the
    S3 backend declaration whose bucket is the fixed prefix followed by
    the first six hexadecimal characters of the MD5 digest of the
    account id, whose key is [{env}/{component}/terraform.tfstate],
    whose region is [state_aws_region] when given and [aws_region]
    otherwise, and whose lock table is [terraform_locks]. *)
Theorem generate_terraform_config_artifact
    (parsed_args : gmap string string) account environment component aws_region w :
  parsed_args !! "account_id" = Some account ->
  parsed_args !! "env" = Some environment ->
  parsed_args !! "component" = Some component ->
  parsed_args !! "aws_region" = Some aws_region ->
  DeployInfra.fs w !! "infra" = Some DeployInfra.Dir ->
  DeployInfra.fs w !! "infra/state.tf" <> Some DeployInfra.Dir ->
  let region := default aws_region (parsed_args !! "state_aws_region") in
  let text :=
    DeployInfra.backend_config_text (DeployInfra.bucket_name account)
      environment component region in
  exists w',
    DeployInfra.generate_terraform_config parsed_args w = (Ok tt, w') /\
    DeployInfra.fs w' = <["infra/state.tf" := DeployInfra.File text]> (DeployInfra.fs w) /\
    DeployInfra.log w'
    = DeployInfra.log w ++
      [DeployInfra.OpenW "infra/state.tf"; DeployInfra.FileWrite "infra/state.tf" text].
Proof.
  intros Haccount Henv Hcomponent Hregion Hinfra Hnodir region text.
  eexists. split; [|split].
  - apply (generate_terraform_config_writes parsed_args account environment component
             aws_region Haccount Henv Hcomponent Hregion w Hinfra Hnodir).
  - reflexivity.
  - reflexivity.
Qed.

(** The bucket name and the text of the specification's example. *)
Example bucket_name_example :
  DeployInfra.bucket_name "123456789012" = "terraform-tfstate-341797".
Proof. vm_compute. reflexivity. Qed.

Example backend_config_text_example :
  DeployInfra.backend_config_text "terraform-tfstate-341797" "staging" "payments" "eu-west-1"
  = concat_strings [
      newline;
      "terraform {"; newline;
      "  backend "; dquote; "s3"; dquote; " {"; newline;
      "    bucket = "; dquote; "terraform-tfstate-341797"; dquote; newline;
      "    key    = "; dquote; "staging/payments/terraform.tfstate"; dquote; newline;
      "    region = "; dquote; "eu-west-1"; dquote; newline;
      "    dynamodb_table = "; dquote; "terraform_locks"; dquote; newline;
      "  }"; newline;
      "}"; newline ].
Proof. vm_compute. reflexivity. Qed.

Lemma generate_terraform_config_artifact_witness :
  let region := default "eu-west-1" (DeployInfra.sample_parsed_args !! "state_aws_region") in
  let text :=
    DeployInfra.backend_config_text (DeployInfra.bucket_name "123456789012")
      "staging" "payments" region in
  exists w',
    DeployInfra.generate_terraform_config DeployInfra.sample_parsed_args DeployInfra.sample_world
    = (Ok tt, w') /\
    DeployInfra.fs w'
    = <["infra/state.tf" := DeployInfra.File text]> (DeployInfra.fs DeployInfra.sample_world) /\
    DeployInfra.log w'
    = DeployInfra.log DeployInfra.sample_world ++
      [DeployInfra.OpenW "infra/state.tf"; DeployInfra.FileWrite "infra/state.tf" text].
Proof.
  apply (generate_terraform_config_artifact DeployInfra.sample_parsed_args
           "123456789012" "staging" "payments" "eu-west-1" DeployInfra.sample_world).
  - vm_compute. reflexivity.
  - vm_compute. reflexivity.
  - vm_compute. reflexivity.
  - vm_compute. reflexivity.
  - vm_compute. reflexivity.
  - vm_compute. discriminate.
Defined.

(** C9.  Two calls of [generate_terraform_config] that get the same
    account id, environment, component and state region write the same
    bytes, whatever else their dictionaries hold and whatever state the
    two worlds are in (files, process environment, log). *)
Theorem generate_terraform_config_deterministic
    (args1 args2 : gmap string string) account environment component region1 region2 w1 w2 :
  args1 !! "account_id" = Some account -> args2 !! "account_id" = Some account ->
  args1 !! "env" = Some environment -> args2 !! "env" = Some environment ->
  args1 !! "component" = Some component -> args2 !! "component" = Some component ->
  args1 !! "aws_region" = Some region1 -> args2 !! "aws_region" = Some region2 ->
  default region1 (args1 !! "state_aws_region") = default region2 (args2 !! "state_aws_region") ->
  DeployInfra.fs w1 !! "infra" = Some DeployInfra.Dir ->
  DeployInfra.fs w2 !! "infra" = Some DeployInfra.Dir ->
  DeployInfra.fs w1 !! "infra/state.tf" <> Some DeployInfra.Dir ->
  DeployInfra.fs w2 !! "infra/state.tf" <> Some DeployInfra.Dir ->
  exists text w1' w2',
    DeployInfra.generate_terraform_config args1 w1 = (Ok tt, w1') /\
    DeployInfra.generate_terraform_config args2 w2 = (Ok tt, w2') /\
    DeployInfra.fs w1' !! "infra/state.tf" = Some (DeployInfra.File text) /\
    DeployInfra.fs w2' !! "infra/state.tf" = Some (DeployInfra.File text) /\
    DeployInfra.log w1' = DeployInfra.log w1 ++
      [DeployInfra.OpenW "infra/state.tf"; DeployInfra.FileWrite "infra/state.tf" text] /\
    DeployInfra.log w2' = DeployInfra.log w2 ++
      [DeployInfra.OpenW "infra/state.tf"; DeployInfra.FileWrite "infra/state.tf" text].
Proof.
  intros Ha1 Ha2 He1 He2 Hc1 Hc2 Hr1 Hr2 Hregion Hi1 Hi2 Hn1 Hn2.
  pose proof (generate_terraform_config_writes args1 account environment component region1
                Ha1 He1 Hc1 Hr1 w1 Hi1 Hn1) as E1.
  pose proof (generate_terraform_config_writes args2 account environment component region2
                Ha2 He2 Hc2 Hr2 w2 Hi2 Hn2) as E2.
  rewrite <- Hregion in E2.
  eexists _, _, _. split; [exact E1|]. split; [exact E2|].
  split; [apply lookup_insert_eq|]. split; [apply lookup_insert_eq|].
  split; reflexivity.
Qed.

Lemma generate_terraform_config_deterministic_witness :
  exists text w1' w2',
    DeployInfra.generate_terraform_config DeployInfra.sample_parsed_args DeployInfra.sample_world
    = (Ok tt, w1') /\
    DeployInfra.generate_terraform_config DeployInfra.sample_parsed_args_2 DeployInfra.sample_world_2
    = (Ok tt, w2') /\
    DeployInfra.fs w1' !! "infra/state.tf" = Some (DeployInfra.File text) /\
    DeployInfra.fs w2' !! "infra/state.tf" = Some (DeployInfra.File text) /\
    DeployInfra.log w1' = DeployInfra.log DeployInfra.sample_world ++
      [DeployInfra.OpenW "infra/state.tf"; DeployInfra.FileWrite "infra/state.tf" text] /\
    DeployInfra.log w2' = DeployInfra.log DeployInfra.sample_world_2 ++
      [DeployInfra.OpenW "infra/state.tf"; DeployInfra.FileWrite "infra/state.tf" text].
Proof.
  apply (generate_terraform_config_deterministic DeployInfra.sample_parsed_args DeployInfra.sample_parsed_args_2
           "123456789012" "staging" "payments" "eu-west-1" "us-east-1"
           DeployInfra.sample_world DeployInfra.sample_world_2);
    vm_compute; first [reflexivity | discriminate].
Defined.

(** C6, as stated, fails on the example of the specification: after
    [terraform init] the tool is started with every operator argument,
    the five assignments included, not with [plan] alone. *)
Lemma main_forwards_assignments_counterexample :
  let w' := snd (DeployInfra.main (DeployInfra.sample_outside 0) DeployInfra.sample_argv
                   DeployInfra.sample_world) in
  DeployInfra.tool_argvs (DeployInfra.log w')
  = [ ["terraform"; "init"];
      ["terraform"; "env=staging"; "component=payments"; "state_aws_region=eu-west-1";
       "aws_region=eu-west-1"; "account_id=123456789012"; "plan"] ] /\
  DeployInfra.tool_argvs (DeployInfra.log w')
  <> [ ["terraform"; "init"]; ["terraform"; "plan"] ].
Proof. vm_compute. split; [reflexivity | discriminate]. Qed.

Lemma tool_argvs_app l1 l2 :
  DeployInfra.tool_argvs (l1 ++ l2) = DeployInfra.tool_argvs l1 ++ DeployInfra.tool_argvs l2.
Proof.
  induction l1 as [|e l1 IH]; simpl; [reflexivity|].
  destruct e; simpl; rewrite ?IH; reflexivity.
Qed.

(** C6, amended.  [main] starts at most two child processes:
    [terraform init], then [terraform] followed by the operator's whole
    argument list, unchanged, assignments included; a run that returns
    normally started both. *)
Theorem main_forwards_all_arguments outside sys_argv w :
  exists r w' new,
    DeployInfra.main outside sys_argv w = (r, w') /\
    DeployInfra.log w' = DeployInfra.log w ++ new /\
    (DeployInfra.tool_argvs new = [] \/
     DeployInfra.tool_argvs new = [["terraform"; "init"]] \/
     DeployInfra.tool_argvs new = [["terraform"; "init"]; "terraform" :: skipn 1 sys_argv]) /\
    (r = Ok tt ->
     DeployInfra.tool_argvs new = [["terraform"; "init"]; "terraform" :: skipn 1 sys_argv]).
Proof.
  destruct (main_run outside sys_argv w) as (r & m & new & Hrun & Hshape).
  eexists r, _, new. split; [exact Hrun|]. split; [reflexivity|].
  destruct Hshape; unfold DeployInfra.prepared, DeployInfra.configured;
    rewrite ?tool_argvs_app; simpl; split; auto; discriminate.
Qed.

Lemma main_forwards_all_arguments_witness :
  exists r w' new,
    DeployInfra.main (DeployInfra.sample_outside 0) DeployInfra.sample_argv
      DeployInfra.sample_world = (r, w') /\
    DeployInfra.log w' = DeployInfra.log DeployInfra.sample_world ++ new /\
    DeployInfra.tool_argvs new
    = [["terraform"; "init"]; "terraform" :: skipn 1 DeployInfra.sample_argv].
Proof.
  destruct (main_forwards_all_arguments (DeployInfra.sample_outside 0) DeployInfra.sample_argv
              DeployInfra.sample_world) as (r & w' & new & Hrun & Hlog & _ & Hok).
  exists r, w', new. split; [exact Hrun|]. split; [exact Hlog|].
  apply Hok.
  assert (E : fst (DeployInfra.main (DeployInfra.sample_outside 0) DeployInfra.sample_argv
                     DeployInfra.sample_world) = Ok tt) by (vm_compute; reflexivity).
  rewrite Hrun in E. exact E.
Defined.

(** C1, as stated, fails when the operator's terraform command exits
    with status 1: [main] raises [CalledProcessError], no [cleanup()]
    follows the child process, and the backend configuration and the
    terraform working directory are still there. *)
Lemma main_no_cleanup_after_failed_tool_counterexample :
  let run := DeployInfra.main (DeployInfra.sample_outside 1) DeployInfra.sample_argv
               DeployInfra.sample_world in
  fst run = Raise (CalledProcessError 1) /\
  DeployInfra.tool_argvs (DeployInfra.log (snd run))
  = [["terraform"; "init"]; "terraform" :: skipn 1 DeployInfra.sample_argv] /\
  DeployInfra.cleanups_after_tool (DeployInfra.log (snd run)) = 0 /\
  DeployInfra.cleanups_after_tool (DeployInfra.log (snd run)) <> 1 /\
  DeployInfra.fs (snd run) !! "infra/state.tf"
  = Some (DeployInfra.File
            (DeployInfra.backend_config_text "terraform-tfstate-341797"
               "staging" "payments" "eu-west-1")) /\
  DeployInfra.fs (snd run) !! "infra/.terraform" = Some DeployInfra.Dir.
Proof. vm_compute. repeat split; try reflexivity. discriminate. Qed.

(** C1, amended.  After the last child process [cleanup()] runs once
    when [main] returns normally and not at all when [main] raises: a
    failing terraform process ends the run before the second
    [cleanup()].  [cleanup()] itself never raises, and with both targets
    absent it leaves the files as they are. *)
Theorem main_cleanup_after_tool outside sys_argv w :
  exists r w' new,
    DeployInfra.main outside sys_argv w = (r, w') /\
    DeployInfra.log w' = DeployInfra.log w ++ new /\
    DeployInfra.cleanups_after_tool new = (if is_ok r then 1 else 0) /\
    (forall w0, exists m,
       DeployInfra.cleanup w0
       = (Ok tt, {| DeployInfra.fs := m;
                    DeployInfra.environ := DeployInfra.environ w0;
                    DeployInfra.log := DeployInfra.log w0 ++ DeployInfra.cleanup_events |}) /\
       (DeployInfra.fs w0 !! "infra/state.tf" = None ->
        DeployInfra.fs w0 !! "infra/.terraform" = None ->
        m = DeployInfra.fs w0)).
Proof.
  destruct (main_run outside sys_argv w) as (r & m & new & Hrun & Hshape).
  eexists r, _, new. split; [exact Hrun|]. split; [reflexivity|]. split.
  - destruct Hshape; reflexivity.
  - intros w0. apply cleanup_run.
Qed.

Lemma main_cleanup_after_tool_witness :
  exists m,
    DeployInfra.cleanup DeployInfra.sample_world
    = (Ok tt, {| DeployInfra.fs := m;
                 DeployInfra.environ := DeployInfra.environ DeployInfra.sample_world;
                 DeployInfra.log :=
                   DeployInfra.log DeployInfra.sample_world ++ DeployInfra.cleanup_events |}) /\
    m = DeployInfra.fs DeployInfra.sample_world.
Proof.
  destruct (main_cleanup_after_tool (DeployInfra.sample_outside 0) DeployInfra.sample_argv
              DeployInfra.sample_world) as (_ & _ & _ & _ & _ & _ & Hcleanup).
  destruct (Hcleanup DeployInfra.sample_world) as (m & Hrun & Hsame).
  exists m. split; [exact Hrun|].
  apply Hsame; vm_compute; reflexivity.
Defined.

(** ** [release.py]: running the steps *)

Lemma bind_bind {St A B C} (m : M St A) (f : A -> M St B) (g : B -> M St C) w :
  bind (bind m f) g w = bind m (fun a => bind (f a) g) w.
Proof. unfold bind. destruct (m w) as [[a|e] w']; reflexivity. Qed.

Lemma bind_ret {St A B} (a : A) (k : A -> M St B) w : bind (ret a) k w = k a w.
Proof. reflexivity. Qed.

Lemma bind_raise_now {St A B} e (k : A -> M St B) w : bind (raise e) k w = (Raise e, w).
Proof. reflexivity. Qed.

Lemma follows_refl s : Release.follows s s [].
Proof. unfold Release.follows. rewrite app_nil_r. repeat split. Qed.

Lemma follows_trans s1 s2 s3 new1 new2 :
  Release.follows s1 s2 new1 -> Release.follows s2 s3 new2 ->
  Release.follows s1 s3 (new1 ++ new2).
Proof.
  unfold Release.follows. intros (L1 & V1 & C1 & A1 & P1 & I1) (L2 & V2 & C2 & A2 & P2 & I2).
  rewrite L2, L1, app_assoc. repeat split; congruence.
Qed.

Lemma follows_emit s e :
  Release.follows s
    {| Release.self := Release.self s; Release.log := Release.log s ++ [e] |} [e].
Proof. unfold Release.follows. repeat split. Qed.

Lemma registry_calls_app l1 l2 :
  Release.registry_calls (l1 ++ l2) = Release.registry_calls l1 ++ Release.registry_calls l2.
Proof. apply List.filter_app. Qed.

Lemma token_requests_app l1 l2 :
  Release.token_requests (l1 ++ l2) = Release.token_requests l1 ++ Release.token_requests l2.
Proof. apply List.filter_app. Qed.

Lemma shell_commands_app l1 l2 :
  Release.shell_commands (l1 ++ l2) = Release.shell_commands l1 ++ Release.shell_commands l2.
Proof.
  induction l1 as [|e l1 IH]; simpl; [reflexivity|].
  destruct e; simpl; rewrite ?IH; reflexivity.
Qed.

Section ReleaseRuns.

Variable outside : Release.Outside.
Variable b64decode_utf8 : string -> result string.

Lemma bind_print {B} text (k : unit -> M Release.State B) s :
  bind (Release.print text) k s
  = k tt {| Release.self := Release.self s;
            Release.log := Release.log s ++ [Release.Print text] |}.
Proof. reflexivity. Qed.

Lemma bind_metadata_get {B} key (k : string -> M Release.State B) s :
  bind (Release.metadata_get key) k s
  = match Release.metadata (Release.self s) !! key with
    | Some v => k v s
    | None => (Raise (KeyError key), s)
    end.
Proof.
  unfold Release.metadata_get. rewrite bind_bind, bind_get. unfold subscript.
  destruct (Release.metadata (Release.self s) !! key); reflexivity.
Qed.

Lemma bind_executable {B} f (k : bool -> M Release.State B) s :
  bind (Release.executable outside f) k s
  = k (Release.is_executable outside s f)
      {| Release.self := Release.self s;
         Release.log :=
           Release.log s ++ [Release.Executable f (Release.is_executable outside s f)] |}.
Proof. reflexivity. Qed.

Lemma bind_emit_release {B} e (k : unit -> M Release.State B) s :
  bind (Release.emit e) k s
  = k tt {| Release.self := Release.self s; Release.log := Release.log s ++ [e] |}.
Proof. reflexivity. Qed.

Lemma shell_check_call_run command s :
  exists answer,
    let s' := {| Release.self := Release.self s;
                 Release.log := Release.log s ++ [Release.CheckCall command answer] |} in
    (answer = Ok 0%Z /\ Release.check_call outside command s = (Ok tt, s')) \/
    (answer <> Ok 0%Z /\ exists e, Release.check_call outside command s = (Raise e, s')).
Proof.
  unfold Release.check_call. rewrite bind_get.
  exists (Release.run_shell outside s command).
  destruct (Release.run_shell outside s command) as [[|rc|rc]|e]; simpl.
  - left. split; reflexivity.
  - right. split; [discriminate|]. eexists. reflexivity.
  - right. split; [discriminate|]. eexists. reflexivity.
  - right. split; [discriminate|]. eexists. reflexivity.
Qed.

Lemma shell_runner_run_run command s :
  exists answer,
    Release.shell_runner_run_ outside command s
    = (answer,
       {| Release.self := Release.self s;
          Release.log := Release.log s ++ [Release.ShellRunnerRun command answer] |}).
Proof. exists (Release.shell_runner_run outside s command). reflexivity. Qed.

(** [_get_aws()] makes the session once and keeps it. *)
Lemma get_aws_cached s a :
  Release.aws (Release.self s) = Some a -> Release._get_aws outside s = (Ok a, s).
Proof.
  intros H. unfold Release._get_aws. rewrite bind_get, H. reflexivity.
Qed.

Lemma get_aws_run s :
  exists r s' new,
    Release._get_aws outside s = (r, s') /\
    Release.follows s s' new /\
    Release.registry_calls new = [] /\
    Release.token_requests new = [] /\
    Release.shell_commands new = [] /\
    (forall a, r = Ok a -> Release.aws (Release.self s') = Some a) /\
    (forall e, Release.session_errors_are_not_registry_errors outside s ->
               r = Raise e -> e <> ClientError Release.not_found).
Proof.
  unfold Release._get_aws. rewrite bind_get.
  destruct (Release.aws (Release.self s)) as [a|] eqn:Haws.
  - exists (Ok a), s, []. split; [reflexivity|]. split; [apply follows_refl|].
    repeat split; try reflexivity; intros; congruence.
  - rewrite bind_metadata_get.
    destruct (Release.metadata (Release.self s) !! "REGION") as [region|].
    + destruct (Release.util_assume_role outside s region (Release.account_id (Release.self s)))
        as [a|e] eqn:Hsts.
      * eexists _, _, [_]. split; [reflexivity|].
        repeat split; try reflexivity; intros; simpl; congruence.
      * eexists _, _, [_]. split; [reflexivity|].
        repeat split; try reflexivity; try (intros; congruence).
        intros e0 Hsane [= <-] ->. exact (Hsane Haws _ _ _ Hsts).
    + exists (Raise (KeyError "REGION")), s, []. split; [reflexivity|].
      split; [apply follows_refl|].
      repeat split; try reflexivity; intros; congruence.
Qed.

Lemma describe_repository_run s :
  exists r s' new,
    Release.describe_repository outside s = (r, s') /\
    Release.follows s s' new /\
    Release.token_requests new = [] /\
    Release.shell_commands new = [] /\
    ((Release.registry_calls new = [] /\
      exists e, r = Raise e /\
                (Release.session_errors_are_not_registry_errors outside s ->
                 e <> ClientError Release.not_found)) \/
     (Release.registry_calls new
      = [Release.DescribeRepositories [Release.component_name (Release.self s)] r] /\
      is_Some (Release.aws (Release.self s')))).
Proof.
  unfold Release.describe_repository, Release._ecr.
  destruct (get_aws_run s) as (r0 & s1 & new1 & E & F & R & T & C & Haws & Hsane).
  destruct r0 as [a|e].
  - erewrite bind_ok by exact E. rewrite bind_get.
    set (d := Release.describe_repositories outside s1 a _).
    exists d, {| Release.self := Release.self s1;
                 Release.log := Release.log s1 ++
                   [Release.DescribeRepositories [Release.component_name (Release.self s1)] d] |},
           (new1 ++ [Release.DescribeRepositories [Release.component_name (Release.self s1)] d]).
    split; [destruct d; reflexivity|].
    split; [exact (follows_trans _ _ _ _ _ F (follows_emit _ _))|].
    rewrite token_requests_app, shell_commands_app, registry_calls_app, R, T, C.
    split; [reflexivity|]. split; [reflexivity|]. right.
    destruct F as (_ & _ & -> & _). split; [reflexivity|].
    simpl. rewrite (Haws a eq_refl). eauto.
  - erewrite bind_raise by exact E. exists (Raise e), s1, new1.
    split; [reflexivity|]. split; [exact F|]. split; [exact T|]. split; [exact C|].
    left. split; [exact R|]. exists e. split; [reflexivity|].
    intros Hs. exact (Hsane e Hs eq_refl).
Qed.

Lemma create_repository_with_policy_run s a :
  Release.aws (Release.self s) = Some a ->
  exists r s' new,
    Release.create_repository_with_policy outside s = (r, s') /\
    Release.follows s s' new /\
    Release.token_requests new = [] /\
    Release.shell_commands new = [] /\
    Release.aws (Release.self s') = Some a /\
    ((exists e, r = Raise e /\
        new = [Release.CreateRepository (Release.component_name (Release.self s)) (Raise e)]) \/
     new = [Release.CreateRepository (Release.component_name (Release.self s)) (Ok tt);
            Release.SetRepositoryPolicy (Release.component_name (Release.self s))
              (Release.production_policy (Release.prod_account_id (Release.self s))) r]).
Proof.
  intros Haws. unfold Release.create_repository_with_policy, Release._ecr.
  erewrite bind_ok by (apply get_aws_cached; exact Haws).
  rewrite bind_get.
  set (c := Release.create_repository outside s a _).
  rewrite bind_emit_release. destruct c as [[]|e].
  - rewrite bind_lift_ok.
    erewrite bind_ok by (apply get_aws_cached; exact Haws).
    rewrite bind_get. cbn [Release.self Release.log].
    set (p := Release.set_repository_policy outside _ a _ _).
    exists p,
      {| Release.self := Release.self s;
         Release.log :=
           (Release.log s ++
            [Release.CreateRepository (Release.component_name (Release.self s)) (Ok tt)]) ++
           [Release.SetRepositoryPolicy (Release.component_name (Release.self s))
              (Release.production_policy (Release.prod_account_id (Release.self s))) p] |},
      [Release.CreateRepository (Release.component_name (Release.self s)) (Ok tt);
       Release.SetRepositoryPolicy (Release.component_name (Release.self s))
         (Release.production_policy (Release.prod_account_id (Release.self s))) p].
    split; [destruct p; reflexivity|].
    split; [unfold Release.follows; simpl; rewrite <- app_assoc; repeat split|].
    split; [reflexivity|]. split; [reflexivity|]. split; [exact Haws|].
    right. reflexivity.
  - rewrite bind_lift_raise. eexists _, _, _. split; [reflexivity|].
    split; [apply follows_emit|]. split; [reflexivity|]. split; [reflexivity|].
    split; [exact Haws|]. left. eauto.
Qed.

Lemma create_repository_with_policy_quiet s :
  exists r s' new,
    Release.create_repository_with_policy outside s = (r, s') /\
    Release.follows s s' new /\
    Release.token_requests new = [] /\
    Release.shell_commands new = [] /\
    (r = Ok tt -> is_Some (Release.aws (Release.self s'))).
Proof.
  destruct (get_aws_run s) as (r0 & s1 & new1 & E & F & R & T & C & Haws & _).
  destruct r0 as [a|e].
  - assert (Hsame : Release.create_repository_with_policy outside s
                    = Release.create_repository_with_policy outside s1).
    { unfold Release.create_repository_with_policy, Release._ecr.
      erewrite bind_ok by exact E.
      rewrite (bind_ok (Release._get_aws outside) _ s1 a s1
                 (get_aws_cached s1 a (Haws a eq_refl))).
      reflexivity. }
    destruct (create_repository_with_policy_run s1 a (Haws a eq_refl))
      as (r & s' & new & E' & F' & T' & C' & Haws' & Hnew).
    exists r, s', (new1 ++ new). split; [rewrite Hsame; exact E'|].
    split; [exact (follows_trans _ _ _ _ _ F F')|].
    rewrite token_requests_app, shell_commands_app, T, T', C, C'.
    repeat split. rewrite Haws'. eauto.
  - exists (Raise e), s1, new1. split.
    + unfold Release.create_repository_with_policy, Release._ecr.
      erewrite bind_raise by exact E. reflexivity.
    + split; [exact F|]. split; [exact T|]. split; [exact C|]. discriminate.
Qed.

(** One [_ensure_ecr_repository_exists()]: it asks for no token and runs
    no shell command; a normal return leaves a session behind; and its
    registry calls follow [ensure_shape]. *)
Lemma ensure_ecr_repository_exists_run s :
  exists r s' new,
    Release._ensure_ecr_repository_exists outside s = (r, s') /\
    Release.follows s s' new /\
    Release.token_requests new = [] /\
    Release.shell_commands new = [] /\
    (r = Ok tt -> is_Some (Release.aws (Release.self s'))) /\
    (Release.session_errors_are_not_registry_errors outside s ->
     Release.ensure_shape (Release.component_name (Release.self s))
       (Release.production_policy (Release.prod_account_id (Release.self s)))
       r (Release.registry_calls new)).
Proof.
  unfold Release._ensure_ecr_repository_exists. rewrite bind_print.
  set (s0 := {| Release.self := Release.self s; Release.log := _ |}).
  assert (F0 : Release.follows s s0 [Release.Print (Release.PREFIX +:+ "checking ECR repository")])
    by apply follows_emit.
  destruct (describe_repository_run s0) as (r1 & s1 & new1 & E1 & F1 & T1 & C1 & Hcases).
  pose proof (follows_trans _ _ _ _ _ F0 F1) as F01.
  unfold try_except. rewrite E1.
  destruct r1 as [[]|e].
  { (* the repository is there *)
    eexists _, _, _. split; [reflexivity|]. split; [exact F01|].
    rewrite token_requests_app, shell_commands_app, registry_calls_app, T1, C1.
    split; [reflexivity|]. split; [reflexivity|].
    destruct Hcases as [(_ & e & He & _)|(R1 & Haws)]; [discriminate|].
    split; [intros _; exact Haws|]. intros _. rewrite R1. simpl. constructor. }
  assert (Hraise :
    exists new, Release.follows s s1 new /\ Release.token_requests new = [] /\
      Release.shell_commands new = [] /\
      (Release.session_errors_are_not_registry_errors outside s ->
       e <> ClientError Release.not_found ->
       Release.ensure_shape (Release.component_name (Release.self s))
         (Release.production_policy (Release.prod_account_id (Release.self s)))
         (Raise e) (Release.registry_calls new))).
  { eexists. split; [exact F01|].
    rewrite token_requests_app, shell_commands_app, registry_calls_app, T1, C1.
    split; [reflexivity|]. split; [reflexivity|]. intros Hsane Hne.
    destruct Hcases as [(-> & _)|(-> & _)]; simpl.
    - constructor.
    - constructor. exact Hne. }
  destruct Hraise as (new & Fr & Tr & Cr & Hshape).
  assert (Hdec : e = ClientError Release.not_found \/ e <> ClientError Release.not_found).
  { destruct e as [code| | | | | | | |]; try (right; discriminate).
    destruct (String.eqb_spec code Release.not_found); [left|right]; congruence. }
  destruct Hdec as [->|Hne].
  2:{ exists (Raise e), s1, new. split.
      - destruct e as [code| | | | | | | |]; try reflexivity.
        destruct (String.eqb_spec code Release.not_found); [congruence|reflexivity].
      - split; [exact Fr|]. split; [exact Tr|]. split; [exact Cr|]. split; [discriminate|].
        intros Hsane. apply Hshape; assumption. }
  (* the repository is not there *)
  change (String.eqb Release.not_found Release.not_found) with true. cbv iota.
  clear Hshape new Fr Tr Cr.
  destruct Hcases as [(R1 & e & He & Hsane_e)|(R1 & a & Haws)].
  - (* the error came from making the client *)
    destruct (create_repository_with_policy_quiet s1)
      as (r2 & s2 & new2 & E2 & F2 & T2 & C2 & Haws2).
    exists r2, s2, (([Release.Print (Release.PREFIX +:+ "checking ECR repository")] ++ new1) ++ new2).
    split; [exact E2|]. split; [exact (follows_trans _ _ _ _ _ F01 F2)|].
    rewrite !token_requests_app, !shell_commands_app, T1, T2, C1, C2.
    split; [reflexivity|]. split; [reflexivity|]. split; [exact Haws2|].
    intros Hsane. injection He as <-. exfalso. exact (Hsane_e Hsane eq_refl).
  - destruct (create_repository_with_policy_run s1 a Haws)
      as (r2 & s2 & new2 & E2 & F2 & T2 & C2 & Haws2 & Hnew).
    exists r2, s2, (([Release.Print (Release.PREFIX +:+ "checking ECR repository")] ++ new1) ++ new2).
    split; [exact E2|]. split; [exact (follows_trans _ _ _ _ _ F01 F2)|].
    rewrite !token_requests_app, !shell_commands_app, !registry_calls_app, T1, T2, C1, C2, R1.
    split; [reflexivity|]. split; [reflexivity|].
    split; [intros _; rewrite Haws2; eauto|]. intros _.
    destruct F01 as (_ & _ & Hname & _ & Hprod & _). rewrite Hname, Hprod in Hnew.
    destruct Hnew as [(e & -> & ->)| ->]; simpl.
    + constructor.
    + destruct r2 as [[]|e]; constructor.
Qed.

Lemma append_empty_r (s : string) : s +:+ "" = s.
Proof. induction s as [|c s IH]; simpl; congruence. Qed.

Lemma percent_push image : percent "docker push %s" [image] = Ok (Release.push_command image).
Proof. simpl. rewrite append_empty_r. reflexivity. Qed.

Lemma percent_pushing image :
  percent "pushing image %s" [image] = Ok ("pushing image " +:+ image).
Proof. simpl. rewrite append_empty_r. reflexivity. Qed.

Lemma percent_login username password endpoint :
  percent "docker login -u '%s' -p '%s' %s" [username; password; endpoint]
  = Ok ("docker login -u '" +:+ username +:+ "' -p '" +:+ password +:+ "' " +:+ endpoint).
Proof. simpl. rewrite append_empty_r. reflexivity. Qed.

Lemma docker_login_run details s :
  exists r s' new,
    Release.docker_login outside b64decode_utf8 details s = (r, s') /\
    Release.follows s s' new /\
    ((exists e, r = Raise e /\ new = [] /\
                forall command, ~ Release.login_command_of b64decode_utf8 details command) \/
     (exists command answer,
        Release.login_command_of b64decode_utf8 details command /\
        new = [Release.CheckCall command answer] /\
        ((answer = Ok 0%Z /\ r = Ok tt) \/ (answer <> Ok 0%Z /\ exists e, r = Raise e)))).
Proof.
  unfold Release.docker_login.
  destruct (b64decode_utf8 (Release.authorizationToken details)) as [decoded|e] eqn:Hdec.
  2:{ rewrite bind_lift_raise. exists (Raise e), s, []. split; [reflexivity|].
      split; [apply follows_refl|]. left. exists e. repeat split.
      intros command (d & u & p & Hd & _). congruence. }
  rewrite bind_lift_ok.
  destruct (split ":" decoded) as [|username [|password [|third more]]] eqn:Hsplit;
    try (eexists (Raise _), s, []; split; [reflexivity|]; split; [apply follows_refl|];
         left; eexists; repeat split;
         intros command (d & u & p & Hd & Hs & _); congruence).
  rewrite percent_login, bind_lift_ok.
  set (command := "docker login -u '" +:+ _).
  assert (Hcmd : Release.login_command_of b64decode_utf8 details command).
  { exists decoded, username, password. repeat split; assumption. }
  destruct (shell_check_call_run command s) as (answer & [[-> E]|[Hne [e E]]]).
  - eexists _, _, _. split; [exact E|]. split; [apply follows_emit|].
    right. exists command, (Ok 0%Z). repeat split; auto.
  - eexists _, _, _. split; [exact E|]. split; [apply follows_emit|].
    right. exists command, answer. repeat split; eauto.
Qed.

Lemma login_loop_run auth_data s :
  exists r s' new,
    for_each auth_data (Release.docker_login outside b64decode_utf8) s = (r, s') /\
    Release.follows s s' new /\
    Release.logins_shape b64decode_utf8 auth_data r new.
Proof.
  revert s. induction auth_data as [|details rest IH]; intros s.
  - exists (Ok tt), s, []. split; [reflexivity|]. split; [apply follows_refl|]. constructor.
  - simpl.
    destruct (docker_login_run details s) as (r1 & s1 & new1 & E1 & F1 & Hcases).
    destruct Hcases as [(e & -> & -> & Hno)|(command & answer & Hcmd & -> & Hanswer)].
    + erewrite bind_raise by exact E1. exists (Raise e), s1, []. split; [reflexivity|].
      split; [exact F1|]. constructor. exact Hno.
    + destruct Hanswer as [(-> & ->)|(Hne & e & ->)].
      * erewrite bind_ok by exact E1.
        destruct (IH s1) as (r2 & s2 & new2 & E2 & F2 & Hshape).
        exists r2, s2, ([Release.CheckCall command (Ok 0%Z)] ++ new2).
        split; [exact E2|]. split; [exact (follows_trans _ _ _ _ _ F1 F2)|].
        simpl. constructor; assumption.
      * erewrite bind_raise by exact E1. eexists _, _, _. split; [reflexivity|].
        split; [exact F1|]. constructor; assumption.
Qed.

(** [_push_to_ecr(image)]: first [_ensure_ecr_repository_exists()];
    when that raises nothing else happens; otherwise the log goes on as
    [push_tail] says. *)
Lemma push_to_ecr_run image s :
  exists r0 s0 prov,
    Release._ensure_ecr_repository_exists outside s = (r0, s0) /\
    Release.follows s s0 prov /\
    Release.token_requests prov = [] /\
    Release.shell_commands prov = [] /\
    match r0 with
    | Raise e => Release._push_to_ecr outside b64decode_utf8 image s = (Raise e, s0)
    | Ok _ =>
        exists r s' rest,
          Release._push_to_ecr outside b64decode_utf8 image s = (r, s') /\
          Release.follows s0 s' rest /\
          Release.push_tail b64decode_utf8 image r rest
    end.
Proof.
  destruct (ensure_ecr_repository_exists_run s) as (r0 & s0 & prov & E0 & F0 & T0 & C0 & Haws & _).
  exists r0, s0, prov. split; [exact E0|]. split; [exact F0|]. split; [exact T0|].
  split; [exact C0|].
  unfold Release._push_to_ecr.
  destruct r0 as [[]|e]; [|erewrite bind_raise by exact E0; reflexivity].
  erewrite bind_ok by exact E0.
  destruct (Haws eq_refl) as [a Ha].
  rewrite bind_print. unfold Release._ecr.
  erewrite bind_ok by (apply get_aws_cached; exact Ha).
  rewrite bind_get, bind_emit_release. cbn [Release.self Release.log].
  set (answer := Release.get_authorization_token outside _ a).
  destruct answer as [auth_data|e].
  2:{ rewrite bind_lift_raise. eexists _, _, _. split; [reflexivity|]. split.
      - unfold Release.follows. simpl. rewrite <- app_assoc. repeat split.
      - constructor. }
  rewrite bind_lift_ok.
  set (s1 := {| Release.self := Release.self s0; Release.log := _ |}).
  assert (F1 : Release.follows s0 s1
                 [Release.Print (Release.PREFIX +:+ "logging into ECR");
                  Release.GetAuthorizationToken (Ok auth_data)]).
  { unfold Release.follows. simpl. rewrite <- app_assoc. repeat split. }
  destruct (login_loop_run auth_data s1) as (r2 & s2 & new2 & E2 & F2 & Hshape).
  destruct r2 as [[]|e].
  2:{ erewrite bind_raise by exact E2. eexists _, _, _. split; [reflexivity|].
      split; [exact (follows_trans _ _ _ _ _ F1 F2)|]. constructor. exact Hshape. }
  erewrite bind_ok by exact E2.
  rewrite percent_pushing, bind_lift_ok, bind_print, percent_push, bind_lift_ok.
  set (s3 := {| Release.self := Release.self s2; Release.log := _ |}).
  assert (F3 : Release.follows s2 s3
                 [Release.Print (Release.PREFIX +:+ "pushing image " +:+ image)])
    by apply follows_emit.
  destruct (shell_check_call_run (Release.push_command image) s3) as (answer & [[-> E4]|[Hne [e E4]]]).
  - eexists _, _, _. split; [exact E4|]. split.
    + pose proof (follows_trans _ _ _ _ _ (follows_trans _ _ _ _ _
                   (follows_trans _ _ _ _ _ F1 F2) F3)
                   (follows_emit s3 (Release.CheckCall (Release.push_command image) (Ok 0%Z))))
        as F.
      rewrite <- !app_assoc in F. exact F.
    + apply Release.tail_pushed. exact Hshape.
  - eexists _, _, _. split; [exact E4|]. split.
    + pose proof (follows_trans _ _ _ _ _ (follows_trans _ _ _ _ _
                   (follows_trans _ _ _ _ _ F1 F2) F3)
                   (follows_emit s3 (Release.CheckCall (Release.push_command image) answer)))
        as F.
      rewrite <- !app_assoc in F. exact F.
    + apply Release.tail_push_failed; assumption.
Qed.

End ReleaseRuns.

(** ** [release.py]: the claims *)

(** The registry calls of one run, whatever the outside answers. *)
Lemma ensure_registry_calls outside s :
  Release.session_errors_are_not_registry_errors outside s ->
  exists r s' new,
    Release._ensure_ecr_repository_exists outside s = (r, s') /\
    Release.log s' = Release.log s ++ new /\
    let name := Release.component_name (Release.self s) in
    let policy := Release.production_policy (Release.prod_account_id (Release.self s)) in
    let calls := Release.registry_calls new in
    let describe_not_found :=
      Release.DescribeRepositories [name] (Raise (ClientError Release.not_found)) in
    Release.ensure_shape name policy r calls /\
    ((exists answer, In (Release.CreateRepository name answer) calls) <->
     In describe_not_found calls) /\
    (forall p answer,
       In (Release.SetRepositoryPolicy name p answer) calls ->
       calls = [describe_not_found; Release.CreateRepository name (Ok tt);
                Release.SetRepositoryPolicy name policy answer]) /\
    (In (Release.DescribeRepositories [name] (Ok tt)) calls ->
     r = Ok tt /\ calls = [Release.DescribeRepositories [name] (Ok tt)]) /\
    (forall e,
       e <> ClientError Release.not_found ->
       In (Release.DescribeRepositories [name] (Raise e)) calls ->
       r = Raise e /\ calls = [Release.DescribeRepositories [name] (Raise e)]).
Proof.
  intros Hsane.
  destruct (ensure_ecr_repository_exists_run outside s)
    as (r & s' & new & E & (Hlog & _) & _ & _ & _ & Hshape).
  exists r, s', new. split; [exact E|]. split; [exact Hlog|].
  specialize (Hshape Hsane). cbv zeta. split; [exact Hshape|].
  destruct Hshape; simpl; repeat split; intros;
    repeat match goal with
           | H : exists _, _ |- _ => destruct H
           | H : _ \/ _ |- _ => destruct H
           | H : False |- _ => destruct H
           | H : Release.DescribeRepositories _ _ = Release.DescribeRepositories _ _ |- _ =>
               injection H as ?; subst
           | H : Release.SetRepositoryPolicy _ _ _ = Release.SetRepositoryPolicy _ _ _ |- _ =>
               injection H as ?; subst
           | H : _ = _ |- _ => discriminate H
           end;
    try congruence; try reflexivity; eauto 6.
Qed.

Section EnsureExact.

Variable outside : Release.Outside.

(** [_ensure_ecr_repository_exists()] once the session is there: each
    call to the registry gets the answer of the outside, in the state
    reached so far, and the answers decide what is called next. *)
Lemma ensure_after_session s a s1 :
  Release._get_aws outside
    (Release.with_log
       (fun l => l ++ [Release.Print (Release.PREFIX +:+ "checking ECR repository")]) s)
  = (Ok a, s1) ->
  let name := Release.component_name (Release.self s) in
  let policy := Release.production_policy (Release.prod_account_id (Release.self s)) in
  let d := Release.describe_repositories outside s1 a [name] in
  let s2 := Release.with_log (fun l => l ++ [Release.DescribeRepositories [name] d]) s1 in
  let c := Release.create_repository outside s2 a name in
  let s3 := Release.with_log (fun l => l ++ [Release.CreateRepository name c]) s2 in
  let p := Release.set_repository_policy outside s3 a name policy in
  let s4 := Release.with_log (fun l => l ++ [Release.SetRepositoryPolicy name policy p]) s3 in
  Release._ensure_ecr_repository_exists outside s
  = match d with
    | Ok _ => (Ok tt, s2)
    | Raise e =>
        if match e with ClientError code => String.eqb code Release.not_found | _ => false end
        then match c with
             | Ok _ => (p, s4)
             | Raise e' => (Raise e', s3)
             end
        else (Raise e, s2)
    end.
Proof.
  intros Hget name policy d s2 c s3 p s4.
  set (s0 := Release.with_log _ s) in Hget.
  destruct (get_aws_run outside s0) as (r0 & s1' & new & E & F & _ & _ & _ & Haws & _).
  rewrite Hget in E. injection E as <- <-.
  specialize (Haws a eq_refl).
  destruct F as (_ & _ & Hname & _ & Hprod & _).
  change (Release.component_name (Release.self s0)) with name in Hname.
  change (Release.prod_account_id (Release.self s0)) with
    (Release.prod_account_id (Release.self s)) in Hprod.
  unfold Release._ensure_ecr_repository_exists. rewrite bind_print.
  change {| Release.self := Release.self s; Release.log := _ |} with s0.
  assert (Hdescribe : Release.describe_repository outside s0 = (d, s2)).
  { unfold Release.describe_repository, Release._ecr.
    erewrite bind_ok by exact Hget. rewrite bind_get, bind_emit_release, Hname.
    fold d. destruct d as [[]|e]; reflexivity. }
  unfold try_except. rewrite Hdescribe.
  destruct d as [[]|e] eqn:Hd; [reflexivity|].
  assert (Hcreate :
    Release.create_repository_with_policy outside s2
    = match c with
      | Ok _ => (p, s4)
      | Raise e' => (Raise e', s3)
      end).
  { assert (Haws2 : Release.aws (Release.self s2) = Some a) by exact Haws.
    assert (Haws3 : Release.aws (Release.self s3) = Some a) by exact Haws.
    unfold Release.create_repository_with_policy, Release._ecr.
    erewrite bind_ok by (apply get_aws_cached; exact Haws2).
    rewrite bind_get, bind_emit_release.
    change (Release.component_name (Release.self s2))
      with (Release.component_name (Release.self s1)).
    rewrite Hname. fold c.
    change {| Release.self := Release.self s2;
              Release.log := Release.log s2 ++ [Release.CreateRepository name c] |} with s3.
    destruct c as [[]|e'] eqn:Hc; [|reflexivity].
    rewrite bind_lift_ok.
    erewrite bind_ok by (apply get_aws_cached; exact Haws3).
    rewrite bind_get.
    change (Release.component_name (Release.self s3))
      with (Release.component_name (Release.self s1)).
    change (Release.prod_account_id (Release.self s3))
      with (Release.prod_account_id (Release.self s1)).
    rewrite Hname, Hprod. fold policy. fold p.
    rewrite bind_emit_release. destruct p as [[]|e']; reflexivity. }
  destruct e as [code| | | | | | | |]; try reflexivity.
  destruct (String.eqb code Release.not_found); [exact Hcreate | reflexivity].
Qed.

(** When the session cannot be made, the error is raised as it is,
    unless it carries the registry's code. *)
Lemma ensure_without_session s e s1 :
  Release._get_aws outside
    (Release.with_log
       (fun l => l ++ [Release.Print (Release.PREFIX +:+ "checking ECR repository")]) s)
  = (Raise e, s1) ->
  e <> ClientError Release.not_found ->
  Release._ensure_ecr_repository_exists outside s = (Raise e, s1).
Proof.
  intros Hget Hne.
  unfold Release._ensure_ecr_repository_exists. rewrite bind_print.
  unfold try_except, Release.describe_repository, Release._ecr.
  erewrite bind_raise by exact Hget.
  destruct e as [code| | | | | | | |]; try reflexivity.
  destruct (String.eqb_spec code Release.not_found); [congruence | reflexivity].
Qed.

End EnsureExact.

(** C3.  [_ensure_ecr_repository_exists] calls [create_repository], and
    after it [set_repository_policy], exactly when [describe_repositories]
    failed with [RepositoryNotFoundException].  When the repository is
    described the function returns after that one call; on any other
    failure of the describe call it raises that very error and calls
    nothing else.  The policy is set exactly when the repository was
    created: when [create_repository] fails its error is raised and no
    policy is set.  The calls are those that the outside answers: once
    the session is there, the first call is [describe_repositories]
    with the answer of the outside, and that answer, then the answer to
    [create_repository], decide what is called next and what the
    function returns; when the session cannot be made, its error is
    raised and the registry is not called.  (The [except] clause also
    guards the making of the client: the session is assumed to be there
    already, or STS not to answer with the registry's error code, so
    that a [ClientError] with this code can only come from the describe
    call.) *)
Theorem ensure_ecr_repository_exists_creates_iff_not_found outside s :
  Release.session_errors_are_not_registry_errors outside s ->
  exists r s' new,
    Release._ensure_ecr_repository_exists outside s = (r, s') /\
    Release.log s' = Release.log s ++ new /\
    let name := Release.component_name (Release.self s) in
    let policy := Release.production_policy (Release.prod_account_id (Release.self s)) in
    let calls := Release.registry_calls new in
    let describe_not_found :=
      Release.DescribeRepositories [name] (Raise (ClientError Release.not_found)) in
    Release.ensure_shape name policy r calls /\
    ((exists answer, In (Release.CreateRepository name answer) calls) <->
     In describe_not_found calls) /\
    (forall p answer,
       In (Release.SetRepositoryPolicy name p answer) calls ->
       calls = [describe_not_found; Release.CreateRepository name (Ok tt);
                Release.SetRepositoryPolicy name policy answer]) /\
    (In (Release.DescribeRepositories [name] (Ok tt)) calls ->
     r = Ok tt /\ calls = [Release.DescribeRepositories [name] (Ok tt)]) /\
    (forall e,
       e <> ClientError Release.not_found ->
       In (Release.DescribeRepositories [name] (Raise e)) calls ->
       r = Raise e /\ calls = [Release.DescribeRepositories [name] (Raise e)]) /\
    ((exists answer, In (Release.SetRepositoryPolicy name policy answer) calls) <->
     In (Release.CreateRepository name (Ok tt)) calls) /\
    match Release._get_aws outside
            (Release.with_log
               (fun l => l ++ [Release.Print (Release.PREFIX +:+ "checking ECR repository")])
               s) with
    | (Raise e, _) => r = Raise e /\ calls = []
    | (Ok a, s1) =>
        let d := Release.describe_repositories outside s1 a [name] in
        let s2 := Release.with_log (fun l => l ++ [Release.DescribeRepositories [name] d]) s1 in
        let c := Release.create_repository outside s2 a name in
        let s3 := Release.with_log (fun l => l ++ [Release.CreateRepository name c]) s2 in
        let p := Release.set_repository_policy outside s3 a name policy in
        match d with
        | Ok _ => r = Ok tt /\ calls = [Release.DescribeRepositories [name] d]
        | Raise e =>
            if match e with
               | ClientError code => String.eqb code Release.not_found
               | _ => false
               end
            then match c with
                 | Ok _ =>
                     r = p /\
                     calls = [Release.DescribeRepositories [name] d;
                              Release.CreateRepository name c;
                              Release.SetRepositoryPolicy name policy p]
                 | Raise e' =>
                     r = Raise e' /\
                     calls = [Release.DescribeRepositories [name] d;
                              Release.CreateRepository name c]
                 end
            else r = Raise e /\ calls = [Release.DescribeRepositories [name] d]
        end
    end.
Proof.
  intros Hsane.
  destruct (ensure_registry_calls outside s Hsane)
    as (r & s' & new & E & Hlog & Hshape & Hcreate & Hpolicy & Hpresent & Hother).
  exists r, s', new. split; [exact E|]. split; [exact Hlog|]. cbv zeta.
  split; [exact Hshape|]. split; [exact Hcreate|]. split; [exact Hpolicy|].
  split; [exact Hpresent|]. split; [exact Hother|].
  split.
  { clear -Hshape. destruct Hshape; simpl; split; intros;
      repeat match goal with
             | H : exists _, _ |- _ => destruct H
             | H : _ \/ _ |- _ => destruct H
             | H : False |- _ => destruct H
             | H : _ = _ :> Release.Event |- _ => discriminate H
             end; eauto 6. }
  set (s0 := Release.with_log _ s).
  destruct (get_aws_run outside s0) as (r0 & s1 & new0 & Hget & (L0 & _) & R0 & _ & _ & _ & Hclient).
  rewrite Hget.
  assert (Hcalls : forall l,
            Release.log s' = Release.log s1 ++ l ->
            Release.registry_calls new = Release.registry_calls l).
  { intros l Hl. rewrite Hlog, L0 in Hl. subst s0. cbn [Release.with_log Release.log] in Hl.
    rewrite <- !app_assoc in Hl. apply app_inv_head in Hl. subst new.
    rewrite !registry_calls_app, R0. reflexivity. }
  destruct r0 as [a|e].
  - pose proof (ensure_after_session outside s a s1 Hget) as Hexact. cbv zeta in Hexact.
    rewrite E in Hexact. cbv zeta.
    destruct (Release.describe_repositories outside s1 a
                [Release.component_name (Release.self s)]) as [[]|e] eqn:Hd.
    + injection Hexact as -> ->. split; [reflexivity|].
      erewrite Hcalls
        by (cbn [Release.with_log Release.log]; rewrite <- ?app_assoc; reflexivity).
      reflexivity.
    + destruct (match e with
                | ClientError code => String.eqb code Release.not_found
                | _ => false
                end).
      * destruct (Release.create_repository outside _ a _) as [[]|e'].
        -- injection Hexact as -> ->. split; [reflexivity|].
           erewrite Hcalls
             by (cbn [Release.with_log Release.log]; rewrite <- ?app_assoc; reflexivity).
           reflexivity.
        -- injection Hexact as -> ->. split; [reflexivity|].
           erewrite Hcalls
             by (cbn [Release.with_log Release.log]; rewrite <- ?app_assoc; reflexivity).
           reflexivity.
      * injection Hexact as -> ->. split; [reflexivity|].
        erewrite Hcalls
        by (cbn [Release.with_log Release.log]; rewrite <- ?app_assoc; reflexivity).
      reflexivity.
  - assert (Hne : e <> ClientError Release.not_found) by (apply Hclient; [exact Hsane | reflexivity]).
    rewrite (ensure_without_session outside s e s1 Hget Hne) in E.
    injection E as <- <-. split; [reflexivity|].
    rewrite (Hcalls []); [reflexivity | symmetry; apply app_nil_r].
Qed.

Lemma ensure_ecr_repository_exists_creates_iff_not_found_witness :
  exists r s' new,
    Release._ensure_ecr_repository_exists (Release.sample_outside false 0)
      (Release.sample_state (Some "1.0")) = (r, s') /\
    Release.log s' = Release.log (Release.sample_state (Some "1.0")) ++ new /\
    r = Ok tt /\
    Release.registry_calls new
    = [Release.DescribeRepositories ["payments"] (Raise (ClientError Release.not_found));
       Release.CreateRepository "payments" (Ok tt);
       Release.SetRepositoryPolicy "payments" (Release.production_policy "210987654321")
         (Ok tt)].
Proof.
  destruct (ensure_ecr_repository_exists_creates_iff_not_found
              (Release.sample_outside false 0) (Release.sample_state (Some "1.0")))
    as (r & s' & new & E & Hlog & _ & _ & _ & _ & _ & _ & Hexact).
  - intros _ s region account. simpl. discriminate.
  - exists r, s', new. split; [exact E|]. split; [exact Hlog|].
    vm_compute in Hexact. exact Hexact.
Defined.

Section PushOrder.

Variable b64decode_utf8 : string -> result string.

Lemma login_command_is_login details command :
  Release.login_command_of b64decode_utf8 details command ->
  Release.is_docker_login command = true.
Proof. intros (d & u & p & _ & _ & ->). reflexivity. Qed.


(** A login loop that returned normally ran one login per entry, in
    order, and each exited with status zero. *)
Lemma logins_shape_ok auth_data l :
  Release.logins_shape b64decode_utf8 auth_data (Ok tt) l ->
  exists commands,
    Forall2 (Release.login_command_of b64decode_utf8) auth_data commands /\
    l = map (fun command => Release.CheckCall command (Ok 0%Z)) commands.
Proof.
  intros H. remember (Ok tt) as r eqn:Hr.
  induction H as [| | |details rest command r l Hcmd _ IH]; try discriminate.
  - exists []. split; constructor.
  - destruct (IH Hr) as (commands & Hall & ->).
    exists (command :: commands). split; [constructor; assumption | reflexivity].
Qed.

(** Whatever the login loop did, it ran login commands only. *)
Lemma logins_shape_commands auth_data r l :
  Release.logins_shape b64decode_utf8 auth_data r l ->
  Forall (fun entry => Release.is_docker_login (fst entry) = true) (Release.shell_commands l).
Proof.
  induction 1; simpl; repeat constructor; eauto using login_command_is_login.
Qed.



End PushOrder.


(** The push step on the sample registry: one login, then the push. *)
Example push_to_ecr_sample :
  Release.shell_commands
    (Release.log
       (snd (Release._push_to_ecr (Release.sample_outside true 0) Base64.b64decode_utf8
               "123456789012.dkr.ecr.eu-west-1.amazonaws.com/payments:1.0"
               (Release.sample_state (Some "1.0")))))
  = [("docker login -u 'AWS' -p 'secret' https://123456789012.dkr.ecr.eu-west-1.amazonaws.com",
      Ok 0%Z);
     ("docker push 123456789012.dkr.ecr.eu-west-1.amazonaws.com/payments:1.0", Ok 0%Z)].
Proof. vm_compute. reflexivity. Qed.

(** A refused login: the push command is not run. *)
Example push_to_ecr_sample_refused :
  Release.shell_commands
    (Release.log
       (snd (Release._push_to_ecr (Release.sample_outside true 1) Base64.b64decode_utf8
               "123456789012.dkr.ecr.eu-west-1.amazonaws.com/payments:1.0"
               (Release.sample_state (Some "1.0")))))
  = [("docker login -u 'AWS' -p 'secret' https://123456789012.dkr.ecr.eu-west-1.amazonaws.com",
      Ok 1%Z)].
Proof. vm_compute. reflexivity. Qed.

(** ** [release.py]: the runs of [create] *)

Lemma percent_prepare component version_ build_dir :
  percent "./prepare-docker-build %s-%s %s" [component; version_; build_dir]
  = Ok (Release.prepare_command component version_ build_dir).
Proof. unfold Release.prepare_command. simpl. rewrite append_empty_r. reflexivity. Qed.

Lemma percent_building image :
  percent "building docker image %s" [image] = Ok ("building docker image " +:+ image).
Proof. simpl. rewrite append_empty_r. reflexivity. Qed.

Lemma percent_build image build_dir :
  percent "docker build -t %s %s" [image; build_dir]
  = Ok ("docker build -t " +:+ image +:+ " " +:+ build_dir).
Proof. simpl. rewrite append_empty_r. reflexivity. Qed.

Lemma percent_on_build image :
  percent "./on-docker-build %s" [image] = Ok ("./on-docker-build " +:+ image).
Proof. simpl. rewrite append_empty_r. reflexivity. Qed.

Lemma percent_running command :
  percent "running %s" [command] = Ok ("running " +:+ command).
Proof. simpl. rewrite append_empty_r. reflexivity. Qed.

(** One step of a run of [release.py], at the head of the program. *)
Ltac release_step outside :=
  first
    [ rewrite bind_bind
    | rewrite bind_ret
    | rewrite bind_get
    | rewrite bind_print
    | rewrite bind_lift_ok
    | rewrite bind_modify
    | rewrite bind_executable
    | rewrite bind_metadata_get
    | rewrite lookup_insert_eq
    | rewrite percent_prepare | rewrite percent_building | rewrite percent_build
    | rewrite percent_on_build | rewrite percent_running
    | match goal with
      | |- context [bind (Release.check_call outside ?c) _ ?s] =>
          let answer := fresh "answer" in
          let E := fresh "E" in
          let Hne := fresh "Hne" in
          let e := fresh "e" in
          destruct (shell_check_call_run outside c s) as (answer & [[-> E]|[Hne [e E]]]);
          [erewrite bind_ok by exact E | erewrite bind_raise by exact E]
      | |- context [bind (Release.shell_runner_run_ outside ?c) _ ?s] =>
          let answer := fresh "answer" in
          let E := fresh "E" in
          destruct (shell_runner_run_run outside c s) as (answer & E);
          destruct answer as [[]|?];
          [erewrite bind_ok by exact E | erewrite bind_raise by exact E]
      | |- context [match Release.metadata ?r !! ?k with _ => _ end] =>
          first [ match goal with H : Release.metadata r !! k = _ |- _ => rewrite H end
                | destruct (Release.metadata r !! k) eqn:? ]
      | |- context [if String.eqb ?a ?b then _ else _] =>
          destruct (String.eqb a b) eqn:?
      | |- context [if Release.is_executable outside ?s ?f then _ else _] =>
          destruct (Release.is_executable outside s f) eqn:?
      end ];
  cbn [Release.self Release.log Release.set_metadata Release.version Release.metadata
       Release.component_name Release.ecr_image_name Release.account_id
       Release.prod_account_id Release.aws default].

(** Runs [create] on a state without a version, down to its final
    states, and presents each as the result and the new events. *)
Ltac run_create outside Hversion :=
  unfold Release.create, Release._build_slug;
  repeat release_step outside;
  rewrite ?Hversion;
  repeat release_step outside;
  (eexists _, _, _; split; [first [reflexivity | eassumption]|];
   split; [simpl; rewrite <- ?app_assoc;
           first [reflexivity | symmetry; apply app_nil_r]|]).

(** Uses what is known of an answer that is not a zero exit status. *)
Ltac refute_answers :=
  repeat match goal with
         | Hne : ?answer <> Ok 0%Z |- _ =>
             destruct answer as [[| |]|]; [congruence| | |]; clear Hne
         end.

Section CreateRuns.

Variable outside : Release.Outside.
Variable b64decode_utf8 : string -> result string.

(** C4.  A run of [create] without a version performs no event of the
    push step: no session, no registry call, no token request, no
    [docker login], no [docker push].  When it returns normally its last
    two actions are the messages that the push is skipped and that the
    release is done; and it does return normally when the metadata holds
    the keys it reads and no call to the outside fails. *)
Theorem create_without_version_skips_push s :
  Release.version (Release.self s) = None ->
  exists r s' new,
    Release.create outside b64decode_utf8 s = (r, s') /\
    Release.log s' = Release.log s ++ new /\
    List.filter Release.is_push_step_event new = [] /\
    (r = Ok tt ->
     Release.last_events 2 new
     = [Release.Print (Release.PREFIX +:+ "no version supplied, push skipped");
        Release.Print (Release.PREFIX +:+ "done.")]) /\
    (is_Some (Release.metadata (Release.self s) !! "TYPE") ->
     is_Some (Release.metadata (Release.self s) !! "DOCKER_BUILD_DIR") ->
     is_Some (Release.metadata (Release.self s) !! "SLUG_BUILDER_DOCKER_OPTS") ->
     Release.failures new = [] ->
     r = Ok tt).
Proof.
  intros Hversion. run_create outside Hversion.
  all: split; [reflexivity|].
  all: split; [first [discriminate | intros _; reflexivity]|].
  all: intros [? ?] [? ?] [? ?] Hfail; try reflexivity; exfalso; try congruence.
  all: refute_answers; discriminate Hfail.
Qed.

(** The events of the pre-build hook in a run without a version. *)
Lemma create_without_version_hook_events s :
  Release.version (Release.self s) = None ->
  exists r s' new,
    Release.create outside b64decode_utf8 s = (r, s') /\
    Release.log s' = Release.log s ++ new /\
    (In (Release.Executable "prepare-docker-build" true) new ->
     match Release.build_dir_at_hook (Release.self s) with
     | Some build_dir =>
         exists answer,
           In (Release.CheckCall
                 (Release.prepare_command (Release.component_name (Release.self s))
                    "dev" build_dir) answer) new
     | None => r = Raise (KeyError "DOCKER_BUILD_DIR")
     end) /\
    (forall command answer,
       In (Release.CheckCall command answer) new ->
       startswith "./prepare-docker-build" command = true ->
       exists build_dir,
         Release.build_dir_at_hook (Release.self s) = Some build_dir /\
         command = Release.prepare_command (Release.component_name (Release.self s))
                     "dev" build_dir).
Proof.
  intros Hversion. run_create outside Hversion.
  all: unfold Release.build_dir_at_hook;
       repeat match goal with
              | H : Release.metadata _ !! _ = _ |- _ => rewrite H
              | H : String.eqb _ _ = _ |- _ => rewrite H
              end.
  all: split;
    [ intros Hin; simpl in Hin;
      repeat match goal with
             | H : _ \/ _ |- _ => destruct H
             | H : False |- _ => destruct H
             | H : _ = _ :> Release.Event |- _ => discriminate H
             end;
      first [ reflexivity | eexists; simpl; auto 12 ]
    | intros command answer' Hin Hsw; simpl in Hin;
      repeat match goal with
             | H : _ \/ _ |- _ => destruct H
             | H : False |- _ => destruct H
             | H : Release.CheckCall _ _ = Release.CheckCall _ _ |- _ =>
                 injection H as ? ?; subst
             | H : _ = _ :> Release.Event |- _ => discriminate H
             end;
      first [ discriminate Hsw | eexists; split; reflexivity ] ].
Qed.

End CreateRuns.

Section HookRuns.

Variable outside : Release.Outside.
Variable b64decode_utf8 : string -> result string.

(** [check_call] logs the command with the answer of the shell, in the
    state in which it is run. *)
Lemma shell_check_call_exact command s :
  let answer := Release.run_shell outside s command in
  let s' := {| Release.self := Release.self s;
               Release.log := Release.log s ++ [Release.CheckCall command answer] |} in
  (answer = Ok 0%Z /\ Release.check_call outside command s = (Ok tt, s')) \/
  (answer <> Ok 0%Z /\ exists e, Release.check_call outside command s = (Raise e, s')).
Proof.
  cbv zeta. unfold Release.check_call. rewrite bind_get.
  destruct (Release.run_shell outside s command) as [[|rc|rc]|e]; simpl.
  - left. split; reflexivity.
  - right. split; [discriminate|]. eexists. reflexivity.
  - right. split; [discriminate|]. eexists. reflexivity.
  - right. split; [discriminate|]. eexists. reflexivity.
Qed.

(** The step of [create] before the hooks: the slug for a component of
    type [slug], nothing otherwise.  When it returns, the build
    directory is known and the attributes are as they were. *)
Lemma before_hooks_run s type s_b :
  Release.metadata (Release.self s) !! "TYPE" = Some type ->
  (if String.eqb type "slug" then Release._build_slug outside else ret tt) s = (Ok tt, s_b) ->
  (exists before, Release.log s_b = Release.log s ++ before) /\
  Release.version (Release.self s_b) = Release.version (Release.self s) /\
  Release.component_name (Release.self s_b) = Release.component_name (Release.self s) /\
  Release.metadata (Release.self s_b) !! "DOCKER_BUILD_DIR"
  = Release.build_dir_at_hook (Release.self s).
Proof.
  intros Htype. unfold Release.build_dir_at_hook. rewrite Htype.
  destruct (String.eqb type "slug").
  - unfold Release._build_slug. repeat release_step outside.
    all: intros [= <-]; cbn [Release.self Release.log Release.version Release.component_name
                              Release.metadata].
    split; [eexists; rewrite <- !app_assoc; reflexivity|].
    split; [reflexivity|]. split; [reflexivity|]. apply lookup_insert_eq.
  - intros [= <-]. split; [exists []; symmetry; apply app_nil_r|]. repeat split.
Qed.

End HookRuns.

(** One step of a run, where the answer to a shell command is kept as
    the answer of the outside. *)
Ltac release_step_exact outside :=
  first
    [ match goal with
      | |- context [bind (Release.check_call outside ?c) _ ?s] =>
          let Hzero := fresh "Hzero" in
          let E := fresh "E" in
          let Hne := fresh "Hne" in
          let e := fresh "e" in
          destruct (shell_check_call_exact outside c s) as [[Hzero E]|[Hne [e E]]];
          [erewrite bind_ok by exact E | erewrite bind_raise by exact E];
          cbn [Release.self Release.log]
      | |- context [Release.check_call outside ?c ?s] =>
          let Hzero := fresh "Hzero" in
          let E := fresh "E" in
          let Hne := fresh "Hne" in
          let e := fresh "e" in
          destruct (shell_check_call_exact outside c s) as [[Hzero E]|[Hne [e E]]];
          rewrite E; cbn [Release.self Release.log]
      end
    | release_step outside ].

Section HookCommand.

Variable outside : Release.Outside.
Variable b64decode_utf8 : string -> result string.

(** Without a version, once the step before the hooks has returned and
    the outside answers that [prepare-docker-build] is executable, the
    hook is run for the version [dev], and the shell is asked in the
    state reached after the test and the message. *)
Lemma create_runs_hook s type s_b r s' new :
  Release.version (Release.self s) = None ->
  Release.metadata (Release.self s) !! "TYPE" = Some type ->
  (if String.eqb type "slug" then Release._build_slug outside else ret tt) s = (Ok tt, s_b) ->
  Release.is_executable outside s_b "prepare-docker-build" = true ->
  Release.create outside b64decode_utf8 s = (r, s') ->
  Release.log s' = Release.log s ++ new ->
  match Release.build_dir_at_hook (Release.self s) with
  | Some build_dir =>
      let command :=
        Release.prepare_command (Release.component_name (Release.self s)) "dev" build_dir in
      let s_e :=
        Release.with_log
          (fun l => l ++ [Release.Executable "prepare-docker-build" true]) s_b in
      let s_h :=
        Release.with_log
          (fun l => l ++ [Release.Print (Release.PREFIX +:+ "running " +:+ command)]) s_e in
      In (Release.CheckCall command (Release.run_shell outside s_h command)) new
  | None => r = Raise (KeyError "DOCKER_BUILD_DIR")
  end.
Proof.
  intros Hversion Htype Hpre Hexe Hrun Hlog.
  destruct (before_hooks_run outside s type s_b Htype Hpre) as ((before & Lb) & Vb & Cb & Hdir).
  assert (Hin : forall tail x,
            Release.log s' = Release.log s_b ++ tail -> In x tail -> In x new).
  { intros tail x Ht Hx. rewrite Hlog, Lb, <- app_assoc in Ht.
    apply app_inv_head in Ht. subst new. apply in_or_app. right. exact Hx. }
  clear Hlog. rewrite <- Hdir. revert Hrun.
  unfold Release.create. rewrite bind_metadata_get, Htype.
  erewrite bind_ok by exact Hpre.
  rewrite bind_executable, Hexe.
  destruct (Release.metadata (Release.self s_b) !! "DOCKER_BUILD_DIR") as [build_dir|] eqn:Hd.
  2:{ repeat release_step_exact outside. intros [= <- <-]. reflexivity. }
  repeat release_step_exact outside.
  rewrite ?Vb, ?Hversion, ?Cb.
  repeat release_step_exact outside.
  all: rewrite ?Vb, ?Hversion, ?Cb; cbn [default]; intros [= <- <-];
       cbn [Release.log Release.with_log] in Hin;
       repeat match goal with
              | H : context [Release.CheckCall ?c (Release.run_shell outside ?s0 ?c0)] |- _ =>
                  let ev := fresh "ev" in
                  set (ev := Release.CheckCall c (Release.run_shell outside s0 c0)) in H
              end;
       eapply Hin; [rewrite <- ?app_assoc; reflexivity|];
       cbn [app In]; right; right; left; reflexivity.
Qed.

End HookCommand.

(** C10.  In a run of [create] without a version, when
    [prepare-docker-build] is found executable the hook is run as
    [./prepare-docker-build {component}-dev {build dir}]: the version
    part of the identifier is the literal [dev].  (Without a build
    directory in the metadata the run stops with a [KeyError] before the
    hook.)  No other [./prepare-docker-build] command is run.  And the
    hook is run whenever it is there: once the step before the hooks has
    returned (the slug is built, for a component of type [slug]) and the
    outside answers that [prepare-docker-build] is executable, the
    command is given to the shell, in the state reached after the test
    and the message, and the answer of the shell is logged with it. *)
Theorem create_without_version_runs_hook_with_dev outside b64decode_utf8 s :
  Release.version (Release.self s) = None ->
  exists r s' new,
    Release.create outside b64decode_utf8 s = (r, s') /\
    Release.log s' = Release.log s ++ new /\
    (In (Release.Executable "prepare-docker-build" true) new ->
     match Release.build_dir_at_hook (Release.self s) with
     | Some build_dir =>
         exists answer,
           In (Release.CheckCall
                 (Release.prepare_command (Release.component_name (Release.self s))
                    "dev" build_dir) answer) new
     | None => r = Raise (KeyError "DOCKER_BUILD_DIR")
     end) /\
    (forall command answer,
       In (Release.CheckCall command answer) new ->
       startswith "./prepare-docker-build" command = true ->
       exists build_dir,
         Release.build_dir_at_hook (Release.self s) = Some build_dir /\
         command = Release.prepare_command (Release.component_name (Release.self s))
                     "dev" build_dir) /\
    (forall type s_b,
       Release.metadata (Release.self s) !! "TYPE" = Some type ->
       (if String.eqb type "slug" then Release._build_slug outside else ret tt) s
       = (Ok tt, s_b) ->
       Release.is_executable outside s_b "prepare-docker-build" = true ->
       match Release.build_dir_at_hook (Release.self s) with
       | Some build_dir =>
           let command :=
             Release.prepare_command (Release.component_name (Release.self s))
               "dev" build_dir in
           let s_e :=
             Release.with_log
               (fun l => l ++ [Release.Executable "prepare-docker-build" true]) s_b in
           let s_h :=
             Release.with_log
               (fun l => l ++ [Release.Print (Release.PREFIX +:+ "running " +:+ command)])
               s_e in
           In (Release.CheckCall command (Release.run_shell outside s_h command)) new
       | None => r = Raise (KeyError "DOCKER_BUILD_DIR")
       end).
Proof.
  intros Hversion.
  destruct (create_without_version_hook_events outside b64decode_utf8 s Hversion)
    as (r & s' & new & E & Hlog & Hfound & Honly).
  exists r, s', new. split; [exact E|]. split; [exact Hlog|].
  split; [exact Hfound|]. split; [exact Honly|].
  intros type s_b Htype Hbefore Hexecutable.
  exact (create_runs_hook outside b64decode_utf8 s type s_b r s' new
           Hversion Htype Hbefore Hexecutable E Hlog).
Qed.


Lemma create_without_version_skips_push_witness :
  exists r s' new,
    Release.create (Release.sample_outside true 0) Base64.b64decode_utf8
      (Release.sample_state None) = (r, s') /\
    Release.log s' = Release.log (Release.sample_state None) ++ new /\
    List.filter Release.is_push_step_event new = [] /\
    r = Ok tt.
Proof.
  destruct (create_without_version_skips_push (Release.sample_outside true 0)
              Base64.b64decode_utf8 (Release.sample_state None) eq_refl)
    as (r & s' & new & E & Hlog & Hnone & _ & _).
  exists r, s', new. split; [exact E|]. split; [exact Hlog|]. split; [exact Hnone|].
  assert (Hr : fst (Release.create (Release.sample_outside true 0) Base64.b64decode_utf8
                      (Release.sample_state None)) = Ok tt) by (vm_compute; reflexivity).
  rewrite E in Hr. exact Hr.
Defined.

Lemma create_without_version_runs_hook_with_dev_witness :
  exists r s' new,
    Release.create (Release.sample_outside true 0) Base64.b64decode_utf8
      (Release.sample_state None) = (r, s') /\
    Release.log s' = Release.log (Release.sample_state None) ++ new /\
    In (Release.CheckCall "./prepare-docker-build payments-dev ." (Ok 0%Z)) new /\
    forall command answer,
      In (Release.CheckCall command answer) new ->
      startswith "./prepare-docker-build" command = true ->
      exists build_dir,
        Release.build_dir_at_hook (Release.self (Release.sample_state None)) = Some build_dir /\
        command = Release.prepare_command
                    (Release.component_name (Release.self (Release.sample_state None)))
                    "dev" build_dir.
Proof.
  destruct (create_without_version_runs_hook_with_dev (Release.sample_outside true 0)
              Base64.b64decode_utf8 (Release.sample_state None) eq_refl)
    as (r & s' & new & E & Hlog & _ & Honly & Hhook).
  exists r, s', new. split; [exact E|]. split; [exact Hlog|]. split; [|exact Honly].
  assert (Htype : Release.metadata (Release.self (Release.sample_state None)) !! "TYPE"
                  = Some "docker") by (vm_compute; reflexivity).
  specialize (Hhook "docker" (Release.sample_state None) Htype eq_refl eq_refl).
  vm_compute in Hhook. exact Hhook.
Defined.

(** The hook command of the sample run without a version. *)
Example create_without_version_sample :
  Release.shell_commands
    (Release.log
       (snd (Release.create (Release.sample_outside true 0) Base64.b64decode_utf8
               (Release.sample_state None))))
  = [("./prepare-docker-build payments-dev .", Ok 0%Z);
     ("docker build -t 123456789012.dkr.ecr.eu-west-1.amazonaws.com/payments:dev .", Ok 0%Z)].
Proof. vm_compute. reflexivity. Qed.


(** ** [hashlib.md5]: test vectors *)

(** The RFC 1321 test vectors, a two-block message, and the account id of
    the specification's example. *)
Example md5_empty : MD5.hexdigest "" = "d41d8cd98f00b204e9800998ecf8427e".
Proof. vm_compute. reflexivity. Qed.

Example md5_abc : MD5.hexdigest "abc" = "900150983cd24fb0d6963f7d28e17f72".
Proof. vm_compute. reflexivity. Qed.

Example md5_two_blocks :
  MD5.hexdigest
    "12345678901234567890123456789012345678901234567890123456789012345678901234567890"
  = "57edf4a22be3c955ac49da2e2107b67a".
Proof. vm_compute. reflexivity. Qed.

Example md5_account : MD5.hexdigest "123456789012" = "3417973cd67f37b077e56b82f0cc306f".
Proof. vm_compute. reflexivity. Qed.

(* ===================================================================== *)
(** * Further properties *)
(* ===================================================================== *)

(** ** [deploy-infra.py]: what [parse_args] returns *)

Lemma rev_app_rev_app a b c :
  String.rev_app (String.rev_app a b) c = String.rev_app b (a +:+ c).
Proof.
  revert b c. induction a as [|x a IH]; intros b c; simpl; [reflexivity|].
  rewrite IH. reflexivity.
Qed.

Lemma split_acc_head sep cur t :
  exists rest,
    split_acc sep cur t
    = String.rev (String.rev_app (DeployInfra.up_to sep t) cur) :: rest.
Proof.
  revert cur. induction t as [|c t IH]; intros cur; simpl.
  - eauto.
  - destruct (Ascii.eqb c sep); simpl; eauto.
Qed.

Lemma split_head sep t :
  exists rest, split_acc sep "" t = DeployInfra.up_to sep t :: rest.
Proof.
  destruct (split_acc_head sep "" t) as [rest ->]. exists rest. f_equal.
  unfold String.rev. rewrite rev_app_rev_app. simpl. apply append_empty_r.
Qed.

(** The second piece of [(p + sep + t).split(sep)] is the text of [t]
    before its first separator, when [p] holds none. *)
Lemma split_acc_value sep cur p t :
  DeployInfra.occurs sep p = false ->
  exists a rest,
    split_acc sep cur (p +:+ String sep t) = a :: DeployInfra.up_to sep t :: rest.
Proof.
  revert cur. induction p as [|c p IH]; intros cur Hp; simpl in *.
  - rewrite Ascii.eqb_refl. destruct (split_head sep t) as [rest ->]. eauto.
  - apply orb_false_iff in Hp as [-> Hp]. apply IH. exact Hp.
Qed.

Lemma drop_chars_app p t : DeployInfra.drop_chars (String.length p) (p +:+ t) = t.
Proof. induction p as [|c p IH]; simpl; [destruct t; reflexivity | exact IH]. Qed.

Lemma split_assigned_value var arg :
  DeployInfra.occurs "=" var = false ->
  startswith (var +:+ "=") arg = true ->
  exists a rest, split "=" arg = a :: DeployInfra.assigned_value var arg :: rest.
Proof.
  intros Hvar H. destruct (startswith_inv _ _ H) as [t ->].
  unfold DeployInfra.assigned_value.
  replace (String.length var + 1) with (String.length (var +:+ "=")).
  2:{ clear. induction var as [|c v IH]; simpl; [reflexivity | rewrite IH; reflexivity]. }
  rewrite drop_chars_app, append_assoc. simpl. apply split_acc_value. exact Hvar.
Qed.

Lemma find_snoc {A} (p : A -> bool) l x :
  List.find p (l ++ [x])
  = match List.find p l with Some y => Some y | None => if p x then Some x else None end.
Proof.
  induction l as [|y l IH]; simpl; [reflexivity|].
  destruct (p y); [reflexivity | exact IH].
Qed.

Lemma scan_args_value var args found :
  DeployInfra.occurs "=" var = false ->
  exists found',
    DeployInfra.scan_args var args found = Ok found' /\
    (forall v, v <> var -> found' !! v = found !! v) /\
    found' !! var
    = match DeployInfra.last_assignment var args with
      | Some arg => Some (DeployInfra.assigned_value var arg)
      | None => found !! var
      end.
Proof.
  intros Hvar. unfold DeployInfra.last_assignment.
  revert found. induction args as [|arg args IH]; intros found; simpl.
  - exists found. auto.
  - rewrite find_snoc. destruct (startswith (var +:+ "=") arg) eqn:Hsw.
    + destruct (split_assigned_value _ _ Hvar Hsw) as (a & rest & ->).
      destruct (IH (<[var := DeployInfra.assigned_value var arg]> found))
        as (found' & -> & Hother & Hval).
      exists found'. split; [reflexivity|]. split.
      * intros v Hv. rewrite Hother by assumption. apply lookup_insert_ne. congruence.
      * rewrite Hval. destruct (find _ (rev args)); [reflexivity|].
        apply lookup_insert_eq.
    + destruct (IH found) as (found' & -> & Hother & Hval).
      exists found'. split; [reflexivity|]. split; [assumption|].
      rewrite Hval. destruct (find _ (rev args)); reflexivity.
Qed.

Lemma scan_vars_value vars args found :
  Forall (fun var => DeployInfra.occurs "=" var = false) vars ->
  exists found',
    DeployInfra.scan_vars vars args found = Ok found' /\
    forall v,
      found' !! v
      = if decide (v ∈ vars)
        then match DeployInfra.value_of v args with Some x => Some x | None => found !! v end
        else found !! v.
Proof.
  intros Hvars. revert found. induction Hvars as [|var vars Hvar _ IH]; intros found; simpl.
  - exists found. split; [reflexivity|]. intros v.
    destruct (decide (v ∈ [])) as [H|_]; [inversion H | reflexivity].
  - destruct (scan_args_value var args found Hvar) as (found1 & -> & Hother & Hval).
    destruct (IH found1) as (found' & -> & Hkeep).
    exists found'. split; [reflexivity|].
    intros v. rewrite Hkeep. unfold DeployInfra.value_of in *.
    destruct (decide (v = var)) as [->|Hne].
    + rewrite Hval.
      destruct (decide (var ∈ vars)), (decide (var ∈ var :: vars)) as [|Hn];
        try (exfalso; apply Hn; left);
        destruct (DeployInfra.last_assignment var args); reflexivity.
    + rewrite (Hother v Hne).
      destruct (decide (v ∈ vars)) as [Hi|Hi], (decide (v ∈ var :: vars)) as [Hj|Hj];
        try reflexivity.
      * exfalso. apply Hj. right. exact Hi.
      * exfalso. apply elem_of_cons in Hj as [|]; tauto.
Qed.

(** The dictionary that the two search loops of [parse_args] build. *)
Lemma parse_args_found args :
  exists found,
    (forall v,
       found !! v
       = if decide (v ∈ DeployInfra.required_vars) then DeployInfra.value_of v args else None) /\
    forall w,
      DeployInfra.parse_args args w = (Ok found, w) \/
      exists missing,
        missing ∈ DeployInfra.required_vars /\ found !! missing = None /\
        DeployInfra.parse_args args w
        = (Raise (SystemExit 1),
           DeployInfra.with_log
             (fun l => l ++ [DeployInfra.StderrWrite
                               (DeployInfra.missing_variable_message missing)]) w).
Proof.
  assert (Hreq : Forall (fun var => DeployInfra.occurs "=" var = false)
                   DeployInfra.required_vars) by (repeat constructor).
  assert (Hopt : Forall (fun var => DeployInfra.occurs "=" var = false)
                   DeployInfra.optional_vars) by (repeat constructor).
  destruct (scan_vars_value _ args ∅ Hreq) as (found1 & E1 & H1).
  destruct (scan_vars_value _ args found1 Hopt) as (found2 & E2 & H2).
  exists found2. split.
  - intros v. rewrite H2, H1, lookup_empty.
    destruct (decide (v ∈ DeployInfra.optional_vars)) as [Ho|Ho];
      destruct (decide (v ∈ DeployInfra.required_vars)) as [Hr|Hr];
      destruct (DeployInfra.value_of v args); try reflexivity;
      exfalso; apply Hr; apply list_elem_of_singleton in Ho; subst v;
      unfold DeployInfra.required_vars; set_solver.
  - intros w. unfold DeployInfra.parse_args.
    rewrite E1, bind_lift_ok, E2, bind_lift_ok.
    destruct (decide (Forall (fun v => is_Some (found2 !! v)) DeployInfra.required_vars))
      as [Hall|Hnot].
    + left. erewrite bind_ok by (apply check_required_present; assumption). reflexivity.
    + right. apply not_Forall_Exists in Hnot; [|intros; apply _].
      apply Exists_exists in Hnot as (v & Hin & Hv).
      apply list_elem_of_In in Hin.
      assert (Hnone : found2 !! v = None).
      { destruct (found2 !! v) eqn:E; [exfalso; apply Hv; eauto | reflexivity]. }
      destruct (check_required_missing found2 _ v w Hin Hnone) as (missing & Hm & Hmn & Heq).
      exists missing. split; [apply list_elem_of_In; exact Hm|]. split; [exact Hmn|].
      erewrite bind_raise by exact Heq. reflexivity.
Qed.

Lemma last_assignment_none var args :
  DeployInfra.last_assignment var args = None <-> DeployInfra.assigned var args = false.
Proof.
  unfold DeployInfra.last_assignment, DeployInfra.assigned.
  induction args as [|arg args IH]; simpl; [tauto|].
  rewrite find_snoc.
  destruct (startswith (var +:+ "=") arg); simpl.
  - destruct (find _ (rev args)); split; discriminate.
  - destruct (find _ (rev args)); [split; [discriminate | intros H; apply IH in H; discriminate]|].
    exact IH.
Qed.

Lemma value_of_none var args :
  DeployInfra.value_of var args = None <-> DeployInfra.assigned var args = false.
Proof.
  rewrite <- last_assignment_none. unfold DeployInfra.value_of.
  destruct (DeployInfra.last_assignment var args); simpl; split; congruence.
Qed.

(** The third loop of [parse_args], in closed form. *)
Lemma check_required_first (found : gmap string string) vars w :
  for_each vars (fun var =>
    match found !! var with
    | Some _ => ret tt
    | None =>
        bind (DeployInfra.stderr_write (DeployInfra.missing_variable_message var))
             (fun _ => DeployInfra.sys_exit 1)
    end) w
  = match List.find (fun var => bool_decide (found !! var = None)) vars with
    | Some missing =>
        (Raise (SystemExit 1),
         DeployInfra.with_log
           (fun l => l ++ [DeployInfra.StderrWrite
                             (DeployInfra.missing_variable_message missing)]) w)
    | None => (Ok tt, w)
    end.
Proof.
  induction vars as [|var vars IH]; simpl; [reflexivity|].
  destruct (found !! var) eqn:Hvar; simpl.
  - unfold bind at 1. simpl. exact IH.
  - reflexivity.
Qed.

Lemma find_ext_in {A} (p q : A -> bool) l :
  (forall x, In x l -> p x = q x) -> List.find p l = List.find q l.
Proof.
  induction l as [|x l IH]; intros H; simpl; [reflexivity|].
  rewrite (H x (or_introl eq_refl)), IH; [reflexivity|].
  intros y Hy. apply H. right. exact Hy.
Qed.

(** X1.  [parse_args] returns normally exactly when each of the five
    variables of [required_vars] has an argument that starts with
    [var=]; it then leaves the world as it was.  Otherwise it writes
    one message, for the first variable of [required_vars] without
    such an argument, and exits with status 1. *)
Theorem parse_args_outcome args w :
  match List.find (fun var => negb (DeployInfra.assigned var args)) DeployInfra.required_vars with
  | Some missing =>
      DeployInfra.parse_args args w
      = (Raise (SystemExit 1),
         DeployInfra.with_log
           (fun l => l ++ [DeployInfra.StderrWrite
                             (DeployInfra.missing_variable_message missing)]) w)
  | None => exists found, DeployInfra.parse_args args w = (Ok found, w)
  end.
Proof.
  assert (Hreq : Forall (fun var => DeployInfra.occurs "=" var = false)
                   DeployInfra.required_vars) by (repeat constructor).
  assert (Hopt : Forall (fun var => DeployInfra.occurs "=" var = false)
                   DeployInfra.optional_vars) by (repeat constructor).
  destruct (scan_vars_value _ args ∅ Hreq) as (found1 & E1 & H1).
  destruct (scan_vars_value _ args found1 Hopt) as (found2 & E2 & H2).
  assert (Hfound : forall v, In v DeployInfra.required_vars ->
            bool_decide (found2 !! v = None) = negb (DeployInfra.assigned v args)).
  { intros v Hv. apply list_elem_of_In in Hv.
    rewrite H2, H1, lookup_empty.
    destruct (decide (v ∈ DeployInfra.required_vars)); [|tauto].
    destruct (DeployInfra.assigned v args) eqn:Ha; simpl.
    - destruct (DeployInfra.value_of v args) eqn:Hv'.
      + destruct (decide (v ∈ DeployInfra.optional_vars)); reflexivity.
      + apply value_of_none in Hv'. congruence.
    - apply value_of_none in Ha. rewrite Ha.
      destruct (decide (v ∈ DeployInfra.optional_vars)); reflexivity. }
  rewrite <- (find_ext_in _ _ _ Hfound).
  unfold DeployInfra.parse_args.
  rewrite E1, bind_lift_ok, E2, bind_lift_ok.
  pose proof (check_required_first found2 DeployInfra.required_vars w) as Hc.
  destruct (find _ DeployInfra.required_vars) as [missing|].
  - erewrite bind_raise by exact Hc. reflexivity.
  - exists found2. erewrite bind_ok by exact Hc. reflexivity.
Qed.

(** X2.  The dictionary that [parse_args] returns holds the five
    variables of [required_vars] and no other key.  The value of each
    is taken from the last argument that starts with [var=], and it is
    the text between the first equals sign of that argument and the
    next one: what follows a second equals sign is dropped. *)
Theorem parse_args_values args w found w' :
  DeployInfra.parse_args args w = (Ok found, w') ->
  forall var,
    found !! var
    = if decide (var ∈ DeployInfra.required_vars)
      then DeployInfra.value_of var args
      else None.
Proof.
  intros Hrun. destruct (parse_args_found args) as (found0 & Hvalues & Hcases).
  destruct (Hcases w) as [E|(missing & _ & _ & E)]; rewrite E in Hrun.
  - injection Hrun as <- _. exact Hvalues.
  - discriminate.
Qed.

Lemma parse_args_values_witness :
  DeployInfra.parse_args DeployInfra.sample_args_repeated DeployInfra.sample_world
  = (Ok DeployInfra.sample_found_repeated, DeployInfra.sample_world) /\
  forall var,
    DeployInfra.sample_found_repeated !! var
    = if decide (var ∈ DeployInfra.required_vars)
      then DeployInfra.value_of var DeployInfra.sample_args_repeated
      else None.
Proof.
  assert (H : DeployInfra.parse_args DeployInfra.sample_args_repeated DeployInfra.sample_world
              = (Ok DeployInfra.sample_found_repeated, DeployInfra.sample_world))
    by (vm_compute; reflexivity).
  split; [exact H|].
  exact (parse_args_values _ _ _ _ H).
Defined.

(** ** [deploy-infra.py]: errors of [generate_terraform_config] *)

(** X3.  When one of the keys [aws_region], [env], [component],
    [account_id] is missing, [generate_terraform_config] raises
    [KeyError] for the first of them in that order and touches nothing:
    no file is opened.  The region is subscripted first, so it is
    needed even when [state_aws_region] is there. *)
Theorem generate_terraform_config_missing_key (parsed_args : gmap string string) key w :
  List.find (fun k => bool_decide (parsed_args !! k = None)) DeployInfra.config_keys = Some key ->
  DeployInfra.generate_terraform_config parsed_args w = (Raise (KeyError key), w).
Proof.
  unfold DeployInfra.config_keys, DeployInfra.generate_terraform_config. simpl.
  unfold bind, subscript.
  destruct (parsed_args !! "aws_region"); simpl; [|intros [= <-]; reflexivity].
  destruct (parsed_args !! "env"); simpl; [|intros [= <-]; reflexivity].
  destruct (parsed_args !! "component"); simpl; [|intros [= <-]; reflexivity].
  destruct (parsed_args !! "account_id"); simpl; [|intros [= <-]; reflexivity].
  discriminate.
Qed.

Lemma generate_terraform_config_missing_key_witness :
  DeployInfra.generate_terraform_config DeployInfra.sample_parsed_args_state_only
    DeployInfra.sample_world
  = (Raise (KeyError "aws_region"), DeployInfra.sample_world).
Proof.
  apply (generate_terraform_config_missing_key DeployInfra.sample_parsed_args_state_only
           "aws_region" DeployInfra.sample_world).
  vm_compute. reflexivity.
Defined.

(** X4.  Without the directory [infra], [generate_terraform_config]
    raises [FileNotFoundError] from [open]: the files stay as they
    were and nothing is written. *)
Theorem generate_terraform_config_without_directory
    (parsed_args : gmap string string) w :
  Forall (fun k => is_Some (parsed_args !! k)) DeployInfra.config_keys ->
  DeployInfra.fs w !! "infra" = None ->
  DeployInfra.fs w !! DeployInfra.state_path = None ->
  DeployInfra.generate_terraform_config parsed_args w
  = (Raise (OSError "FileNotFoundError"),
     {| DeployInfra.fs := DeployInfra.fs w;
        DeployInfra.environ := DeployInfra.environ w;
        DeployInfra.log := DeployInfra.log w ++ [DeployInfra.OpenW DeployInfra.state_path] |}).
Proof.
  intros Hkeys Hinfra Hstate. unfold DeployInfra.config_keys in Hkeys.
  apply Forall_cons in Hkeys as [[region Hregion] Hkeys].
  apply Forall_cons in Hkeys as [[environment Henv] Hkeys].
  apply Forall_cons in Hkeys as [[component Hcomponent] Hkeys].
  apply Forall_cons in Hkeys as [[account Haccount] _].
  unfold DeployInfra.generate_terraform_config.
  erewrite bind_ok by (apply subscript_ok; exact Hregion).
  erewrite bind_ok by (apply subscript_ok; exact Henv).
  erewrite bind_ok by (apply subscript_ok; exact Hcomponent).
  erewrite bind_ok by (apply subscript_ok; exact Haccount).
  erewrite format_state_file_id by (simplify_map_eq; reflexivity).
  rewrite bind_lift_ok.
  change "infra/state.tf" with DeployInfra.state_path.
  erewrite bind_raise; [reflexivity|].
  unfold DeployInfra.open_w. rewrite bind_emit, bind_get.
  cbn [DeployInfra.with_log DeployInfra.fs DeployInfra.environ DeployInfra.log].
  rewrite Hstate. unfold DeployInfra.parent_is_dir.
  change (DeployInfra.dirname DeployInfra.state_path) with "infra".
  cbv beta iota. rewrite Hinfra. reflexivity.
Qed.

Lemma generate_terraform_config_without_directory_witness :
  DeployInfra.generate_terraform_config DeployInfra.sample_parsed_args
    DeployInfra.sample_world_bare
  = (Raise (OSError "FileNotFoundError"),
     {| DeployInfra.fs := DeployInfra.fs DeployInfra.sample_world_bare;
        DeployInfra.environ := DeployInfra.environ DeployInfra.sample_world_bare;
        DeployInfra.log :=
          DeployInfra.log DeployInfra.sample_world_bare ++
          [DeployInfra.OpenW DeployInfra.state_path] |}).
Proof.
  apply (generate_terraform_config_without_directory DeployInfra.sample_parsed_args
           DeployInfra.sample_world_bare).
  - repeat constructor; vm_compute; eauto.
  - vm_compute. reflexivity.
  - vm_compute. reflexivity.
Defined.

(** ** [deploy-infra.py]: the name of the bucket *)

Lemma le_bytes_range n x : Forall (fun b => (0 <= b < 256)%Z) (MD5.le_bytes n x).
Proof.
  revert x. induction n as [|n IH]; intros x; simpl; constructor; [|apply IH].
  change 255%Z with (Z.ones 8). rewrite Z.land_ones by lia.
  apply Z.mod_pos_bound. reflexivity.
Qed.

Lemma le_bytes_length n x : length (MD5.le_bytes n x) = n.
Proof. revert x. induction n as [|n IH]; intros x; simpl; [reflexivity | rewrite IH; reflexivity]. Qed.

Lemma hex_digit_is_hex n : (0 <= n < 16)%Z -> DeployInfra.is_hex_digit (MD5.hex_digit n) = true.
Proof.
  intros H.
  assert (Hn : exists k, (k < 16)%nat /\ Z.to_nat n = k) by (exists (Z.to_nat n); lia).
  destruct Hn as (k & Hk & E). unfold MD5.hex_digit. rewrite E.
  do 16 (destruct k as [|k]; [reflexivity|]). lia.
Qed.

Lemma hex_of_bytes_hex bs :
  Forall (fun b => (0 <= b < 256)%Z) bs ->
  DeployInfra.all_chars DeployInfra.is_hex_digit (MD5.hex_of_bytes bs) = true /\
  String.length (MD5.hex_of_bytes bs) = 2 * length bs.
Proof.
  induction 1 as [|b bs Hb _ [IH1 IH2]]; [split; reflexivity|].
  cbn [MD5.hex_of_bytes DeployInfra.all_chars String.length length].
  rewrite IH1, IH2. split; [|lia].
  rewrite !hex_digit_is_hex; [reflexivity| |].
  - change 15%Z with (Z.ones 4). rewrite Z.land_ones by lia.
    apply Z.mod_pos_bound. reflexivity.
  - rewrite Z.shiftr_div_pow2 by lia. change (2 ^ 4)%Z with 16%Z.
    split; [apply Z.div_pos; lia | apply Z.div_lt_upper_bound; lia].
Qed.

Lemma digest_bytes msg :
  Forall (fun b => (0 <= b < 256)%Z) (MD5.digest msg) /\ length (MD5.digest msg) = 16.
Proof.
  unfold MD5.digest. cbv zeta. split.
  - repeat (apply Forall_app; split); apply le_bytes_range.
  - rewrite !length_app, !le_bytes_length. reflexivity.
Qed.

Lemma take_prefix_hex n s :
  DeployInfra.all_chars DeployInfra.is_hex_digit s = true ->
  n <= String.length s ->
  DeployInfra.all_chars DeployInfra.is_hex_digit (take_prefix n s) = true /\
  String.length (take_prefix n s) = n.
Proof.
  revert s. induction n as [|n IH]; intros s Hs Hn; [split; reflexivity|].
  destruct s as [|c s]; simpl in *; [lia|].
  apply andb_true_iff in Hs as [Hc Hs].
  destruct (IH s Hs) as [H1 H2]; [lia|].
  rewrite Hc, H1, H2. split; reflexivity.
Qed.

(** The digest of MD5 is thirty-two lowercase hexadecimal digits. *)
Lemma hexdigest_hex s :
  DeployInfra.all_chars DeployInfra.is_hex_digit (MD5.hexdigest s) = true /\
  String.length (MD5.hexdigest s) = 32.
Proof.
  unfold MD5.hexdigest.
  destruct (digest_bytes (MD5.bytes_of_string s)) as [Hr Hl].
  destruct (hex_of_bytes_hex _ Hr) as [H1 H2]. rewrite Hl in H2. split; assumption.
Qed.

Lemma length_append (a b : string) :
  String.length (a +:+ b) = String.length a + String.length b.
Proof. induction a as [|c a IH]; simpl; [reflexivity | rewrite IH; reflexivity]. Qed.

(** X5.  For every account id the name of the bucket is the prefix
    [terraform-tfstate-] followed by six lowercase hexadecimal digits,
    the first six of the MD5 digest of the account id: twenty-four
    characters in all. *)
Theorem bucket_name_shape account_id :
  exists suffix,
    DeployInfra.bucket_name account_id = DeployInfra.s3_bucket_prefix +:+ suffix /\
    String.length suffix = 6 /\
    DeployInfra.all_chars DeployInfra.is_hex_digit suffix = true /\
    startswith suffix (MD5.hexdigest account_id) = true /\
    String.length (DeployInfra.bucket_name account_id) = 24.
Proof.
  destruct (hexdigest_hex account_id) as [Hhex Hlen].
  destruct (take_prefix_hex 6 _ Hhex) as [H1 H2]; [lia|].
  exists (take_prefix 6 (MD5.hexdigest account_id)).
  split; [reflexivity|]. split; [exact H2|]. split; [exact H1|]. split.
  - clear. generalize (MD5.hexdigest account_id) as s. generalize 6 as n.
    induction n as [|n IH]; intros s; [reflexivity|].
    destruct s as [|c s]; simpl; [reflexivity|].
    rewrite Ascii.eqb_refl. apply IH.
  - unfold DeployInfra.bucket_name. rewrite length_append, H2. reflexivity.
Qed.

(** ** [deploy-infra.py]: what [cleanup] does to the files *)

Lemma cleanup_fs_eq w :
  DeployInfra.fs (snd (DeployInfra.cleanup w))
  = let m1 := match DeployInfra.fs w !! DeployInfra.state_path with
              | Some (DeployInfra.File _) | Some (DeployInfra.Symlink _) =>
                  delete DeployInfra.state_path (DeployInfra.fs w)
              | _ => DeployInfra.fs w
              end in
    match m1 !! DeployInfra.terraform_dir with
    | Some DeployInfra.Dir =>
        filter (fun kv => ~ DeployInfra.under DeployInfra.terraform_dir kv)
               (delete DeployInfra.terraform_dir m1)
    | _ => m1
    end.
Proof.
  unfold DeployInfra.cleanup, DeployInfra.os_remove, DeployInfra.shutil_rmtree,
    try_except, bind, DeployInfra.emit, modify, get, raise, ret.
  change "infra/state.tf" with DeployInfra.state_path.
  change "infra/.terraform" with DeployInfra.terraform_dir.
  cbn [DeployInfra.with_log DeployInfra.fs DeployInfra.environ DeployInfra.log fst snd].
  destruct (DeployInfra.fs w !! DeployInfra.state_path) as [[| |]|];
    cbn [DeployInfra.with_log DeployInfra.with_fs DeployInfra.fs DeployInfra.environ
         DeployInfra.log fst snd];
    match goal with
    | |- context [match ?m !! DeployInfra.terraform_dir with _ => _ end] =>
        destruct (m !! DeployInfra.terraform_dir) as [[| |]|]; reflexivity
    end.
Qed.

(** In this model of the files a removal fails only for the kind of the
    node it meets; this is what [cleanup] then leaves. *)
Lemma cleanup_lookup w path :
  fst (DeployInfra.cleanup w) = Ok tt /\
  DeployInfra.fs (snd (DeployInfra.cleanup w)) !! path
  = if String.eqb path DeployInfra.state_path then
      match DeployInfra.fs w !! DeployInfra.state_path with
      | Some DeployInfra.Dir => Some DeployInfra.Dir
      | _ => None
      end
    else if DeployInfra.in_terraform_dir path
            && DeployInfra.is_dir (DeployInfra.fs w) DeployInfra.terraform_dir
    then None
    else DeployInfra.fs w !! path.
Proof.
  split.
  { destruct (cleanup_run w) as (m & -> & _). reflexivity. }
  rewrite cleanup_fs_eq. cbv zeta.
  set (m1 := match DeployInfra.fs w !! DeployInfra.state_path with
             | Some (DeployInfra.File _) | Some (DeployInfra.Symlink _) =>
                 delete DeployInfra.state_path (DeployInfra.fs w)
             | _ => DeployInfra.fs w
             end).
  assert (Hstate : m1 !! DeployInfra.state_path
                   = match DeployInfra.fs w !! DeployInfra.state_path with
                     | Some DeployInfra.Dir => Some DeployInfra.Dir
                     | _ => None
                     end).
  { subst m1. destruct (DeployInfra.fs w !! DeployInfra.state_path) as [[| |]|] eqn:E;
      rewrite ?lookup_delete_eq; auto. }
  assert (Hother : forall p, p <> DeployInfra.state_path -> m1 !! p = DeployInfra.fs w !! p).
  { intros p Hp. subst m1.
    destruct (DeployInfra.fs w !! DeployInfra.state_path) as [[| |]|];
      rewrite ?lookup_delete_ne by congruence; reflexivity. }
  unfold DeployInfra.is_dir.
  rewrite <- (Hother DeployInfra.terraform_dir) by discriminate.
  destruct (String.eqb_spec path DeployInfra.state_path) as [->|Hne].
  - rewrite <- Hstate.
    destruct (m1 !! DeployInfra.terraform_dir) as [[| |]|]; try reflexivity.
    destruct (m1 !! DeployInfra.state_path) as [n|] eqn:E.
    + apply map_lookup_filter_Some_2.
      * rewrite lookup_delete_ne by discriminate. exact E.
      * unfold DeployInfra.under. simpl. discriminate.
    + apply map_lookup_filter_None_2. left.
      rewrite lookup_delete_ne by discriminate. exact E.
  - rewrite <- (Hother path Hne).
    destruct (m1 !! DeployInfra.terraform_dir) as [[| |]|] eqn:Htf;
      rewrite ?andb_false_r; try reflexivity.
    rewrite andb_true_r.
    unfold DeployInfra.in_terraform_dir.
    destruct (String.eqb_spec path DeployInfra.terraform_dir) as [->|Hne2];
      rewrite ?orb_true_l, ?orb_false_l.
    + apply map_lookup_filter_None_2. left. apply lookup_delete_eq.
    + destruct (startswith (DeployInfra.terraform_dir +:+ "/") path) eqn:Hsw.
      * apply map_lookup_filter_None_2. right. intros n _ H. apply H.
        unfold DeployInfra.under. cbn [fst]. exact Hsw.
      * destruct (m1 !! path) as [n|] eqn:E.
        -- apply map_lookup_filter_Some_2.
           ++ rewrite lookup_delete_ne by congruence. exact E.
           ++ unfold DeployInfra.under. cbn [fst]. rewrite Hsw. discriminate.
        -- apply map_lookup_filter_None_2. left.
           rewrite lookup_delete_ne by congruence. exact E.
Qed.

(** X6.  [cleanup()] never raises and leaves the environment alone.
    It only removes: every path is afterwards either absent or what it
    was.  Nothing but [infra/state.tf] and [infra/.terraform] with what
    lies below it is touched.  A directory at [infra/state.tf] stays
    ([os.remove] raises, and the error is swallowed), and when
    [infra/.terraform] is not a directory it stays as it is, with
    everything below it ([shutil.rmtree] raises, and the error is
    swallowed). *)
Theorem cleanup_files w path :
  let after := DeployInfra.fs (snd (DeployInfra.cleanup w)) !! path in
  fst (DeployInfra.cleanup w) = Ok tt /\
  DeployInfra.environ (snd (DeployInfra.cleanup w)) = DeployInfra.environ w /\
  (after = None \/ after = DeployInfra.fs w !! path) /\
  (String.eqb path DeployInfra.state_path = false ->
   DeployInfra.in_terraform_dir path = false ->
   after = DeployInfra.fs w !! path) /\
  (String.eqb path DeployInfra.state_path = true ->
   DeployInfra.fs w !! path = Some DeployInfra.Dir ->
   after = Some DeployInfra.Dir) /\
  (DeployInfra.in_terraform_dir path = true ->
   DeployInfra.is_dir (DeployInfra.fs w) DeployInfra.terraform_dir = false ->
   after = DeployInfra.fs w !! path).
Proof.
  cbv zeta. destruct (cleanup_lookup w path) as [Hok Hafter].
  split; [exact Hok|]. split.
  { destruct (cleanup_run w) as (m & -> & _). reflexivity. }
  rewrite Hafter.
  destruct (String.eqb_spec path DeployInfra.state_path) as [->|Hne].
  - split; [|split; [discriminate|]; split].
    + destruct (DeployInfra.fs w !! DeployInfra.state_path) as [[| |]|]; auto.
    + intros _ ->. reflexivity.
    + discriminate.
  - destruct (DeployInfra.in_terraform_dir path);
      destruct (DeployInfra.is_dir (DeployInfra.fs w) DeployInfra.terraform_dir);
      cbn [andb]; repeat split; auto; discriminate.
Qed.

(** X7.  A second [cleanup()] changes no file. *)
Theorem cleanup_idempotent w :
  DeployInfra.fs (snd (DeployInfra.cleanup (snd (DeployInfra.cleanup w))))
  = DeployInfra.fs (snd (DeployInfra.cleanup w)).
Proof.
  apply map_eq. intros path.
  destruct (cleanup_lookup (snd (DeployInfra.cleanup w)) path) as [_ ->].
  destruct (cleanup_lookup w DeployInfra.state_path) as [_ Hs].
  destruct (cleanup_lookup w DeployInfra.terraform_dir) as [_ Ht].
  rewrite String.eqb_refl in Hs.
  change (String.eqb DeployInfra.terraform_dir DeployInfra.state_path) with false in Ht.
  change (DeployInfra.in_terraform_dir DeployInfra.terraform_dir) with true in Ht.
  cbv beta iota in Ht. rewrite andb_true_l in Ht.
  destruct (String.eqb_spec path DeployInfra.state_path) as [->|Hne].
  - rewrite Hs. destruct (DeployInfra.fs w !! DeployInfra.state_path) as [[| |]|]; reflexivity.
  - unfold DeployInfra.is_dir at 1. rewrite Ht. unfold DeployInfra.is_dir.
    destruct (DeployInfra.fs w !! DeployInfra.terraform_dir) as [[| |]|];
      rewrite ?andb_false_r; reflexivity.
Qed.

(** ** [deploy-infra.py]: the runs of [main] in detail *)

Section RunsInDetail.

Variable outside : DeployInfra.Outside.

Lemma check_call_result argv env cwd w :
  exists answer m,
    DeployInfra.run_process outside w argv env cwd = (answer, m) /\
    DeployInfra.check_call outside argv env cwd w
    = (DeployInfra.call_result answer,
       {| DeployInfra.fs := m;
          DeployInfra.environ := DeployInfra.environ w;
          DeployInfra.log :=
            DeployInfra.log w ++ [DeployInfra.CheckCall argv env cwd answer] |}).
Proof.
  unfold DeployInfra.check_call. rewrite bind_get.
  destruct (DeployInfra.run_process outside w argv env cwd) as [answer m].
  exists answer, m. split; [reflexivity|]. rewrite bind_emit, bind_modify.
  destruct answer as [[|rc|rc]|e]; reflexivity.
Qed.

Lemma call_result_ok answer : DeployInfra.call_result answer = Ok tt -> answer = Ok 0%Z.
Proof. destruct answer as [[| |]|]; simpl; congruence. Qed.

Lemma call_result_raise answer :
  answer <> Ok 0%Z -> exists e, DeployInfra.call_result answer = Raise e.
Proof. destruct answer as [[| |]|]; simpl; eauto; congruence. Qed.

Lemma call_answer_cases (answer : result Z) : answer = Ok 0%Z \/ answer <> Ok 0%Z.
Proof. destruct answer as [[| |]|]; auto; right; discriminate. Qed.

Lemma os_symlink_detail src dst w :
  (DeployInfra.fs w !! dst = None /\
   DeployInfra.parent_is_dir (DeployInfra.fs w) dst = true /\
   DeployInfra.os_symlink src dst w
   = (Ok tt,
      {| DeployInfra.fs := <[dst := DeployInfra.Symlink src]> (DeployInfra.fs w);
         DeployInfra.environ := DeployInfra.environ w;
         DeployInfra.log := DeployInfra.log w ++ [DeployInfra.OsSymlink src dst] |})) \/
  (exists msg,
     (is_Some (DeployInfra.fs w !! dst) -> msg = "FileExistsError") /\
     DeployInfra.os_symlink src dst w
     = (Raise (OSError msg),
        {| DeployInfra.fs := DeployInfra.fs w;
           DeployInfra.environ := DeployInfra.environ w;
           DeployInfra.log := DeployInfra.log w ++ [DeployInfra.OsSymlink src dst] |})).
Proof.
  unfold DeployInfra.os_symlink. rewrite bind_emit, bind_get.
  cbn [DeployInfra.with_log DeployInfra.fs DeployInfra.environ DeployInfra.log].
  destruct (DeployInfra.fs w !! dst) as [n|] eqn:E.
  - right. exists "FileExistsError". split; [reflexivity|]. reflexivity.
  - destruct (DeployInfra.parent_is_dir (DeployInfra.fs w) dst) eqn:Hp.
    + left. repeat split.
    + right. exists "FileNotFoundError". split; [intros [? ?]; discriminate|]. reflexivity.
Qed.

(** [terraform]: the secrets helper, the link, then the two child
    processes, each under the environment of [child_env]. *)
Lemma terraform_detail_run all_args (parsed_args : gmap string string) creds w
    component environment region :
  parsed_args !! "aws_region" = Some region ->
  parsed_args !! "component" = Some component ->
  parsed_args !! "env" = Some environment ->
  exists r m new,
    DeployInfra.terraform outside all_args parsed_args creds w
    = (r, {| DeployInfra.fs := m;
             DeployInfra.environ := DeployInfra.environ w;
             DeployInfra.log := DeployInfra.log w ++ new |}) /\
    DeployInfra.terraform_detail all_args
      (DeployInfra.child_env (DeployInfra.environ w) region creds) component environment r new /\
    (is_Some ((DeployInfra.generate_decrypted_credentials outside w "platform" component
                 environment (DeployInfra.child_env (DeployInfra.environ w) region creds)).2
              !! DeployInfra.secrets_path) ->
     DeployInfra.tool_argvs new = [] /\ exists e, r = Raise e).
Proof.
  intros Hregion Hcomponent Henv. unfold DeployInfra.terraform.
  rewrite bind_get.
  erewrite bind_ok by (apply subscript_ok; exact Hregion).
  erewrite bind_ok by (apply subscript_ok; exact Hcomponent).
  erewrite bind_ok by (apply subscript_ok; exact Henv).
  rewrite bind_get.
  change (<["AWS_DEFAULT_REGION" := region]> _)
    with (DeployInfra.child_env (DeployInfra.environ w) region creds).
  set (env := DeployInfra.child_env (DeployInfra.environ w) region creds).
  destruct (DeployInfra.generate_decrypted_credentials outside w "platform" component
              environment env) as [answer m0].
  rewrite bind_emit, bind_modify.
  destruct answer as [tmp_secrets|e].
  2:{ rewrite bind_lift_raise. eexists _, _, _. split; [reflexivity|].
      split; [constructor|]. intros _. split; [reflexivity | eauto]. }
  rewrite bind_lift_ok.
  change "/tmp/secrets.json" with DeployInfra.secrets_path.
  match goal with |- context [bind (DeployInfra.os_symlink ?a ?b) _ ?w0] =>
    destruct (os_symlink_detail a b w0) as [(Hfree & _ & E1)|(msg & Hmsg & E1)] end.
  2:{ erewrite bind_raise by exact E1. eexists _, _, _. split.
      - simpl. rewrite <- app_assoc. reflexivity.
      - split; [constructor|]. intros _. split; [reflexivity | eauto]. }
  erewrite bind_ok by exact E1.
  cbn [DeployInfra.with_log DeployInfra.with_fs DeployInfra.fs DeployInfra.environ
       DeployInfra.log snd] in *.
  match goal with |- context [bind (DeployInfra.check_call _ ?a ?b ?c) _ ?w0] =>
    destruct (check_call_result a b c w0) as (ans2 & m2 & _ & E2) end.
  destruct (call_answer_cases ans2) as [->|Hne2].
  2:{ destruct (call_result_raise _ Hne2) as [e2 He2].
      rewrite He2 in E2. erewrite bind_raise by exact E2. rewrite <- He2.
      eexists _, _, _. split.
      - cbn [DeployInfra.log]. rewrite <- !app_assoc. reflexivity.
      - split; [apply DeployInfra.td_init_failed; exact Hne2|].
        intros [n Hn]. cbn [snd] in Hn. rewrite Hfree in Hn. discriminate. }
  erewrite bind_ok by exact E2.
  match goal with |- context [DeployInfra.check_call outside ?a ?b ?c ?w0] =>
    destruct (check_call_result a b c w0) as (ans3 & m3 & _ & E3) end.
  rewrite E3.
  destruct (call_answer_cases ans3) as [->|Hne3].
  - cbn [DeployInfra.call_result]. eexists _, _, _. split.
    + cbn [DeployInfra.log]. rewrite <- !app_assoc. reflexivity.
    + split; [apply DeployInfra.td_done|].
      intros [n Hn]. cbn [snd] in Hn. rewrite Hfree in Hn. discriminate.
  - eexists _, _, _. split.
    + cbn [DeployInfra.log]. rewrite <- !app_assoc. reflexivity.
    + split; [apply DeployInfra.td_tool_failed; exact Hne3|].
      intros [n Hn]. cbn [snd] in Hn. rewrite Hfree in Hn. discriminate.
Qed.

Lemma generate_terraform_config_detail (parsed_args : gmap string string)
    account environment component aws_region w :
  parsed_args !! "account_id" = Some account ->
  parsed_args !! "env" = Some environment ->
  parsed_args !! "component" = Some component ->
  parsed_args !! "aws_region" = Some aws_region ->
  let text :=
    DeployInfra.backend_config_text (DeployInfra.bucket_name account) environment component
      (default aws_region (parsed_args !! "state_aws_region")) in
  (exists m,
     DeployInfra.generate_terraform_config parsed_args w
     = (Ok tt,
        {| DeployInfra.fs := m;
           DeployInfra.environ := DeployInfra.environ w;
           DeployInfra.log :=
             DeployInfra.log w ++
             [DeployInfra.OpenW DeployInfra.state_path;
              DeployInfra.FileWrite DeployInfra.state_path text] |}) /\
     forall path, path <> DeployInfra.state_path -> m !! path = DeployInfra.fs w !! path) \/
  (exists msg,
     DeployInfra.generate_terraform_config parsed_args w
     = (Raise (OSError msg),
        DeployInfra.with_log (fun l => l ++ [DeployInfra.OpenW DeployInfra.state_path]) w)).
Proof.
  intros Haccount Henv Hcomponent Hregion text.
  unfold DeployInfra.generate_terraform_config.
  erewrite bind_ok by (apply subscript_ok; exact Hregion).
  erewrite bind_ok by (apply subscript_ok; exact Henv).
  erewrite bind_ok by (apply subscript_ok; exact Hcomponent).
  erewrite bind_ok by (apply subscript_ok; exact Haccount).
  erewrite format_state_file_id by (simplify_map_eq; reflexivity).
  rewrite bind_lift_ok.
  change "infra/state.tf" with DeployInfra.state_path.
  assert (Hopen :
    (DeployInfra.open_w DeployInfra.state_path w
     = (Ok tt,
        {| DeployInfra.fs := <[DeployInfra.state_path := DeployInfra.File ""]> (DeployInfra.fs w);
           DeployInfra.environ := DeployInfra.environ w;
           DeployInfra.log := DeployInfra.log w ++ [DeployInfra.OpenW DeployInfra.state_path] |}))
    \/ (exists msg,
          DeployInfra.open_w DeployInfra.state_path w
          = (Raise (OSError msg),
             DeployInfra.with_log (fun l => l ++ [DeployInfra.OpenW DeployInfra.state_path]) w))).
  { unfold DeployInfra.open_w. rewrite bind_emit, bind_get.
    cbn [DeployInfra.with_log DeployInfra.fs DeployInfra.environ DeployInfra.log].
    destruct (DeployInfra.fs w !! DeployInfra.state_path) as [[| |]|];
      try (right; eexists; reflexivity);
      destruct (DeployInfra.parent_is_dir (DeployInfra.fs w) DeployInfra.state_path);
      try (right; eexists; reflexivity); left; reflexivity. }
  destruct Hopen as [Hopen|(msg & Hopen)].
  - left. erewrite bind_ok by exact Hopen.
    erewrite format_state_config by (simplify_map_eq; reflexivity).
    rewrite bind_lift_ok, file_write_fresh by apply lookup_insert_eq.
    eexists. split.
    + rewrite <- app_assoc. reflexivity.
    + intros path Hpath. rewrite !lookup_insert_ne by congruence. reflexivity.
  - right. exists msg. erewrite bind_raise by exact Hopen. reflexivity.
Qed.

Lemma cleanup_keeps path w :
  path <> DeployInfra.state_path ->
  DeployInfra.in_terraform_dir path = false ->
  exists m,
    DeployInfra.cleanup w
    = (Ok tt, {| DeployInfra.fs := m;
                 DeployInfra.environ := DeployInfra.environ w;
                 DeployInfra.log := DeployInfra.log w ++ DeployInfra.cleanup_events |}) /\
    m !! path = DeployInfra.fs w !! path.
Proof.
  intros Hne Hout. destruct (cleanup_run w) as (m & E & _). exists m. split; [exact E|].
  destruct (cleanup_lookup w path) as [_ H]. rewrite E in H. cbn [snd DeployInfra.fs] in H.
  rewrite H, Hout. destruct (String.eqb_spec path DeployInfra.state_path); [tauto|].
  reflexivity.
Qed.

(** Every run of [main] that gets past the arguments leaves one of the
    logs of [run_detail], for the values that the arguments assign. *)
Lemma main_run_detail sys_argv w :
  (exists missing,
     DeployInfra.main outside sys_argv w
     = (Raise (SystemExit 1),
        DeployInfra.with_log
          (fun l => l ++ [DeployInfra.StderrWrite
                            (DeployInfra.missing_variable_message missing)]) w)) \/
  (exists account environment component aws_region state_region r m new,
     DeployInfra.value_of "account_id" (skipn 1 sys_argv) = Some account /\
     DeployInfra.value_of "env" (skipn 1 sys_argv) = Some environment /\
     DeployInfra.value_of "component" (skipn 1 sys_argv) = Some component /\
     DeployInfra.value_of "aws_region" (skipn 1 sys_argv) = Some aws_region /\
     DeployInfra.value_of "state_aws_region" (skipn 1 sys_argv) = Some state_region /\
     DeployInfra.main outside sys_argv w
     = (r, {| DeployInfra.fs := m;
              DeployInfra.environ := DeployInfra.environ w;
              DeployInfra.log := DeployInfra.log w ++ new |}) /\
     DeployInfra.run_detail (skipn 1 sys_argv) (DeployInfra.environ w)
       account environment component aws_region state_region r new /\
     (DeployInfra.helper_keeps_secrets_link outside ->
      is_Some (DeployInfra.fs w !! DeployInfra.secrets_path) ->
      DeployInfra.tool_argvs new = [] /\ exists e, r = Raise e)).
Proof.
  unfold DeployInfra.main. set (all_args := skipn 1 sys_argv).
  destruct (parse_args_found all_args) as (found & Hvalues & Hcases).
  destruct (Hcases w) as [Hparse|(missing & _ & _ & Hparse)].
  2:{ left. exists missing. erewrite bind_raise by exact Hparse. reflexivity. }
  right.
  destruct (parse_args_run all_args w) as [(found' & Hparse' & Hall)|(missing & _ & Hparse')];
    rewrite Hparse in Hparse'; [|discriminate].
  injection Hparse' as <-.
  erewrite bind_ok by exact Hparse.
  unfold DeployInfra.required_vars in Hall.
  apply Forall_cons in Hall as [[environment Henv] Hall].
  apply Forall_cons in Hall as [[component Hcomponent] Hall].
  apply Forall_cons in Hall as [[state_region Hstate] Hall].
  apply Forall_cons in Hall as [[region Hregion] Hall].
  apply Forall_cons in Hall as [[account Haccount] _].
  exists account, environment, component, region, state_region.
  assert (Hval : forall v x, v ∈ DeployInfra.required_vars -> found !! v = Some x ->
                             DeployInfra.value_of v all_args = Some x).
  { intros v x Hv Hx. rewrite Hvalues in Hx.
    destruct (decide (v ∈ DeployInfra.required_vars)); [exact Hx | tauto]. }
  assert (Hreq : forall v, In v DeployInfra.required_vars -> v ∈ DeployInfra.required_vars)
    by (intros v; apply list_elem_of_In).
  cut (exists r m new,
     bind DeployInfra.cleanup
       (fun _ => bind (DeployInfra.assume_role outside found)
          (fun role_creds => bind (DeployInfra.generate_terraform_config found)
             (fun _ => bind (DeployInfra.terraform outside all_args found role_creds)
                (fun _ => DeployInfra.cleanup)))) w
     = (r, {| DeployInfra.fs := m;
              DeployInfra.environ := DeployInfra.environ w;
              DeployInfra.log := DeployInfra.log w ++ new |}) /\
     DeployInfra.run_detail all_args (DeployInfra.environ w)
       account environment component region state_region r new /\
     (DeployInfra.helper_keeps_secrets_link outside ->
      is_Some (DeployInfra.fs w !! DeployInfra.secrets_path) ->
      DeployInfra.tool_argvs new = [] /\ exists e, r = Raise e)).
  { intros (r & m & new & E & Hd & Hl). exists r, m, new.
    split; [apply Hval; [apply Hreq; simpl; tauto | assumption]|].
    split; [apply Hval; [apply Hreq; simpl; tauto | assumption]|].
    split; [apply Hval; [apply Hreq; simpl; tauto | assumption]|].
    split; [apply Hval; [apply Hreq; simpl; tauto | assumption]|].
    split; [apply Hval; [apply Hreq; simpl; tauto | assumption]|].
    auto. }
  clear Hval Hreq Hvalues Hcases Hparse.
  destruct (cleanup_keeps DeployInfra.secrets_path w) as (m1 & E1 & Hk1);
    [discriminate | reflexivity |].
  erewrite bind_ok by exact E1.
  match goal with |- context [bind (DeployInfra.assume_role _ _) _ ?w0] =>
    destruct (assume_role_run outside found account w0 Haccount) as (answer & E2) end.
  change ("arn:aws:iam::" +:+ account +:+ ":role/admin")
    with (DeployInfra.role_arn account) in E2.
  destruct answer as [creds|e].
  2:{ erewrite bind_raise by exact E2. eexists _, _, _. split; [log_shape|].
      split; [constructor|]. intros _ _.
      split; [rewrite tool_argvs_app; reflexivity | eauto]. }
  erewrite bind_ok by exact E2.
  match goal with |- context [bind (DeployInfra.generate_terraform_config _) _ ?w0] =>
    destruct (generate_terraform_config_detail found account environment component region w0
                Haccount Henv Hcomponent Hregion)
      as [(m3 & E3 & Hk3)|(msg & E3)] end.
  2:{ erewrite bind_raise by exact E3. eexists _, _, _. split; [log_shape|].
      split; [apply DeployInfra.detail_open_failed|]. intros _ _.
      split; [rewrite tool_argvs_app; reflexivity | eauto]. }
  rewrite Hstate in E3. cbn [default] in E3.
  erewrite bind_ok by exact E3.
  match goal with |- context [bind (DeployInfra.terraform _ _ _ _) _ ?w0] =>
    destruct (terraform_detail_run all_args found creds w0 component environment region
                Hregion Hcomponent Henv) as (r4 & m4 & new4 & E4 & Hshape & Hlink) end.
  cbn [DeployInfra.with_log DeployInfra.with_fs DeployInfra.fs DeployInfra.environ
       DeployInfra.log] in *.
  destruct r4 as [[]|e4].
  - erewrite bind_ok by exact E4.
    match goal with |- context [DeployInfra.cleanup ?w0] =>
      destruct (cleanup_run w0) as (m5 & E5 & _) end.
    rewrite E5. eexists _, _, _. split; [log_shape|].
    split.
    + pose proof (DeployInfra.detail_done all_args (DeployInfra.environ w) account environment
                    component region state_region creds new4 Hshape) as Hd.
      unfold DeployInfra.configured in *. rewrite <- !app_assoc in *. cbn [app] in *. exact Hd.
    + intros Hkeeps Hsome. exfalso.
      destruct Hlink as [_ [e He]]; [|discriminate].
      apply Hkeeps. cbn [DeployInfra.fs]. rewrite Hk3 by discriminate.
      rewrite Hk1. exact Hsome.
  - erewrite bind_raise by exact E4. eexists _, _, _. split; [log_shape|].
    split.
    + pose proof (DeployInfra.detail_terraform_failed all_args (DeployInfra.environ w) account
                    environment component region state_region creds e4 new4 Hshape) as Hd.
      unfold DeployInfra.configured in *. rewrite <- !app_assoc in *. cbn [app] in *. exact Hd.
    + intros Hkeeps Hsome.
      destruct Hlink as [Hnone _].
      * apply Hkeeps. cbn [DeployInfra.fs]. rewrite Hk3 by discriminate.
        rewrite Hk1. exact Hsome.
      * split; [|eauto]. rewrite !tool_argvs_app, Hnone. reflexivity.
Qed.

End RunsInDetail.

(** What the logs of [terraform_detail] and [run_detail] hold. *)

Lemma terraform_detail_calls all_args env component environment r new
    argv env' cwd answer :
  DeployInfra.terraform_detail all_args env component environment r new ->
  In (DeployInfra.CheckCall argv env' cwd answer) new ->
  env' = env /\ cwd = "infra" /\
  (answer <> Ok 0%Z ->
   r = DeployInfra.call_result answer /\
   exists before, new = before ++ [DeployInfra.CheckCall argv env' cwd answer]).
Proof.
  intros Hd Hin.
  destruct Hd as [e|tmp e|tmp ans Hne|tmp ans Hne|tmp]; simpl in Hin;
    repeat match goal with
           | H : _ \/ _ |- _ => destruct H
           | H : False |- _ => destruct H
           | H : DeployInfra.CheckCall _ _ _ _ = DeployInfra.CheckCall _ _ _ _ |- _ =>
               injection H as <- <- <- <-
           | H : _ = _ :> DeployInfra.Event |- _ => discriminate H
           end;
    (split; [reflexivity|]); (split; [reflexivity|]); intros Hbad;
    try congruence; (split; [reflexivity|]).
  - eexists [_; _]. reflexivity.
  - eexists [_; _; _]. reflexivity.
Qed.

Lemma terraform_detail_events all_args env component environment r new :
  DeployInfra.terraform_detail all_args env component environment r new ->
  (forall arn name answer, ~ In (DeployInfra.StsAssumeRole arn name answer) new) /\
  (forall path text, ~ In (DeployInfra.FileWrite path text) new).
Proof.
  intros Hd. split; intros; intros Hin; destruct Hd; simpl in Hin;
    repeat match goal with
           | H : _ \/ _ |- _ => destruct H
           | H : False |- _ => destruct H
           | H : _ = _ :> DeployInfra.Event |- _ => discriminate H
           end.
Qed.

Lemma in_cleanup_events e :
  In e DeployInfra.cleanup_events ->
  e = DeployInfra.OsRemove "infra/state.tf" \/ e = DeployInfra.Rmtree "infra/.terraform".
Proof. simpl. intuition. Qed.

Ltac in_log Hin :=
  unfold DeployInfra.configured in Hin;
  repeat (apply in_app_or in Hin as [Hin|Hin]);
  try (apply in_cleanup_events in Hin as [Hin|Hin]; discriminate Hin);
  simpl in Hin;
  repeat match goal with
         | H : _ \/ _ |- _ => destruct H
         | H : False |- _ => destruct H
         end;
  try match goal with
      | H : _ = _ :> DeployInfra.Event |- _ => discriminate H
      end.

Lemma run_detail_calls all_args environ0 account environment component region state_region
    r new argv env cwd answer :
  DeployInfra.run_detail all_args environ0 account environment component region state_region
    r new ->
  In (DeployInfra.CheckCall argv env cwd answer) new ->
  cwd = "infra" /\
  (exists creds,
     In (DeployInfra.StsAssumeRole (DeployInfra.role_arn account) "terraform" (Ok creds)) new /\
     env = DeployInfra.child_env environ0 region creds) /\
  (answer <> Ok 0%Z ->
   r = DeployInfra.call_result answer /\
   exists before, new = before ++ [DeployInfra.CheckCall argv env cwd answer]).
Proof.
  intros Hd Hin. destruct Hd as [e|creds e|creds e new Ht|creds new Ht].
  - in_log Hin.
  - in_log Hin.
  - in_log Hin.
    destruct (terraform_detail_calls _ _ _ _ _ _ _ _ _ _ Ht Hin) as (-> & -> & Hbad).
    split; [reflexivity|]. split.
    + exists creds. split; [|reflexivity].
      unfold DeployInfra.configured. apply in_or_app. left. apply in_or_app. right.
      left. reflexivity.
    + intros Hne. destruct (Hbad Hne) as (-> & before & ->). split; [reflexivity|].
      eexists. rewrite app_assoc. reflexivity.
  - in_log Hin.
    destruct (terraform_detail_calls _ _ _ _ _ _ _ _ _ _ Ht Hin) as (-> & -> & Hbad).
    split; [reflexivity|]. split.
    + exists creds. split; [|reflexivity].
      unfold DeployInfra.configured. apply in_or_app. left. apply in_or_app. right.
      left. reflexivity.
    + intros Hne. destruct (Hbad Hne) as (Hr & _). exfalso.
      destruct answer as [[| |]|]; simpl in Hr; congruence.
Qed.

Lemma run_detail_roles all_args environ0 account environment component region state_region
    r new arn name answer :
  DeployInfra.run_detail all_args environ0 account environment component region state_region
    r new ->
  In (DeployInfra.StsAssumeRole arn name answer) new ->
  arn = DeployInfra.role_arn account /\ name = "terraform" /\
  forall e, answer = Raise e ->
    r = Raise e /\
    new = DeployInfra.cleanup_events ++ [DeployInfra.StsAssumeRole arn name answer].
Proof.
  intros Hd Hin. destruct Hd as [e|creds e|creds e new Ht|creds new Ht]; in_log Hin;
    try (exfalso; exact (proj1 (terraform_detail_events _ _ _ _ _ _ Ht) _ _ _ Hin));
    match goal with
    | H : DeployInfra.StsAssumeRole _ _ _ = DeployInfra.StsAssumeRole _ _ _ |- _ =>
        injection H as <- <- <-
    end;
    (split; [reflexivity|]); (split; [reflexivity|]); intros e' [= <-].
  split; reflexivity.
Qed.

Lemma run_detail_writes all_args environ0 account environment component region state_region
    r new path text :
  DeployInfra.run_detail all_args environ0 account environment component region state_region
    r new ->
  In (DeployInfra.FileWrite path text) new ->
  path = DeployInfra.state_path /\
  text = DeployInfra.backend_config_text (DeployInfra.bucket_name account) environment
           component state_region.
Proof.
  intros Hd Hin. destruct Hd as [e|creds e|creds e new Ht|creds new Ht]; in_log Hin;
    try (exfalso; exact (proj2 (terraform_detail_events _ _ _ _ _ _ Ht) _ _ Hin));
    match goal with
    | H : DeployInfra.FileWrite _ _ = DeployInfra.FileWrite _ _ |- _ =>
        injection H as <- <-
    end; split; reflexivity.
Qed.

Lemma child_env_lookup environ0 region creds :
  let env := DeployInfra.child_env environ0 region creds in
  env !! "AWS_ACCESS_KEY_ID" = Some (DeployInfra.AccessKeyId creds) /\
  env !! "AWS_SECRET_ACCESS_KEY" = Some (DeployInfra.SecretAccessKey creds) /\
  env !! "AWS_SESSION_TOKEN" = Some (DeployInfra.SessionToken creds) /\
  env !! "AWS_DEFAULT_REGION" = Some region /\
  forall k,
    k ∉ ["AWS_ACCESS_KEY_ID"; "AWS_SECRET_ACCESS_KEY"; "AWS_SESSION_TOKEN";
         "AWS_DEFAULT_REGION"] ->
    env !! k = environ0 !! k.
Proof.
  unfold DeployInfra.child_env. cbv zeta.
  repeat split; try (simplify_map_eq; reflexivity).
  intros k Hk. rewrite !lookup_insert_ne; [reflexivity|..]; intros <-; apply Hk; set_solver.
Qed.

(** X8.  The script never removes [/tmp/secrets.json].  When the
    link is there at the start of a run (and the secrets helper does
    not remove it), [main] raises and starts no child process. *)
Theorem main_stops_at_secrets_link outside sys_argv w :
  DeployInfra.helper_keeps_secrets_link outside ->
  is_Some (DeployInfra.fs w !! DeployInfra.secrets_path) ->
  exists e w' new,
    DeployInfra.main outside sys_argv w = (Raise e, w') /\
    DeployInfra.log w' = DeployInfra.log w ++ new /\
    DeployInfra.tool_argvs new = [].
Proof.
  intros Hkeeps Hsome.
  destruct (main_run_detail outside sys_argv w)
    as [(missing & E)|(account & environment & component & region & state_region & r & m & new
                       & _ & _ & _ & _ & _ & E & _ & Hlink)].
  - eexists _, _, _. split; [exact E|]. split; reflexivity.
  - destruct (Hlink Hkeeps Hsome) as (Hnone & e & ->).
    eexists _, _, _. split; [exact E|]. split; [reflexivity | exact Hnone].
Qed.

Lemma main_stops_at_secrets_link_witness :
  exists e w' new,
    DeployInfra.main (DeployInfra.sample_outside 0) DeployInfra.sample_argv
      DeployInfra.sample_world_stale = (Raise e, w') /\
    DeployInfra.log w' = DeployInfra.log DeployInfra.sample_world_stale ++ new /\
    DeployInfra.tool_argvs new = [].
Proof.
  apply (main_stops_at_secrets_link (DeployInfra.sample_outside 0) DeployInfra.sample_argv
           DeployInfra.sample_world_stale).
  - intros w service component environment env [n Hn]. exists n.
    cbn [DeployInfra.sample_outside DeployInfra.generate_decrypted_credentials snd].
    rewrite lookup_insert_ne by discriminate. exact Hn.
  - vm_compute. eauto.
Defined.

(** X9.  Every child process of a run of [main] is started in the
    directory [infra], under the environment of the script with four
    variables set: the three parts of the credentials that STS gave in
    this run, and [AWS_DEFAULT_REGION], the [aws_region] of the
    arguments.  Every other variable is passed as it is, and the
    environment of the script itself is not changed. *)
Theorem main_child_environment outside sys_argv w :
  exists r m new,
    DeployInfra.main outside sys_argv w
    = (r, {| DeployInfra.fs := m;
             DeployInfra.environ := DeployInfra.environ w;
             DeployInfra.log := DeployInfra.log w ++ new |}) /\
    forall argv env cwd answer,
      In (DeployInfra.CheckCall argv env cwd answer) new ->
      cwd = "infra" /\
      exists arn creds,
        In (DeployInfra.StsAssumeRole arn "terraform" (Ok creds)) new /\
        env !! "AWS_ACCESS_KEY_ID" = Some (DeployInfra.AccessKeyId creds) /\
        env !! "AWS_SECRET_ACCESS_KEY" = Some (DeployInfra.SecretAccessKey creds) /\
        env !! "AWS_SESSION_TOKEN" = Some (DeployInfra.SessionToken creds) /\
        env !! "AWS_DEFAULT_REGION" = DeployInfra.value_of "aws_region" (skipn 1 sys_argv) /\
        forall k,
          k ∉ ["AWS_ACCESS_KEY_ID"; "AWS_SECRET_ACCESS_KEY"; "AWS_SESSION_TOKEN";
               "AWS_DEFAULT_REGION"] ->
          env !! k = DeployInfra.environ w !! k.
Proof.
  destruct (main_run_detail outside sys_argv w)
    as [(missing & E)|(account & environment & component & region & state_region & r & m & new
                       & _ & _ & _ & Hregion & _ & E & Hd & _)].
  - eexists _, _, _. split; [rewrite E; reflexivity|].
    intros argv env cwd answer [Hin|[]]. discriminate Hin.
  - exists r, m, new. split; [exact E|].
    intros argv env cwd answer Hin.
    destruct (run_detail_calls _ _ _ _ _ _ _ _ _ _ _ _ _ Hd Hin) as (-> & (creds & Hsts & ->) & _).
    split; [reflexivity|]. exists (DeployInfra.role_arn account), creds.
    split; [exact Hsts|]. rewrite Hregion.
    exact (child_env_lookup (DeployInfra.environ w) region creds).
Qed.

(** X10.  The only role that [main] asks STS for is
    [arn:aws:iam::{account_id}:role/admin], for the [account_id] of the
    arguments, under the session name [terraform].  When STS refuses,
    [main] raises the error of STS and has done nothing but the first
    [cleanup()] and the request. *)
Theorem main_assumes_admin_role outside sys_argv w :
  exists r m new,
    DeployInfra.main outside sys_argv w
    = (r, {| DeployInfra.fs := m;
             DeployInfra.environ := DeployInfra.environ w;
             DeployInfra.log := DeployInfra.log w ++ new |}) /\
    forall arn name answer,
      In (DeployInfra.StsAssumeRole arn name answer) new ->
      name = "terraform" /\
      DeployInfra.role_arn <$> DeployInfra.value_of "account_id" (skipn 1 sys_argv) = Some arn /\
      forall e, answer = Raise e ->
        r = Raise e /\
        new = DeployInfra.cleanup_events ++ [DeployInfra.StsAssumeRole arn name answer].
Proof.
  destruct (main_run_detail outside sys_argv w)
    as [(missing & E)|(account & environment & component & region & state_region & r & m & new
                       & Haccount & _ & _ & _ & _ & E & Hd & _)].
  - eexists _, _, _. split; [rewrite E; reflexivity|].
    intros arn name answer [Hin|[]]. discriminate Hin.
  - exists r, m, new. split; [exact E|].
    intros arn name answer Hin.
    destruct (run_detail_roles _ _ _ _ _ _ _ _ _ _ _ _ Hd Hin) as (-> & -> & Hrefused).
    split; [reflexivity|]. rewrite Haccount. split; [reflexivity | exact Hrefused].
Qed.

(** X11.  A child process that does not exit with status zero ends
    the run: [main] raises [CalledProcessError] with the status of the
    process (or the error met when starting it), and the call is the
    last event of the run.  So the operator's command is not run after a
    failed [terraform init]. *)
Theorem main_propagates_exit_status outside sys_argv w :
  exists r m new,
    DeployInfra.main outside sys_argv w
    = (r, {| DeployInfra.fs := m;
             DeployInfra.environ := DeployInfra.environ w;
             DeployInfra.log := DeployInfra.log w ++ new |}) /\
    forall argv env cwd answer,
      In (DeployInfra.CheckCall argv env cwd answer) new ->
      answer <> Ok 0%Z ->
      r = match answer with
          | Ok rc => Raise (CalledProcessError rc)
          | Raise e => Raise e
          end /\
      exists before, new = before ++ [DeployInfra.CheckCall argv env cwd answer].
Proof.
  destruct (main_run_detail outside sys_argv w)
    as [(missing & E)|(account & environment & component & region & state_region & r & m & new
                       & _ & _ & _ & _ & _ & E & Hd & _)].
  - eexists _, _, _. split; [rewrite E; reflexivity|].
    intros argv env cwd answer [Hin|[]]. discriminate Hin.
  - exists r, m, new. split; [exact E|].
    intros argv env cwd answer Hin Hne.
    destruct (run_detail_calls _ _ _ _ _ _ _ _ _ _ _ _ _ Hd Hin) as (_ & _ & Hbad).
    destruct (Hbad Hne) as (-> & Hlast). split; [|exact Hlast].
    destruct answer as [[| |]|]; try reflexivity. congruence.
Qed.

(** X12.  What a run of [main] writes is the backend configuration
    for the values of the arguments, into [infra/state.tf]: the bucket
    of [account_id], the key of [env] and [component], and as region
    the value of [state_aws_region]. *)
Theorem main_writes_backend_config_of_arguments outside sys_argv w :
  exists r m new,
    DeployInfra.main outside sys_argv w
    = (r, {| DeployInfra.fs := m;
             DeployInfra.environ := DeployInfra.environ w;
             DeployInfra.log := DeployInfra.log w ++ new |}) /\
    forall path text,
      In (DeployInfra.FileWrite path text) new ->
      path = DeployInfra.state_path /\
      exists account environment component state_region,
        DeployInfra.value_of "account_id" (skipn 1 sys_argv) = Some account /\
        DeployInfra.value_of "env" (skipn 1 sys_argv) = Some environment /\
        DeployInfra.value_of "component" (skipn 1 sys_argv) = Some component /\
        DeployInfra.value_of "state_aws_region" (skipn 1 sys_argv) = Some state_region /\
        text = DeployInfra.backend_config_text (DeployInfra.bucket_name account) environment
                 component state_region.
Proof.
  destruct (main_run_detail outside sys_argv w)
    as [(missing & E)|(account & environment & component & region & state_region & r & m & new
                       & Haccount & Henv & Hcomponent & _ & Hstate & E & Hd & _)].
  - eexists _, _, _. split; [rewrite E; reflexivity|].
    intros path text [Hin|[]]. discriminate Hin.
  - exists r, m, new. split; [exact E|].
    intros path text Hin.
    destruct (run_detail_writes _ _ _ _ _ _ _ _ _ _ _ Hd Hin) as (-> & ->).
    split; [reflexivity|]. exists account, environment, component, state_region.
    repeat split; assumption.
Qed.

(** ** [release.py]: the session *)

(** X13.  [_get_aws()] asks for the role at most once.  When it
    returns a session, the session is stored in the object and a second
    call returns it without calling out.  When no session was stored,
    the one request made is [util.assume_role] for the [REGION] of the
    metadata and the account of the object; when one was stored, nothing
    is asked and nothing changes. *)
Theorem get_aws_keeps_session outside s a s' :
  Release._get_aws outside s = (Ok a, s') ->
  Release.aws (Release.self s') = Some a /\
  Release._get_aws outside s' = (Ok a, s') /\
  match Release.aws (Release.self s) with
  | Some b => b = a /\ s' = s
  | None =>
      exists region,
        Release.metadata (Release.self s) !! "REGION" = Some region /\
        Release.util_assume_role outside s region (Release.account_id (Release.self s)) = Ok a /\
        s' = Release.set_aws (Some a)
               (Release.with_log
                  (fun l => l ++ [Release.AssumeRole region
                                    (Release.account_id (Release.self s)) (Ok a)]) s)
  end.
Proof.
  intros Hrun.
  assert (Hcached : Release.aws (Release.self s') = Some a).
  { destruct (get_aws_run outside s) as (r & s1 & new & E & _ & _ & _ & _ & Haws & _).
    rewrite Hrun in E. injection E as <- <-. apply Haws. reflexivity. }
  split; [exact Hcached|]. split; [apply get_aws_cached; exact Hcached|].
  unfold Release._get_aws in Hrun. rewrite bind_get in Hrun.
  destruct (Release.aws (Release.self s)) as [b|].
  - injection Hrun as <- <-. split; reflexivity.
  - rewrite bind_metadata_get in Hrun.
    destruct (Release.metadata (Release.self s) !! "REGION") as [region|]; [|discriminate].
    exists region. split; [reflexivity|].
    rewrite bind_emit_release in Hrun.
    destruct (Release.util_assume_role outside s region (Release.account_id (Release.self s)))
      as [a'|e]; [|discriminate].
    rewrite bind_lift_ok, bind_modify in Hrun. injection Hrun as <- <-.
    split; reflexivity.
Qed.

Lemma get_aws_keeps_session_witness :
  let outside := Release.sample_outside true 0 in
  let s := Release.sample_state None in
  let s' := Release.set_aws (Some "session")
              (Release.with_log
                 (fun l => l ++ [Release.AssumeRole "eu-west-1" "123456789012" (Ok "session")])
                 s) in
  Release._get_aws outside s = (Ok "session", s') /\
  Release.aws (Release.self s') = Some "session" /\
  Release._get_aws outside s' = (Ok "session", s').
Proof.
  intros outside s s'.
  assert (H : Release._get_aws outside s = (Ok "session", s')) by (vm_compute; reflexivity).
  split; [exact H|].
  destruct (get_aws_keeps_session outside s "session" s' H) as (Haws & Hagain & _).
  split; [exact Haws | exact Hagain].
Defined.

Section InjectedSession.

Variable outside : Release.Outside.
Variable b64decode_utf8 : string -> result string.

Lemma describe_repository_with_session s a :
  Release.aws (Release.self s) = Some a ->
  exists r,
    Release.describe_repository outside s
    = (r, {| Release.self := Release.self s;
             Release.log :=
               Release.log s ++
               [Release.DescribeRepositories [Release.component_name (Release.self s)] r] |}).
Proof.
  intros Haws. unfold Release.describe_repository, Release._ecr.
  erewrite bind_ok by (apply get_aws_cached; exact Haws).
  rewrite bind_get, bind_emit_release.
  set (d := Release.describe_repositories outside s a _).
  exists d. destruct d; reflexivity.
Qed.

(** With a session in the object, [_ensure_ecr_repository_exists()]
    asks for none. *)
Lemma ensure_with_session s a :
  Release.aws (Release.self s) = Some a ->
  exists r s' new,
    Release._ensure_ecr_repository_exists outside s = (r, s') /\
    Release.log s' = Release.log s ++ new /\
    List.filter Release.is_assume_role new = [].
Proof.
  intros Haws. unfold Release._ensure_ecr_repository_exists. rewrite bind_print.
  set (s0 := {| Release.self := Release.self s; Release.log := _ |}).
  destruct (describe_repository_with_session s0 a Haws) as (r1 & E1).
  unfold try_except. rewrite E1.
  destruct r1 as [[]|e].
  { eexists _, _, _. split; [reflexivity|]. split.
    - simpl. rewrite <- app_assoc. reflexivity.
    - reflexivity. }
  assert (Hdec : e = ClientError Release.not_found \/ e <> ClientError Release.not_found).
  { destruct e as [code| | | | | | | |]; try (right; discriminate).
    destruct (String.eqb_spec code Release.not_found); [left|right]; congruence. }
  destruct Hdec as [->|Hne].
  2:{ eexists (Raise e), _, _. split.
      - destruct e as [code| | | | | | | |]; try reflexivity.
        destruct (String.eqb_spec code Release.not_found); [congruence|reflexivity].
      - split; [simpl; rewrite <- app_assoc; reflexivity | reflexivity]. }
  change (String.eqb Release.not_found Release.not_found) with true. cbv iota.
  match goal with |- context [Release.create_repository_with_policy outside ?s1] =>
    destruct (create_repository_with_policy_run outside s1 a Haws)
      as (r2 & s2 & new2 & E2 & (L2 & _) & _ & _ & _ & Hnew) end.
  exists r2, s2, ([Release.Print (Release.PREFIX +:+ "checking ECR repository");
                   Release.DescribeRepositories [Release.component_name (Release.self s)]
                     (Raise (ClientError Release.not_found))] ++ new2).
  split; [exact E2|]. split.
  - rewrite L2. simpl. rewrite <- !app_assoc. reflexivity.
  - destruct Hnew as [(e & _ & ->)| ->]; reflexivity.
Qed.

Lemma logins_shape_no_session auth_data r l :
  Release.logins_shape b64decode_utf8 auth_data r l ->
  List.filter Release.is_assume_role l = [].
Proof. induction 1; simpl; auto. Qed.

Lemma push_tail_no_session image r rest :
  Release.push_tail b64decode_utf8 image r rest ->
  List.filter Release.is_assume_role rest = [].
Proof.
  destruct 1; rewrite ?List.filter_app; simpl;
    rewrite ?(logins_shape_no_session _ _ _ ltac:(eassumption)); reflexivity.
Qed.

(** X14.  After [_set_aws(a)], [_get_aws()] returns [a] without any
    call to [util.assume_role], whatever was stored before and whatever
    the outside would have answered; and a whole [_push_to_ecr] run
    after it asks for no session at all. *)
Theorem set_aws_injects_session image a s :
  bind (Release._set_aws (Some a)) (fun _ => Release._get_aws outside) s
  = (Ok a, Release.set_aws (Some a) s) /\
  exists r s' new,
    bind (Release._set_aws (Some a))
         (fun _ => Release._push_to_ecr outside b64decode_utf8 image) s
    = (r, s') /\
    Release.log s' = Release.log s ++ new /\
    List.filter Release.is_assume_role new = [].
Proof.
  split; [reflexivity|].
  unfold Release._set_aws. rewrite bind_modify.
  set (s1 := Release.set_aws (Some a) s).
  assert (Haws : Release.aws (Release.self s1) = Some a) by reflexivity.
  change (Release.log s) with (Release.log s1).
  destruct (ensure_with_session s1 a Haws) as (r0' & s0' & prov' & E0' & L0' & Hnone).
  destruct (push_to_ecr_run outside b64decode_utf8 image s1)
    as (r0 & s0 & prov & E0 & (L0 & _) & _ & _ & Hrest).
  rewrite E0 in E0'. injection E0' as <- <-.
  assert (prov' = prov) as -> by (apply (app_inv_head (Release.log s1)); congruence).
  destruct r0 as [[]|e0].
  2:{ exists (Raise e0), s0, prov. split; [exact Hrest|]. split; [exact L0 | exact Hnone]. }
  destruct Hrest as (r & s2 & rest & E2 & (L2 & _) & Htail).
  exists r, s2, (prov ++ rest). split; [exact E2|]. split.
  - rewrite L2, L0, app_assoc. reflexivity.
  - rewrite List.filter_app, Hnone, (push_tail_no_session _ _ _ Htail). reflexivity.
Qed.

End InjectedSession.

(** ** [release.py]: the slug *)

(** X15.  [_build_slug()] prints its message, then runs three
    commands through the shell runner, in order: the directory, the
    slug builder with the options of the metadata, the copy of the
    Dockerfile.  It stops at the first that raises, with that error;
    the options are looked up after the first command, so without them
    it raises [KeyError] once the directory is made.  Only a run in
    which all three succeed sets [DOCKER_BUILD_DIR] to [target]; every
    other run leaves the object as it was. *)
Theorem build_slug_run outside s :
  exists r s' new,
    Release._build_slug outside s = (r, s') /\
    Release.log s' = Release.log s ++ Release.Print (Release.PREFIX +:+ "building slug") :: new /\
    let mkdir := Release.ShellRunnerRun "mkdir -p target" in
    let copy := Release.ShellRunnerRun "cp /infra/Dockerfile_slug target/Dockerfile" in
    let opts := Release.metadata (Release.self s) !! "SLUG_BUILDER_DOCKER_OPTS" in
    match r with
    | Ok _ =>
        exists o,
          opts = Some o /\
          new = [mkdir (Ok tt); Release.ShellRunnerRun (Release.slug_command o) (Ok tt);
                 copy (Ok tt)] /\
          Release.self s' = Release.self (Release.set_metadata "DOCKER_BUILD_DIR" "target" s)
    | Raise e =>
        Release.self s' = Release.self s /\
        (new = [mkdir (Raise e)] \/
         (opts = None /\ e = KeyError "SLUG_BUILDER_DOCKER_OPTS" /\ new = [mkdir (Ok tt)]) \/
         (exists o, opts = Some o /\
            new = [mkdir (Ok tt); Release.ShellRunnerRun (Release.slug_command o) (Raise e)]) \/
         (exists o, opts = Some o /\
            new = [mkdir (Ok tt); Release.ShellRunnerRun (Release.slug_command o) (Ok tt);
                   copy (Raise e)]))
    end.
Proof.
  unfold Release._build_slug.
  repeat release_step outside.
  all: eexists _, _, _; split; [first [reflexivity | eassumption]|];
       split; [simpl; rewrite <- ?app_assoc; reflexivity|]; cbv zeta.
  all: repeat match goal with H : Release.metadata _ !! _ = _ |- _ => rewrite H end.
  all: eauto 10.
Qed.

(** ** [release.py]: tokens that are not a name and a password *)

Lemma length_split_acc sep cur s :
  length (split_acc sep cur s) = S (Release.count_char sep s).
Proof.
  revert cur. induction s as [|c s IH]; intros cur; simpl; [reflexivity|].
  destruct (Ascii.eqb c sep); simpl; rewrite IH; reflexivity.
Qed.

(** X16.  A token whose decoded text does not hold exactly one colon
    (a password with a colon in it, or no colon at all) makes
    [docker_login] raise [ValueError] before any command is run, and
    the login loop stops there: the entries after it are not tried. *)
Theorem docker_login_malformed_token outside b64decode_utf8 details decoded s :
  b64decode_utf8 (Release.authorizationToken details) = Ok decoded ->
  Release.count_char ":" decoded <> 1 ->
  exists msg,
    Release.docker_login outside b64decode_utf8 details s = (Raise (ValueError msg), s) /\
    forall rest,
      for_each (details :: rest) (Release.docker_login outside b64decode_utf8) s
      = (Raise (ValueError msg), s).
Proof.
  intros Hdec Hcount.
  pose proof (length_split_acc ":" "" decoded) as Hlen. fold (split ":" decoded) in Hlen.
  assert (Hrun : exists msg,
            Release.docker_login outside b64decode_utf8 details s = (Raise (ValueError msg), s)).
  { unfold Release.docker_login. rewrite Hdec, bind_lift_ok.
    destruct (split ":" decoded) as [|username [|password [|third more]]];
      simpl in Hlen; try (eexists; reflexivity).
    exfalso. apply Hcount. congruence. }
  destruct Hrun as [msg Hrun]. exists msg. split.
  - exact Hrun.
  - intros rest. simpl. erewrite bind_raise by exact Hrun. reflexivity.
Qed.

Lemma docker_login_malformed_token_witness :
  exists msg,
    Release.docker_login (Release.sample_outside true 0) Base64.b64decode_utf8
      Release.sample_auth_colon (Release.sample_state (Some "1.0"))
    = (Raise (ValueError msg), Release.sample_state (Some "1.0")) /\
    forall rest,
      for_each (Release.sample_auth_colon :: rest)
        (Release.docker_login (Release.sample_outside true 0) Base64.b64decode_utf8)
        (Release.sample_state (Some "1.0"))
      = (Raise (ValueError msg), Release.sample_state (Some "1.0")).
Proof.
  apply (docker_login_malformed_token (Release.sample_outside true 0) Base64.b64decode_utf8
           Release.sample_auth_colon "AWS:se:cret" (Release.sample_state (Some "1.0"))).
  - vm_compute. reflexivity.
  - vm_compute. discriminate.
Defined.

(** ** [release.py]: the build and the push in one run of [create] *)

Section CreateWithVersion.

Variable outside : Release.Outside.
Variable b64decode_utf8 : string -> result string.

(** [create] up to the test of the version: either it has raised, after
    shell commands none of which is of the push step, or every command
    of the build phase exited with status zero and what is left to run
    is the push and the last message. *)
Lemma create_build_phase s :
  (exists e s' new,
     Release.create outside b64decode_utf8 s = (Raise e, s') /\
     Release.log s' = Release.log s ++ new /\
     Release.stops_at_first_failure (Release.shell_commands new) = true /\
     Forall (fun entry => Release.is_docker_push (fst entry) = false)
       (Release.shell_commands new)) \/
  (exists s0 new build_dir prepare on_build,
     Release.create outside b64decode_utf8 s
     = bind (match Release.version (Release.self s) with
             | None => Release.print (Release.PREFIX +:+ "no version supplied, push skipped")
             | Some _ =>
                 Release._push_to_ecr outside b64decode_utf8
                   (Release.ecr_image_name (Release.self s))
             end)
            (fun _ => Release.print (Release.PREFIX +:+ "done.")) s0 /\
     Release.follows s s0 new /\
     Release.build_dir_at_hook (Release.self s) = Some build_dir /\
     Release.shell_commands new
     = map (fun c => (c, Ok 0%Z))
         (Release.build_phase_commands (Release.component_name (Release.self s))
            (default "dev" (Release.version (Release.self s)))
            (Release.ecr_image_name (Release.self s)) build_dir prepare on_build)).
Proof.
  unfold Release.create, Release._build_slug.
  repeat release_step outside.
  all: first
    [ left; eexists _, _, _; split; [first [reflexivity | eassumption]|];
      split; [simpl; rewrite <- ?app_assoc;
              first [reflexivity | symmetry; apply app_nil_r]|];
      split; [reflexivity|]; simpl; repeat constructor
    | right;
      unfold Release.build_dir_at_hook;
      repeat match goal with
             | H : Release.metadata _ !! _ = _ |- _ => rewrite H
             | H : String.eqb _ _ = _ |- _ => rewrite H
             end;
      first
        [ eexists _, _, _, true, true; split; [reflexivity|];
          split; [unfold Release.follows; simpl; rewrite <- ?app_assoc; repeat split|];
          split; reflexivity
        | eexists _, _, _, true, false; split; [reflexivity|];
          split; [unfold Release.follows; simpl; rewrite <- ?app_assoc; repeat split|];
          split; reflexivity
        | eexists _, _, _, false, true; split; [reflexivity|];
          split; [unfold Release.follows; simpl; rewrite <- ?app_assoc; repeat split|];
          split; reflexivity
        | eexists _, _, _, false, false; split; [reflexivity|];
          split; [unfold Release.follows; simpl; rewrite <- ?app_assoc; repeat split|];
          split; reflexivity ] ].
Qed.

Lemma stops_after_ok commands rest :
  Release.stops_at_first_failure (map (fun c => (c, Ok 0%Z)) commands ++ rest)
  = Release.stops_at_first_failure rest.
Proof.
  induction commands as [|c commands IH]; [reflexivity|].
  cbn [map app Release.stops_at_first_failure snd].
  destruct (map _ commands ++ rest) as [|entry more] eqn:E; [|exact IH].
  apply app_eq_nil in E as [_ ->]. reflexivity.
Qed.

Lemma logins_shape_stops auth_data r l :
  Release.logins_shape b64decode_utf8 auth_data r l ->
  (exists e, r = Raise e) ->
  Release.stops_at_first_failure (Release.shell_commands l) = true.
Proof.
  induction 1 as [| | |details rest command r l Hcmd Hl IH]; intros Hr; try reflexivity.
  cbn [Release.shell_commands].
  change ((command, Ok 0%Z) :: Release.shell_commands l)
    with (map (fun c => (c, Ok 0%Z)) [command] ++ Release.shell_commands l).
  rewrite stops_after_ok. exact (IH Hr).
Qed.

Lemma shell_commands_ok commands :
  Release.shell_commands (map (fun command => Release.CheckCall command (Ok 0%Z)) commands)
  = map (fun c => (c, Ok 0%Z)) commands.
Proof. induction commands as [|c l IH]; simpl; [reflexivity | rewrite IH; reflexivity]. Qed.

Lemma build_phase_not_push component version_ image build_dir prepare on_build :
  Forall (fun c => Release.is_docker_push c = false)
    (Release.build_phase_commands component version_ image build_dir prepare on_build).
Proof. destruct prepare, on_build; repeat constructor. Qed.

Lemma login_not_push command :
  Release.is_docker_login command = true -> Release.is_docker_push command = false.
Proof.
  unfold Release.is_docker_login. intros H.
  destruct (startswith_inv _ _ H) as [t ->]. reflexivity.
Qed.

Lemma ok_commands_ok commands :
  Forall (fun entry : string * result Z => snd entry = Ok 0%Z)
    (map (fun c => (c, Ok 0%Z)) commands).
Proof. induction commands; constructor; auto. Qed.

(** The shell commands of a run of [create]. *)
Lemma create_commands s :
  exists r s' new,
    Release.create outside b64decode_utf8 s = (r, s') /\
    Release.log s' = Release.log s ++ new /\
    Release.stops_at_first_failure (Release.shell_commands new) = true /\
    (r = Ok tt ->
     Forall (fun entry => snd entry = Ok 0%Z) (Release.shell_commands new) /\
     forall v, Release.version (Release.self s) = Some v ->
       In (Release.push_command (Release.ecr_image_name (Release.self s)), Ok 0%Z)
          (Release.shell_commands new)) /\
    (forall command answer,
       In (command, answer) (Release.shell_commands new) ->
       Release.is_docker_push command = true ->
       exists v build_dir prepare on_build logins,
         Release.version (Release.self s) = Some v /\
         Release.build_dir_at_hook (Release.self s) = Some build_dir /\
         command = Release.push_command (Release.ecr_image_name (Release.self s)) /\
         Forall (fun c => Release.is_docker_login c = true) logins /\
         Release.shell_commands new
         = map (fun c => (c, Ok 0%Z))
             (Release.build_phase_commands (Release.component_name (Release.self s)) v
                (Release.ecr_image_name (Release.self s)) build_dir prepare on_build ++
              logins) ++
           [(command, answer)]).
Proof.
  destruct (create_build_phase s)
    as [(e & s' & new & E & Hlog & Hstops & Hnopush)
       |(s0 & new & build_dir & prepare & on_build & E & F & Hdir & Hcmds)].
  { exists (Raise e), s', new. split; [exact E|]. split; [exact Hlog|].
    split; [exact Hstops|]. split; [discriminate|].
    intros command answer Hin Hpush. exfalso.
    rewrite Forall_forall in Hnopush. apply list_elem_of_In, Hnopush in Hin.
    simpl in Hin. congruence. }
  set (image := Release.ecr_image_name (Release.self s)) in *.
  remember (Release.version (Release.self s)) as ver eqn:Hversion in *.
  set (built := Release.build_phase_commands _ _ _ _ _ _) in Hcmds.
  assert (Hbuilt : forall command answer,
            In (command, answer) (map (fun c => (c, Ok 0%Z)) built) ->
            Release.is_docker_push command = true -> False).
  { intros command answer Hin Hpush. apply in_map_iff in Hin as (c & [= <- <-] & Hin).
    pose proof (build_phase_not_push (Release.component_name (Release.self s))
                  (default "dev" ver) image build_dir prepare on_build) as Hall.
    rewrite Forall_forall in Hall. apply list_elem_of_In, Hall in Hin. congruence. }
  destruct F as (L0 & V0 & F0).
  destruct ver as [v|].
  2:{ rewrite E. cbv beta iota. rewrite bind_print.
      exists (Ok tt),
        {| Release.self := Release.self s0;
           Release.log :=
             (Release.log s0 ++
              [Release.Print (Release.PREFIX +:+ "no version supplied, push skipped")]) ++
             [Release.Print (Release.PREFIX +:+ "done.")] |},
        (new ++ [Release.Print (Release.PREFIX +:+ "no version supplied, push skipped");
                 Release.Print (Release.PREFIX +:+ "done.")]).
      split; [reflexivity|].
      split; [cbn [Release.log]; rewrite L0, <- !app_assoc; reflexivity|].
      rewrite !shell_commands_app, Hcmds. cbn [Release.shell_commands].
      rewrite !app_nil_r.
      split; [rewrite <- (app_nil_r (map _ built)); apply stops_after_ok|].
      split; [intros _; split; [apply ok_commands_ok | discriminate]|].
      intros command answer Hin Hpush. exfalso. exact (Hbuilt _ _ Hin Hpush). }
  cbn [default] in *.
  destruct (push_to_ecr_run outside b64decode_utf8 image s0)
    as (r0 & s1 & prov & E0 & (L1 & _) & _ & C0 & Hrest).
  destruct r0 as [[]|e0].
  2:{ rewrite E. cbv beta iota. erewrite bind_raise by exact Hrest.
      exists (Raise e0), s1, (new ++ prov). split; [reflexivity|].
      split; [rewrite L1, L0, app_assoc; reflexivity|].
      rewrite shell_commands_app, C0, app_nil_r, Hcmds.
      split; [rewrite <- (app_nil_r (map _ built)); apply stops_after_ok|].
      split; [discriminate|].
      intros command answer Hin Hpush. exfalso. exact (Hbuilt _ _ Hin Hpush). }
  destruct Hrest as (r & s2 & rest & E2 & (L2 & _) & Htail).
  assert (Hlog : forall t, (Release.log s2 ++ t) = Release.log s ++ (new ++ prov ++ rest ++ t)).
  { intros t. rewrite L2, L1, L0, <- !app_assoc. reflexivity. }
  assert (Hall : forall t,
            Release.shell_commands (new ++ prov ++ rest ++ t)
            = map (fun c => (c, Ok 0%Z)) built ++ Release.shell_commands rest ++
              Release.shell_commands t).
  { intros t. rewrite !shell_commands_app, C0, Hcmds. reflexivity. }
  rewrite E. cbv beta iota.
  destruct Htail as [e|auth_data e l Hl|auth_data l answer e Hl Hne|auth_data l Hl].
  - erewrite bind_raise by exact E2. eexists (Raise e), s2, _.
    split; [reflexivity|].
    split; [rewrite <- (app_nil_r (Release.log s2)); apply Hlog|].
    rewrite Hall. cbn [Release.shell_commands app]. rewrite app_nil_r.
    split; [rewrite <- (app_nil_r (map _ built)); apply stops_after_ok|].
    split; [discriminate|].
    intros command answer Hin Hpush. exfalso. exact (Hbuilt _ _ Hin Hpush).
  - erewrite bind_raise by exact E2. eexists (Raise e), s2, _.
    split; [reflexivity|].
    split; [rewrite <- (app_nil_r (Release.log s2)); apply Hlog|].
    rewrite Hall, shell_commands_app. cbn [Release.shell_commands app]. rewrite app_nil_r.
    split; [rewrite stops_after_ok; apply (logins_shape_stops _ _ _ Hl); eauto|].
    split; [discriminate|].
    intros command answer Hin Hpush. exfalso.
    apply in_app_or in Hin as [Hin|Hin]; [exact (Hbuilt _ _ Hin Hpush)|].
    pose proof (logins_shape_commands _ _ _ _ Hl) as Hlogins.
    rewrite Forall_forall in Hlogins. apply list_elem_of_In, Hlogins in Hin.
    apply login_not_push in Hin. simpl in Hin. congruence.
  - erewrite bind_raise by exact E2. eexists (Raise e), s2, _.
    split; [reflexivity|].
    split; [rewrite <- (app_nil_r (Release.log s2)); apply Hlog|].
    destruct (logins_shape_ok _ _ _ Hl) as (logins & Hlogins & ->).
    rewrite Hall, !shell_commands_app, shell_commands_ok.
    cbn [Release.shell_commands app]. rewrite app_nil_r.
    split; [rewrite !stops_after_ok; reflexivity|].
    split; [discriminate|].
    intros command answer' Hin Hpush.
    apply in_app_or in Hin as [Hin|Hin]; [exfalso; exact (Hbuilt _ _ Hin Hpush)|].
    assert (Hlogin : Forall (fun c => Release.is_docker_login c = true) logins).
    { clear -Hlogins. induction Hlogins; constructor;
        eauto using login_command_is_login. }
    apply in_app_or in Hin as [Hin|[[= <- <-]|[]]].
    + exfalso. apply in_map_iff in Hin as (c & [= <- <-] & Hin).
      rewrite Forall_forall in Hlogin. apply list_elem_of_In, Hlogin in Hin.
      apply login_not_push in Hin. congruence.
    + exists v, build_dir, prepare, on_build, logins.
      split; [reflexivity|]. split; [exact Hdir|]. split; [reflexivity|].
      split; [exact Hlogin|]. rewrite map_app, <- app_assoc. reflexivity.
  - erewrite bind_ok by exact E2.
    eexists (Ok tt),
      {| Release.self := Release.self s2;
         Release.log := Release.log s2 ++ [Release.Print (Release.PREFIX +:+ "done.")] |}, _.
    split; [reflexivity|]. split; [cbn [Release.log]; apply Hlog|].
    destruct (logins_shape_ok _ _ _ Hl) as (logins & Hlogins & ->).
    rewrite Hall, !shell_commands_app, shell_commands_ok.
    cbn [Release.shell_commands app]. rewrite app_nil_r.
    split; [rewrite !stops_after_ok; reflexivity|].
    assert (Hlogin : Forall (fun c => Release.is_docker_login c = true) logins).
    { clear -Hlogins. induction Hlogins; constructor;
        eauto using login_command_is_login. }
    split.
    + intros _. split.
      * apply Forall_app. split; [apply ok_commands_ok|].
        apply Forall_app. split; [apply ok_commands_ok|]. repeat constructor.
      * intros v' _. apply in_or_app. right. apply in_or_app. right. left. reflexivity.
    + intros command answer' Hin Hpush.
      apply in_app_or in Hin as [Hin|Hin]; [exfalso; exact (Hbuilt _ _ Hin Hpush)|].
      apply in_app_or in Hin as [Hin|[[= <- <-]|[]]].
      * exfalso. apply in_map_iff in Hin as (c & [= <- <-] & Hin).
        rewrite Forall_forall in Hlogin. apply list_elem_of_In, Hlogin in Hin.
        apply login_not_push in Hin. congruence.
      * exists v, build_dir, prepare, on_build, logins.
        split; [reflexivity|]. split; [exact Hdir|]. split; [reflexivity|].
        split; [exact Hlogin|]. rewrite map_app, <- app_assoc. reflexivity.
Qed.

End CreateWithVersion.

(** X17.  [create] stops at the first shell command that does not exit
    with status zero: in every run, with or without a version, no
    command of [check_call] follows one that failed, and a run that
    returns normally ran only commands that exited with status zero. *)
Theorem create_stops_at_first_failure outside b64decode_utf8 s :
  exists r s' new,
    Release.create outside b64decode_utf8 s = (r, s') /\
    Release.log s' = Release.log s ++ new /\
    Release.stops_at_first_failure (Release.shell_commands new) = true /\
    (r = Ok tt ->
     Forall (fun entry => snd entry = Ok 0%Z) (Release.shell_commands new)).
Proof.
  destruct (create_commands outside b64decode_utf8 s)
    as (r & s' & new & E & Hlog & Hstops & Hok & _).
  exists r, s', new. split; [exact E|]. split; [exact Hlog|]. split; [exact Hstops|].
  intros Hr. exact (proj1 (Hok Hr)).
Qed.

(** X18.  [create] pushes the image it built, and only after the build.
    Whenever a [docker push] is run, a version was given, the command
    pushes [ecr_image_name], and the shell commands of the run are, in
    order: the pre-build hook if it is there, for the given version;
    [docker build] of that image in the build directory; the post-build
    hook if it is there; the logins; the push; each one before the push
    having exited with status zero.  A run with a version that returns
    normally has pushed the image. *)
Theorem create_pushes_built_image outside b64decode_utf8 s :
  exists r s' new,
    Release.create outside b64decode_utf8 s = (r, s') /\
    Release.log s' = Release.log s ++ new /\
    (forall command answer,
       In (command, answer) (Release.shell_commands new) ->
       Release.is_docker_push command = true ->
       exists v build_dir prepare on_build logins,
         Release.version (Release.self s) = Some v /\
         Release.build_dir_at_hook (Release.self s) = Some build_dir /\
         command = Release.push_command (Release.ecr_image_name (Release.self s)) /\
         Forall (fun c => Release.is_docker_login c = true) logins /\
         Release.shell_commands new
         = map (fun c => (c, Ok 0%Z))
             (Release.build_phase_commands (Release.component_name (Release.self s)) v
                (Release.ecr_image_name (Release.self s)) build_dir prepare on_build ++
              logins) ++
           [(command, answer)]) /\
    (r = Ok tt ->
     forall v, Release.version (Release.self s) = Some v ->
       In (Release.push_command (Release.ecr_image_name (Release.self s)), Ok 0%Z)
          (Release.shell_commands new)).
Proof.
  destruct (create_commands outside b64decode_utf8 s)
    as (r & s' & new & E & Hlog & _ & Hok & Hpush).
  exists r, s', new. split; [exact E|]. split; [exact Hlog|]. split; [exact Hpush|].
  intros Hr. exact (proj2 (Hok Hr)).
Qed.

(** A release of version 1.0 on the sample registry: the hook, the
    build, one login, the push. *)
Example create_with_version_sample :
  let run := Release.create (Release.sample_outside true 0) Base64.b64decode_utf8
               (Release.sample_state (Some "1.0")) in
  let image := "123456789012.dkr.ecr.eu-west-1.amazonaws.com/payments:1.0" in
  fst run = Ok tt /\
  Release.shell_commands (Release.log (snd run))
  = map (fun c => (c, Ok 0%Z))
      (Release.build_phase_commands "payments" "1.0" image "." true false ++
       ["docker login -u 'AWS' -p 'secret' https://123456789012.dkr.ecr.eu-west-1.amazonaws.com";
        Release.push_command image]).
Proof. vm_compute. split; reflexivity. Qed.

(** ** [deploy-infra.py]: the secrets *)

Lemma terraform_detail_secrets all_args env component environment r new :
  DeployInfra.terraform_detail all_args env component environment r new ->
  (forall service c e answer,
     In (DeployInfra.GenerateDecryptedCredentials service c e answer) new ->
     service = "platform" /\ c = component /\ e = environment /\
     new = DeployInfra.GenerateDecryptedCredentials service c e answer :: tl new /\
     forall err, answer = Raise err -> r = Raise err /\ tl new = []) /\
  (forall src dst,
     In (DeployInfra.OsSymlink src dst) new ->
     dst = DeployInfra.secrets_path /\
     In (DeployInfra.GenerateDecryptedCredentials "platform" component environment (Ok src))
        new).
Proof.
  intros Hd. split.
  - intros service c e answer Hin. destruct Hd; simpl in Hin;
      repeat match goal with
             | H : _ \/ _ |- _ => destruct H
             | H : False |- _ => destruct H
             | H : DeployInfra.GenerateDecryptedCredentials _ _ _ _
                   = DeployInfra.GenerateDecryptedCredentials _ _ _ _ |- _ =>
                 injection H as <- <- <- <-
             | H : _ = _ :> DeployInfra.Event |- _ => discriminate H
             end;
      (split; [reflexivity|]); (split; [reflexivity|]); (split; [reflexivity|]);
      (split; [reflexivity|]); intros err0 Herr;
      first [discriminate Herr | injection Herr as <-; split; reflexivity].
  - intros src dst Hin. destruct Hd; simpl in Hin;
      repeat match goal with
             | H : _ \/ _ |- _ => destruct H
             | H : False |- _ => destruct H
             | H : DeployInfra.OsSymlink _ _ = DeployInfra.OsSymlink _ _ |- _ =>
                 injection H as <- <-
             | H : _ = _ :> DeployInfra.Event |- _ => discriminate H
             end;
      (split; [reflexivity | left; reflexivity]).
Qed.

Lemma run_detail_secrets all_args environ0 account environment component region state_region
    r new :
  DeployInfra.run_detail all_args environ0 account environment component region state_region
    r new ->
  (forall service c e answer,
     In (DeployInfra.GenerateDecryptedCredentials service c e answer) new ->
     service = "platform" /\ c = component /\ e = environment /\
     forall err, answer = Raise err ->
       r = Raise err /\ DeployInfra.tool_argvs new = []) /\
  (forall src dst,
     In (DeployInfra.OsSymlink src dst) new ->
     dst = DeployInfra.secrets_path /\
     In (DeployInfra.GenerateDecryptedCredentials "platform" component environment (Ok src))
        new).
Proof.
  intros Hd. split.
  - intros service c e answer Hin.
    destruct Hd as [err|creds err|creds err new Ht|creds new Ht]; in_log Hin.
    + destruct (proj1 (terraform_detail_secrets _ _ _ _ _ _ Ht) _ _ _ _ Hin)
        as (-> & -> & -> & Hnew & Hraise).
      (split; [reflexivity|]); (split; [reflexivity|]); (split; [reflexivity|]).
      intros err0 Herr. destruct (Hraise _ Herr) as [Hr Htl]. split; [exact Hr|].
      rewrite Hnew, Htl. unfold DeployInfra.configured. rewrite !tool_argvs_app. reflexivity.
    + destruct (proj1 (terraform_detail_secrets _ _ _ _ _ _ Ht) _ _ _ _ Hin)
        as (-> & -> & -> & Hnew & Hraise).
      (split; [reflexivity|]); (split; [reflexivity|]); (split; [reflexivity|]).
      intros err0 Herr. destruct (Hraise _ Herr) as [Hr Htl]. discriminate Hr.
  - intros src dst Hin.
    destruct Hd as [err|creds err|creds err new Ht|creds new Ht]; in_log Hin;
      destruct (proj2 (terraform_detail_secrets _ _ _ _ _ _ Ht) _ _ Hin) as (-> & Hgen);
      (split; [reflexivity|]); apply in_or_app; right;
      try (apply in_or_app; left); exact Hgen.
Qed.

(** X19.  The secrets that [main] asks the helper to decrypt are those
    of the service [platform] for the [component] and the [env] of the
    arguments; when the helper raises, [main] raises the same error
    and starts no child process.  The only link the script makes is
    [/tmp/secrets.json], and it points to the file the helper
    returned. *)
Theorem main_links_decrypted_secrets outside sys_argv w :
  exists r m new,
    DeployInfra.main outside sys_argv w
    = (r, {| DeployInfra.fs := m;
             DeployInfra.environ := DeployInfra.environ w;
             DeployInfra.log := DeployInfra.log w ++ new |}) /\
    (forall service component environment answer,
       In (DeployInfra.GenerateDecryptedCredentials service component environment answer) new ->
       service = "platform" /\
       DeployInfra.value_of "component" (skipn 1 sys_argv) = Some component /\
       DeployInfra.value_of "env" (skipn 1 sys_argv) = Some environment /\
       forall e, answer = Raise e -> r = Raise e /\ DeployInfra.tool_argvs new = []) /\
    (forall src dst,
       In (DeployInfra.OsSymlink src dst) new ->
       dst = DeployInfra.secrets_path /\
       exists component environment,
         In (DeployInfra.GenerateDecryptedCredentials "platform" component environment (Ok src))
            new).
Proof.
  destruct (main_run_detail outside sys_argv w)
    as [(missing & E)|(account & environment & component & region & state_region & r & m & new
                       & _ & Henv & Hcomponent & _ & _ & E & Hd & _)].
  - eexists _, _, _. split; [rewrite E; reflexivity|].
    split; [intros ? ? ? ? [Hin|[]]|intros ? ? [Hin|[]]]; discriminate Hin.
  - exists r, m, new. split; [exact E|].
    destruct (run_detail_secrets _ _ _ _ _ _ _ _ _ Hd) as [Hgen Hlink]. split.
    + intros service c e answer Hin.
      destruct (Hgen _ _ _ _ Hin) as (-> & -> & -> & Hraise).
      split; [reflexivity|]. split; [exact Hcomponent|]. split; [exact Henv|]. exact Hraise.
    + intros src dst Hin. destruct (Hlink _ _ Hin) as (-> & Hin').
      split; [reflexivity|]. eauto.
Qed.

(** ** [release.py]: a release without a build directory *)

(** X20.  Without a build directory, that is when the metadata has no
    [TYPE], or a [TYPE] other than [slug] and no [DOCKER_BUILD_DIR],
    [create] raises [KeyError] for the missing key before any shell
    command is run, whether or not a version is given. *)
Theorem create_without_build_dir outside b64decode_utf8 s :
  Release.build_dir_at_hook (Release.self s) = None ->
  exists key s' new,
    Release.create outside b64decode_utf8 s = (Raise (KeyError key), s') /\
    Release.log s' = Release.log s ++ new /\
    Release.self s' = Release.self s /\
    Release.shell_commands new = [] /\
    key = (if decide (is_Some (Release.metadata (Release.self s) !! "TYPE"))
           then "DOCKER_BUILD_DIR" else "TYPE").
Proof.
  unfold Release.build_dir_at_hook. intros Hnone.
  unfold Release.create, Release._build_slug.
  destruct (Release.metadata (Release.self s) !! "TYPE") as [type|] eqn:Htype.
  2:{ rewrite bind_metadata_get, Htype. exists "TYPE", s, [].
      split; [reflexivity|]. split; [symmetry; apply app_nil_r|].
      split; [reflexivity|]. split; [reflexivity|].
      destruct (decide (is_Some None)) as [[x Hx]|_]; [discriminate | reflexivity]. }
  destruct (String.eqb type "slug") eqn:Hslug; [discriminate|].
  rewrite bind_metadata_get, Htype, Hslug.
  repeat release_step outside.
  all: eexists _, _, _; split; [reflexivity|];
       split; [simpl; rewrite <- ?app_assoc; reflexivity|];
       split; [reflexivity|]; split; [reflexivity|];
       destruct (decide (is_Some (Some type))) as [_|Hn];
       [reflexivity | exfalso; apply Hn; eauto].
Qed.

Lemma create_without_build_dir_witness :
  exists key s' new,
    Release.create (Release.sample_outside true 0) Base64.b64decode_utf8
      Release.sample_state_no_build_dir
    = (Raise (KeyError key), s') /\
    Release.log s' = Release.log Release.sample_state_no_build_dir ++ new /\
    Release.self s' = Release.self Release.sample_state_no_build_dir /\
    Release.shell_commands new = [] /\
    key = (if decide (is_Some (Release.metadata (Release.self Release.sample_state_no_build_dir)
                                !! "TYPE"))
           then "DOCKER_BUILD_DIR" else "TYPE").
Proof.
  apply (create_without_build_dir (Release.sample_outside true 0) Base64.b64decode_utf8
           Release.sample_state_no_build_dir).
  vm_compute. reflexivity.
Defined.
